(** * xero-tooth-direct: the OAuth2 / PKCE handlers of the Netlify functions

    A shallow embedding of
      - netlify/functions/xero-auth.js        (module [XeroAuth]),
      - netlify/functions/xero-callback.js    (module [XeroCallback]),
      - netlify/functions/xero-refresh.js     (module [XeroRefresh]),
      - netlify/functions/xero-connections.js (module [XeroConnections]),
    together with the parts of the JavaScript platform they call.

    Conventions.
      - A JavaScript string is a Rocq [string] holding its UTF-8 encoding;
        only well-formed strings are represented (no lone surrogates).
      - JavaScript numbers are IEEE doubles; they are kept abstract behind
        the class [Numbers].
      - [console.log] / [console.error] have no effect on the result of a
        handler and are left out. *)

From Stdlib Require Import ZArith Ascii String List Lia Bool.
From stdpp Require Import base option list gmap strings.

(* ===================================================================== *)
(** * Bytes and strings *)
(* ===================================================================== *)

Definition byte_of_ascii (c : ascii) : Z := Z.of_N (N_of_ascii c).

Definition ascii_of_byte (b : Z) : ascii := ascii_of_N (Z.to_N (b mod 256)).

Fixpoint bytes_of_string (s : string) : list Z :=
  match s with
  | EmptyString => []
  | String c r => byte_of_ascii c :: bytes_of_string r
  end.

Fixpoint string_of_bytes (l : list Z) : string :=
  match l with
  | [] => EmptyString
  | b :: r => String (ascii_of_byte b) (string_of_bytes r)
  end.

(** [s1 + s2 + ...] on strings. *)
Fixpoint concat_strings (l : list string) : string :=
  match l with
  | [] => EmptyString
  | s :: r => s +:+ concat_strings r
  end.

(** [Array.prototype.join] on an array of strings. *)
Fixpoint join (sep : string) (l : list string) : string :=
  match l with
  | [] => EmptyString
  | [s] => s
  | s :: r => s +:+ sep +:+ join sep r
  end.

(** [s.replace(/c/g, r)] for a one-character pattern [c]. *)
Fixpoint replace_all (c : ascii) (r : string) (s : string) : string :=
  match s with
  | EmptyString => EmptyString
  | String a s' =>
      if Ascii.eqb a c then r +:+ replace_all c r s'
      else String a (replace_all c r s')
  end.

(** [s.split(c)] for a one-character separator [c]: the pieces, in order. *)
Fixpoint split_on (c : ascii) (s : string) : list string :=
  match s with
  | EmptyString => [EmptyString]
  | String a s' =>
      if Ascii.eqb a c then EmptyString :: split_on c s'
      else match split_on c s' with
           | [] => [String a EmptyString]
           | p :: ps => String a p :: ps
           end
  end.

(** Decimal digits of a non-negative integer, most significant first. *)
Fixpoint digits_fuel (fuel : nat) (n : Z) (acc : string) : string :=
  match fuel with
  | O => acc
  | S f =>
      let acc' := String (ascii_of_byte (48 + n mod 10)) acc in
      if (n <? 10)%Z then acc' else digits_fuel f (n / 10) acc'
  end.

(** [String(n)] for an integer [n]. *)
Definition Z_to_string (n : Z) : string :=
  if (n <? 0)%Z
  then String "-" (digits_fuel (Z.to_nat (Z.log2 (- n)) + 1) (- n) EmptyString)
  else digits_fuel (Z.to_nat (Z.log2 n) + 1) n EmptyString.

(* ===================================================================== *)
(** * Hexadecimal and Base64 ([Buffer.prototype.toString]) *)
(* ===================================================================== *)

Module Hex.
Local Open Scope Z_scope.

Definition digit (upper : bool) (d : Z) : ascii :=
  if d <? 10 then ascii_of_byte (48 + d)
  else ascii_of_byte ((if upper then 55 else 87) + d).

Definition of_byte (upper : bool) (b : Z) : string :=
  String (digit upper (Z.shiftr b 4)) (String (digit upper (Z.land b 15)) EmptyString).

(** [buf.toString('hex')]: two lower-case digits per byte. *)
Definition encode (l : list Z) : string :=
  concat_strings (List.map (of_byte false) l).

(** The value of a hexadecimal digit, either case. *)
Definition value (c : ascii) : option Z :=
  let n := byte_of_ascii c in
  if (48 <=? n) && (n <=? 57) then Some (n - 48)
  else if (65 <=? n) && (n <=? 70) then Some (n - 55)
  else if (97 <=? n) && (n <=? 102) then Some (n - 87)
  else None.

End Hex.

Module Base64.
Local Open Scope Z_scope.

Definition alphabet : string :=
  "ABCDEFGHIJKLMNOPQRSTUVWXYZabcdefghijklmnopqrstuvwxyz0123456789+/".

Definition char (i : Z) : ascii :=
  match String.get (Z.to_nat (i mod 64)) alphabet with
  | Some c => c
  | None => "A"%char
  end.

Definition pad : ascii := "="%char.

(** [buf.toString('base64')]: three bytes give four characters; a last
    group of one or two bytes is padded with [=]. *)
Fixpoint encode (l : list Z) : string :=
  match l with
  | [] => EmptyString
  | [a] =>
      String (char (Z.shiftr a 2))
        (String (char (Z.shiftl (Z.land a 3) 4))
           (String pad (String pad EmptyString)))
  | [a; b] =>
      String (char (Z.shiftr a 2))
        (String (char (Z.lor (Z.shiftl (Z.land a 3) 4) (Z.shiftr b 4)))
           (String (char (Z.shiftl (Z.land b 15) 2))
              (String pad EmptyString)))
  | a :: b :: c :: rest =>
      String (char (Z.shiftr a 2))
        (String (char (Z.lor (Z.shiftl (Z.land a 3) 4) (Z.shiftr b 4)))
           (String (char (Z.lor (Z.shiftl (Z.land b 15) 2) (Z.shiftr c 6)))
              (String (char (Z.land c 63)) (encode rest))))
  end.

End Base64.

(* ===================================================================== *)
(** * SHA-256 ([crypto.createHash('sha256')]), after FIPS 180-4 *)
(* ===================================================================== *)

Module Sha256.
Local Open Scope Z_scope.

(** 32-bit words are integers in [0, 2^32); every sum wraps. *)
Definition wrap (x : Z) : Z := x mod 4294967296.
Definition add32 (x y : Z) : Z := wrap (x + y).
Definition not32 (x : Z) : Z := Z.lxor x 4294967295.
Definition rotr (n x : Z) : Z := Z.lor (Z.shiftr x n) (wrap (Z.shiftl x (32 - n))).

Definition Ch (x y z : Z) : Z := Z.lxor (Z.land x y) (Z.land (not32 x) z).
Definition Maj (x y z : Z) : Z :=
  Z.lxor (Z.lxor (Z.land x y) (Z.land x z)) (Z.land y z).
Definition bsig0 (x : Z) : Z := Z.lxor (Z.lxor (rotr 2 x) (rotr 13 x)) (rotr 22 x).
Definition bsig1 (x : Z) : Z := Z.lxor (Z.lxor (rotr 6 x) (rotr 11 x)) (rotr 25 x).
Definition ssig0 (x : Z) : Z := Z.lxor (Z.lxor (rotr 7 x) (rotr 18 x)) (Z.shiftr x 3).
Definition ssig1 (x : Z) : Z := Z.lxor (Z.lxor (rotr 17 x) (rotr 19 x)) (Z.shiftr x 10).

(** Round constants: the first 32 bits of the fractional parts of the cube
    roots of the first 64 primes. *)
Definition round_constants : list Z :=
  [ 1116352408; 1899447441; 3049323471; 3921009573; 961987163; 1508970993
  ; 2453635748; 2870763221; 3624381080; 310598401; 607225278; 1426881987
  ; 1925078388; 2162078206; 2614888103; 3248222580; 3835390401; 4022224774
  ; 264347078; 604807628; 770255983; 1249150122; 1555081692; 1996064986
  ; 2554220882; 2821834349; 2952996808; 3210313671; 3336571891; 3584528711
  ; 113926993; 338241895; 666307205; 773529912; 1294757372; 1396182291
  ; 1695183700; 1986661051; 2177026350; 2456956037; 2730485921; 2820302411
  ; 3259730800; 3345764771; 3516065817; 3600352804; 4094571909; 275423344
  ; 430227734; 506948616; 659060556; 883997877; 958139571; 1322822218
  ; 1537002063; 1747873779; 1955562222; 2024104815; 2227730452; 2361852424
  ; 2428436474; 2756734187; 3204031479; 3329325298 ].

Definition initial_hash : list Z :=
  [ 1779033703; 3144134277; 1013904242; 2773480762
  ; 1359893119; 2600822924; 528734635; 1541459225 ].

(** Big-endian bytes of [x], [n] of them. *)
Fixpoint be_bytes (n : nat) (x : Z) : list Z :=
  match n with
  | O => []
  | S m => (Z.shiftr x (8 * Z.of_nat m)) mod 256 :: be_bytes m x
  end.

(** Padding: a 1 bit, zeros, and the bit length on 64 bits, up to a
    multiple of 64 bytes. *)
Definition padded (msg : list Z) : list Z :=
  let len := Z.of_nat (length msg) in
  msg ++ [128] ++ List.repeat 0 (Z.to_nat ((55 - len) mod 64)) ++ be_bytes 8 (8 * len).

Fixpoint words (l : list Z) : list Z :=
  match l with
  | a :: b :: c :: d :: rest =>
      (Z.shiftl a 24 + Z.shiftl b 16 + Z.shiftl c 8 + d) :: words rest
  | _ => []
  end.

Fixpoint blocks (fuel : nat) (ws : list Z) : list (list Z) :=
  match fuel, ws with
  | S f, _ :: _ => firstn 16 ws :: blocks f (skipn 16 ws)
  | _, _ => []
  end.

(** The message schedule, grown from the 16 words of a block. *)
Fixpoint schedule (n : nat) (w : list Z) : list Z :=
  match n with
  | O => w
  | S m =>
      let t := length w in
      let at_ (k : nat) := nth (t - k) w 0 in
      schedule m
        (w ++ [add32 (add32 (ssig1 (at_ 2%nat)) (at_ 7%nat))
                     (add32 (ssig0 (at_ 15%nat)) (at_ 16%nat))])
  end.

Record regs := Regs { ra : Z; rb : Z; rc : Z; rd : Z; re : Z; rf : Z; rg : Z; rh : Z }.

Definition round (s : regs) (kw : Z * Z) : regs :=
  let t1 := add32 (add32 (add32 (rh s) (bsig1 (re s))) (add32 (Ch (re s) (rf s) (rg s)) (fst kw))) (snd kw) in
  let t2 := add32 (bsig0 (ra s)) (Maj (ra s) (rb s) (rc s)) in
  Regs (add32 t1 t2) (ra s) (rb s) (rc s) (add32 (rd s) t1) (re s) (rf s) (rg s).

Definition regs_of (h : list Z) : regs :=
  Regs (nth 0 h 0) (nth 1 h 0) (nth 2 h 0) (nth 3 h 0)
       (nth 4 h 0) (nth 5 h 0) (nth 6 h 0) (nth 7 h 0).

Definition list_of (s : regs) : list Z :=
  [ra s; rb s; rc s; rd s; re s; rf s; rg s; rh s].

Definition compress (h : list Z) (block : list Z) : list Z :=
  let w := schedule 48 block in
  let s := fold_left round (combine round_constants w) (regs_of h) in
  List.map (fun p => add32 (fst p) (snd p)) (combine h (list_of s)).

(** The digest: 32 bytes. *)
Definition digest (msg : list Z) : list Z :=
  let ws := words (padded msg) in
  let h := fold_left compress (blocks (length ws) ws) initial_hash in
  List.concat (List.map (be_bytes 4) h).

End Sha256.

(* ===================================================================== *)
(** * Exceptions and results *)
(* ===================================================================== *)

(** A thrown [Error] object: its class name and its [message]. *)
Record js_error := JsError { error_name : string; error_message : string }.

Definition TypeError (msg : string) : js_error := JsError "TypeError" msg.
Definition URIError (msg : string) : js_error := JsError "URIError" msg.
Definition SyntaxError (msg : string) : js_error := JsError "SyntaxError" msg.
Definition FetchError (msg : string) : js_error := JsError "FetchError" msg.

(** An expression either evaluates to a value or throws. *)
Inductive outcome (A : Type) : Type :=
| Return (a : A)
| Throw (e : js_error).
Arguments Return {A} a.
Arguments Throw {A} e.

#[export] Instance outcome_ret : MRet outcome := @Return.
#[export] Instance outcome_bind : MBind outcome := fun A B f m =>
  match m with
  | Return a => f a
  | Throw e => Throw e
  end.

(* ===================================================================== *)
(** * URI component coding (ECMA-262, 19.2.6) *)
(* ===================================================================== *)

Module URI.
Local Open Scope Z_scope.

Definition is_alnum (n : Z) : bool :=
  ((48 <=? n) && (n <=? 57)) || ((65 <=? n) && (n <=? 90)) || ((97 <=? n) && (n <=? 122)).

(** The characters [encodeURIComponent] leaves alone: letters, digits and
    [- _ . ! ~ * ' ( )]. *)
Definition unreserved (c : ascii) : bool :=
  let n := byte_of_ascii c in
  is_alnum n
  || (n =? 45) || (n =? 95) || (n =? 46) || (n =? 33) || (n =? 126)
  || (n =? 42) || (n =? 39) || (n =? 40) || (n =? 41).

Definition escape (c : ascii) : string :=
  String "%" (Hex.of_byte true (byte_of_ascii c)).

(** [encodeURIComponent(s)]: every byte of the UTF-8 encoding that is not
    unreserved becomes [%XX].  The engine throws [URIError] on a string
    with a lone surrogate; the strings represented here have none (see the
    conventions), which is why this function is total. *)
Fixpoint encodeURIComponent (s : string) : string :=
  match s with
  | EmptyString => EmptyString
  | String c r =>
      if unreserved c then String c (encodeURIComponent r)
      else escape c +:+ encodeURIComponent r
  end.

(** The byte written [%XY] at the head of [s], and what follows it. *)
Definition percent_byte (s : string) : option (Z * string) :=
  match s with
  | String "%" (String h (String l rest)) =>
      match Hex.value h, Hex.value l with
      | Some a, Some b => Some (16 * a + b, rest)
      | _, _ => None
      end
  | _ => None
  end.

(** [n] further escaped bytes, each of the form 10xxxxxx. *)
Fixpoint continuation (n : nat) (s : string) : option (list Z * string) :=
  match n with
  | O => Some ([], s)
  | S m =>
      match percent_byte s with
      | Some (b, rest) =>
          if (128 <=? b) && (b <=? 191) then
            match continuation m rest with
            | Some (bs, rest') => Some (b :: bs, rest')
            | None => None
            end
          else None
      | None => None
      end
  end.

(** The number of bytes announced by a leading byte (its leading 1 bits). *)
Definition sequence_length (b : Z) : option nat :=
  if (192 <=? b) && (b <=? 223) then Some 2%nat
  else if (224 <=? b) && (b <=? 239) then Some 3%nat
  else if (240 <=? b) && (b <=? 247) then Some 4%nat
  else None.

(** Well-formed UTF-8 of one code point: shortest form, no surrogate,
    at most U+10FFFF (continuation bytes are checked by [continuation]). *)
Definition well_formed (bs : list Z) : bool :=
  match bs with
  | [a; _] => 194 <=? a
  | [a; b; _] =>
      if a =? 224 then 160 <=? b
      else if a =? 237 then b <=? 159
      else true
  | [a; b; _; _] =>
      if a =? 240 then 144 <=? b
      else if a =? 244 then b <=? 143
      else a <? 244
  | _ => false
  end.

Definition malformed : js_error := URIError "URI malformed".

Fixpoint decode (fuel : nat) (s : string) : outcome string :=
  match fuel, s with
  | _, EmptyString => Return EmptyString
  | O, _ => Return s
  | S f, String c r =>
      if Ascii.eqb c "%" then
        match percent_byte s with
        | None => Throw malformed
        | Some (b, rest) =>
            if b <? 128 then
              t ← decode f rest; Return (String (ascii_of_byte b) t)
            else
              match sequence_length b with
              | None => Throw malformed
              | Some n =>
                  match continuation (n - 1) rest with
                  | None => Throw malformed
                  | Some (bs, rest') =>
                      if well_formed (b :: bs) then
                        t ← decode f rest'; Return (string_of_bytes (b :: bs) +:+ t)
                      else Throw malformed
                  end
              end
        end
      else
        t ← decode f r; Return (String c t)
  end.

(** [decodeURIComponent(s)]; throws [URIError] on a malformed escape. *)
Definition decodeURIComponent (s : string) : outcome string :=
  decode (String.length s) s.

End URI.

(* ===================================================================== *)
(** * JavaScript values *)
(* ===================================================================== *)

(** Numbers are IEEE-754 doubles.  Their arithmetic, parsing and printing
    are taken as given by the engine. *)
Class Numbers := {
  number : Type;
  num_of_Z : Z -> number;
  num_nan : number;
  (** StringToNumber: the numeric value of a string, [NaN] if it has none *)
  num_of_string : string -> number;
  num_add : number -> number -> number;
  num_mul : number -> number -> number;
  (** [x < y]; false when an operand is [NaN] *)
  num_ltb : number -> number -> bool;
  (** [x === y] *)
  num_eqb : number -> number -> bool;
  (** [+0], [-0] and [NaN] *)
  num_falsy : number -> bool;
  num_finite : number -> bool;
  (** Number::toString *)
  num_to_string : number -> string;
  (** integers below 2^53 in magnitude are exact, and rounding is monotone *)
  num_ltb_of_Z : forall a b : Z,
    (- 2 ^ 53 < a < 2 ^ 53)%Z -> num_ltb (num_of_Z a) (num_of_Z b) = (a <? b)%Z;
}.

(** The values that JSON text, query strings and cookies give rise to.
    An object lists its own enumerable properties in enumeration order,
    each key once. *)
#[warnings="-register-all"]
Inductive value `{Numbers} : Type :=
| VUndefined
| VNull
| VBool (b : bool)
| VNum (n : number)
| VStr (s : string)
| VArr (elements : list value)
| VObj (members : list (string * value)).

Section Values.
Context `{Numbers}.

(** ToBoolean *)
Definition truthy (v : value) : bool :=
  match v with
  | VUndefined | VNull => false
  | VBool b => b
  | VNum n => negb (num_falsy n)
  | VStr s => negb (String.eqb s EmptyString)
  | VArr _ | VObj _ => true
  end.

(** [a || b] *)
Definition js_or (a b : value) : value := if truthy a then a else b.

Definition cannot_convert : js_error :=
  TypeError "Cannot convert object to primitive value".

Fixpoint has_member (k : string) (ms : list (string * value)) : bool :=
  match ms with
  | [] => false
  | (k', _) :: r => String.eqb k k' || has_member k r
  end.

(** ToString.  An array joins its elements with commas, [null] and
    [undefined] elements printing as nothing.  A plain object prints as
    [[object Object]] through the inherited [toString]; one that has a
    property of its own called [toString] (never a function in JSON data)
    has no primitive value. *)
Fixpoint ToString (v : value) : outcome string :=
  match v with
  | VUndefined => Return "undefined"
  | VNull => Return "null"
  | VBool b => Return (if b then "true" else "false")
  | VNum n => Return (num_to_string n)
  | VStr s => Return s
  | VArr l =>
      let fix elems (l : list value) : outcome (list string) :=
        match l with
        | [] => Return []
        | x :: r =>
            s ← match x with
                | VUndefined | VNull => Return EmptyString
                | _ => ToString x
                end;
            ss ← elems r;
            Return (s :: ss)
        end in
      ss ← elems l; Return (join "," ss)
  | VObj ms =>
      if has_member "toString" ms then Throw cannot_convert
      else Return "[object Object]"
  end.

(** ToNumber *)
Definition ToNumber (v : value) : outcome number :=
  match v with
  | VUndefined => Return num_nan
  | VNull => Return (num_of_Z 0)
  | VBool b => Return (num_of_Z (if b then 1 else 0))
  | VNum n => Return n
  | VStr s => Return (num_of_string s)
  | VArr _ | VObj _ => s ← ToString v; Return (num_of_string s)
  end.

(** [v > k] for a numeric literal [k] *)
Definition js_gt (v : value) (k : Z) : outcome bool :=
  n ← ToNumber v; Return (num_ltb (num_of_Z k) n).

(** [a === b].  Two arrays or objects are equal only when they are the
    same object, which values reaching a handler from different places
    never are. *)
Definition strict_equal (a b : value) : bool :=
  match a, b with
  | VUndefined, VUndefined => true
  | VNull, VNull => true
  | VBool x, VBool y => Bool.eqb x y
  | VNum x, VNum y => num_eqb x y
  | VStr x, VStr y => String.eqb x y
  | _, _ => false
  end.

(** The length of a string in UTF-16 code units, from its UTF-8 bytes:
    one per code point, two for a code point outside the basic plane. *)
Fixpoint utf16_length (s : string) : Z :=
  match s with
  | EmptyString => 0
  | String c r =>
      let b := byte_of_ascii c in
      ((if (128 <=? b) && (b <=? 191) then 0 else if 240 <=? b then 2 else 1)
       + utf16_length r)%Z
  end.

Fixpoint lookup_member (k : string) (ms : list (string * value)) : value :=
  match ms with
  | [] => VUndefined
  | (k', v) :: r => if String.eqb k k' then v else lookup_member k r
  end.

Definition cannot_read (base k : string) : js_error :=
  TypeError ("Cannot read properties of " +:+ base +:+ " (reading '" +:+ k +:+ "')").

(** [v.k] for the property names the handlers read ([length] apart, none
    of them is inherited from a prototype). *)
Definition get (v : value) (k : string) : outcome value :=
  match v with
  | VUndefined => Throw (cannot_read "undefined" k)
  | VNull => Throw (cannot_read "null" k)
  | VObj ms => Return (lookup_member k ms)
  | VArr l =>
      Return (if String.eqb k "length" then VNum (num_of_Z (Z.of_nat (length l)))
              else VUndefined)
  | VStr s =>
      Return (if String.eqb k "length" then VNum (num_of_Z (utf16_length s))
              else VUndefined)
  | VBool _ | VNum _ => Return VUndefined
  end.

(** The first character of a string (its first code point). *)
Definition first_char (s : string) : value :=
  match s with
  | EmptyString => VUndefined
  | String c r =>
      let n := match URI.sequence_length (byte_of_ascii c) with
               | Some n => n
               | None => 1%nat
               end in
      VStr (String.substring 0 n s)
  end.

(** [v[0]] *)
Definition get_first (v : value) : outcome value :=
  match v with
  | VUndefined => Throw (cannot_read "undefined" "0")
  | VNull => Throw (cannot_read "null" "0")
  | VArr l => Return (match l with x :: _ => x | [] => VUndefined end)
  | VObj ms => Return (lookup_member "0" ms)
  | VStr s => Return (first_char s)
  | VBool _ | VNum _ => Return VUndefined
  end.

End Values.

(* ===================================================================== *)
(** * JSON.stringify *)
(* ===================================================================== *)

Module JSON.
Section Stringify.
Context `{Numbers}.

Definition dquote : ascii := "034"%char.
Definition backslash : ascii := "092"%char.

Definition escape_char (c : ascii) : string :=
  let n := byte_of_ascii c in
  if (n =? 34)%Z then String backslash (String dquote EmptyString)
  else if (n =? 92)%Z then String backslash (String backslash EmptyString)
  else if (n =? 8)%Z then String backslash "b"
  else if (n =? 12)%Z then String backslash "f"
  else if (n =? 10)%Z then String backslash "n"
  else if (n =? 13)%Z then String backslash "r"
  else if (n =? 9)%Z then String backslash "t"
  else if (n <? 32)%Z then String backslash ("u00" +:+ Hex.of_byte false n)
  else String c EmptyString.

Fixpoint escape (s : string) : string :=
  match s with
  | EmptyString => EmptyString
  | String c r => escape_char c +:+ escape r
  end.

(** QuoteJSONString *)
Definition quote (s : string) : string :=
  String dquote (escape s +:+ String dquote EmptyString).

(** [JSON.stringify(v)]; [None] stands for the result [undefined]. *)
Fixpoint stringify (v : value) : option string :=
  match v with
  | VUndefined => None
  | VNull => Some "null"
  | VBool b => Some (if b then "true" else "false")
  | VNum n => Some (if num_finite n then num_to_string n else "null")
  | VStr s => Some (quote s)
  | VArr l =>
      let fix elems (l : list value) : list string :=
        match l with
        | [] => []
        | x :: r =>
            match stringify x with
            | Some t => t
            | None => "null"
            end :: elems r
        end in
      Some ("[" +:+ join "," (elems l) +:+ "]")
  | VObj ms =>
      let fix members (ms : list (string * value)) : list string :=
        match ms with
        | [] => []
        | (k, x) :: r =>
            match stringify x with
            | Some t => (quote k +:+ ":" +:+ t) :: members r
            | None => members r
            end
        end in
      Some ("{" +:+ join "," (members ms) +:+ "}")
  end.

(** [JSON.stringify] of an array or an object, which is never [undefined]. *)
Definition stringify_object_or_array (v : value) : string :=
  match stringify v with
  | Some t => t
  | None => EmptyString
  end.

(** [JSON.stringify] of an object literal. *)
Definition stringify_object (ms : list (string * value)) : string :=
  stringify_object_or_array (VObj ms).

End Stringify.
End JSON.

(* ===================================================================== *)
(** * The platform: events, responses, the network and the clock *)
(* ===================================================================== *)

(** The Netlify event, as far as the handlers read it. *)
Record event := Event {
  httpMethod : string;
  queryStringParameters : gmap string string;
  headers : gmap string string;
  body : option string;
}.

(** The object a handler returns; [resp_body] is [None] when the object has
    no [body] property. *)
Record http_response := HttpResponse {
  statusCode : Z;
  resp_headers : list (string * string);
  resp_body : option string;
}.

(** A request made with [fetch]. *)
Record request := Request {
  req_url : string;
  req_method : string;
  req_headers : list (string * string);
  req_body : option string;
}.

(** The response [fetch] resolves to: its status and its body text. *)
Record fetch_response := FetchResponse {
  status : Z;
  text : string;
}.

(** [response.ok] *)
Definition ok (r : fetch_response) : bool :=
  (200 <=? status r)%Z && (status r <? 300)%Z.

(** What a handler finds around it: [process.env], the network (which
    answers a request with a response or fails), [Date.now()] and the
    bytes [crypto.randomBytes] draws. *)
Record world `{Numbers} := World {
  env : gmap string string;
  network : request -> outcome fetch_response;
  clock : number;
  entropy : nat -> Z;
}.

(** The platform functions the handlers call whose definition belongs to a
    library or to the engine: [JSON.parse], [cookie.parse],
    [querystring.parse] (each of the last two returns the properties of the
    object it builds) and [Date.prototype.toUTCString]. *)
Class Runtime `{Numbers} := {
  JSON_parse : string -> outcome value;
  cookie_parse : string -> list (string * value);
  querystring_parse : string -> list (string * value);
  Date_toUTCString : number -> string;
  JSON_parse_empty_object : JSON_parse "{}" = Return (VObj []);
}.

Section Platform.
Context `{Runtime}.

(** [m.k] for a map of strings: the string, or [undefined]. *)
Definition field (m : gmap string string) (k : string) : value :=
  match m !! k with
  | Some s => VStr s
  | None => VUndefined
  end.

(** A string or [null]. *)
Definition nullable (o : option string) : value :=
  match o with
  | Some s => VStr s
  | None => VNull
  end.

(** An asynchronous computation: it may issue requests (recorded in order)
    and ends with a value or a thrown error. *)
Definition M (A : Type) : Type := list request -> outcome A * list request.

#[export] Instance M_ret : MRet M := fun A a tr => (Return a, tr).
#[export] Instance M_bind : MBind M := fun A B f m tr =>
  match m tr with
  | (Return a, tr') => f a tr'
  | (Throw e, tr') => (Throw e, tr')
  end.

Definition lift {A} (o : outcome A) : M A := fun tr => (o, tr).

Definition throw {A} (e : js_error) : M A := fun tr => (Throw e, tr).

(** [await fetch(...)] *)
Definition fetch (w : world) (r : request) : M fetch_response :=
  fun tr => (network w r, tr ++ [r]).

(** [try { m } catch (error) { h error }] *)
Definition try_catch {A} (m : M A) (h : js_error -> M A) : M A := fun tr =>
  match m tr with
  | (Throw e, tr') => h e tr'
  | r => r
  end.

(** Running a handler from the start: its result and the requests made. *)
Definition run {A} (m : M A) : outcome A * list request := m [].

(** [await response.json()] (node-fetch) *)
Definition response_json (url : string) (r : fetch_response) : outcome value :=
  match JSON_parse (text r) with
  | Return v => Return v
  | Throw e =>
      Throw (FetchError ("invalid json response body at " +:+ url +:+ " reason: "
                         +:+ error_message e))
  end.

(** [encodeURIComponent(v)] *)
Definition encodeURIComponent (v : value) : outcome string :=
  s ← ToString v; Return (URI.encodeURIComponent s).

(** [Buffer.from(s).toString('base64')] *)
Definition base64 (s : string) : string := Base64.encode (bytes_of_string s).

(** [crypto.randomBytes(n)], drawing from position [from]. *)
Definition randomBytes (w : world) (from n : nat) : list Z :=
  List.map (fun i => entropy w i mod 256)%Z (seq from n).

End Platform.

(** ** [querystring.stringify] *)

Module Querystring.
Section Stringify.
Context `{Numbers}.

(** A primitive as it is written in a query string; anything else is
    written as nothing. *)
Definition encodeStringified (v : value) : string :=
  match v with
  | VStr s => URI.encodeURIComponent s
  | VNum n => if num_finite n then URI.encodeURIComponent (num_to_string n) else EmptyString
  | VBool b => if b then "true" else "false"
  | _ => EmptyString
  end.

Definition pairs (kv : string * value) : list string :=
  let ks := URI.encodeURIComponent (fst kv) +:+ "=" in
  match snd kv with
  | VArr l => List.map (fun x => ks +:+ encodeStringified x) l
  | v => [ks +:+ encodeStringified v]
  end.

Definition stringify (obj : list (string * value)) : string :=
  join "&" (List.concat (List.map pairs obj)).

End Stringify.
End Querystring.

(** ** [URLSearchParams] serialisation (application/x-www-form-urlencoded) *)

Module URLSearchParams.

Definition plain (c : ascii) : bool :=
  let n := byte_of_ascii c in
  URI.is_alnum n || (n =? 42)%Z || (n =? 45)%Z || (n =? 46)%Z || (n =? 95)%Z.

Fixpoint encode (s : string) : string :=
  match s with
  | EmptyString => EmptyString
  | String c r =>
      if plain c then String c (encode r)
      else if Ascii.eqb c " " then String "+" (encode r)
      else URI.escape c +:+ encode r
  end.

Definition serialize (params : list (string * string)) : string :=
  join "&" (List.map (fun p => encode (fst p) +:+ "=" +:+ encode (snd p)) params).

(** [url.toString()] of a URL without query to which [params] were appended. *)
Definition href (base : string) (params : list (string * string)) : string :=
  match params with
  | [] => base
  | _ => base +:+ "?" +:+ serialize params
  end.

End URLSearchParams.

(** ** [cookie.serialize] *)

Module Cookie.

Inductive same_site := Lax | Strict | SameSiteNone.

Record options `{Numbers} := Options {
  path : option string;
  secure : bool;
  httpOnly : bool;
  sameSite : option same_site;
  maxAge : option Z;
  expires : option number;
}.

Section Serialize.
Context `{Runtime}.

Definition attribute (present : bool) (s : string) : string :=
  if present then s else EmptyString.

(** [cookie.serialize(name, val, options)] for a valid cookie name: the
    value is URI-encoded, the attributes follow in the library's order. *)
Definition serialize (name : string) (val : value) (opt : options) : outcome string :=
  v ← encodeURIComponent val;
  Return (concat_strings
    [ name; "="; v
    ; match maxAge opt with Some a => "; Max-Age=" +:+ Z_to_string a | None => EmptyString end
    ; match path opt with Some p => "; Path=" +:+ p | None => EmptyString end
    ; match expires opt with Some d => "; Expires=" +:+ Date_toUTCString d | None => EmptyString end
    ; attribute (httpOnly opt) "; HttpOnly"
    ; attribute (secure opt) "; Secure"
    ; match sameSite opt with
      | Some Lax => "; SameSite=Lax"
      | Some Strict => "; SameSite=Strict"
      | Some SameSiteNone => "; SameSite=None"
      | None => EmptyString
      end ]).

End Serialize.
End Cookie.

(* ===================================================================== *)
(** * netlify/functions/xero-auth.js *)
(* ===================================================================== *)

Module XeroAuth.
Section Handler.
Context `{Runtime}.

(** The PKCE challenge of a verifier:
    [crypto.createHash('sha256').update(codeVerifier).digest('base64')
       .replace(/\+/g, '-').replace(/\//g, '_').replace(/=/g, '')]. *)
Definition codeChallenge (codeVerifier : string) : string :=
  replace_all "=" EmptyString
    (replace_all "/" "_"
       (replace_all "+" "-"
          (Base64.encode (Sha256.digest (bytes_of_string codeVerifier))))).

Definition scope : string :=
  join " " [ "openid"; "profile"; "email"; "offline_access"
           ; "accounting.transactions.read"; "accounting.settings.read" ].

(** [`${process.env.URL || 'http://localhost:8888'}/.netlify/functions/xero-callback`] *)
Definition redirectUri (w : world) : outcome string :=
  baseUrl ← ToString (js_or (field (env w) "URL") (VStr "http://localhost:8888"));
  Return (baseUrl +:+ "/.netlify/functions/xero-callback").

(** The parameters appended to the authorization URL, in order. *)
Definition searchParams (clientId redirectUri state codeChallenge : string)
  : list (string * string) :=
  [ ("client_id", clientId)
  ; ("response_type", "code")
  ; ("redirect_uri", redirectUri)
  ; ("scope", scope)
  ; ("state", state)
  ; ("code_challenge", codeChallenge)
  ; ("code_challenge_method", "S256") ].

Definition handler (w : world) : M http_response :=
  try_catch
    (let clientId := field (env w) "XERO_CLIENT_ID" in
     if negb (truthy clientId) then
       throw (JsError "Error" "Missing XERO_CLIENT_ID environment variable")
     else
     let state := Hex.encode (randomBytes w 0 16) in
     let codeVerifier := Hex.encode (randomBytes w 16 32) in
     let codeChallenge := codeChallenge codeVerifier in
     let cookieExpiresDate := num_add (clock w) (num_of_Z (1000 * 60 * 15)) in
     let cookieValue := "state=" +:+ state +:+ "&code_verifier=" +:+ codeVerifier in
     let cookieHeader :=
       "xero_auth=" +:+ URI.encodeURIComponent cookieValue
       +:+ "; Path=/; Expires=" +:+ Date_toUTCString cookieExpiresDate
       +:+ "; SameSite=Lax; HttpOnly; Secure" in
     redirectUri ← lift (redirectUri w);
     clientId ← lift (ToString clientId);
     let xeroAuthUrl :=
       URLSearchParams.href "https://login.xero.com/identity/connect/authorize"
         (searchParams clientId redirectUri state codeChallenge) in
     mret {| statusCode := 302;
             resp_headers := [ ("Location", xeroAuthUrl)
                             ; ("Set-Cookie", cookieHeader)
                             ; ("Cache-Control", "no-cache") ];
             resp_body := None |})
    (fun error =>
       mret {| statusCode := 500;
               resp_headers := [ ("Content-Type", "application/json") ];
               resp_body := Some (JSON.stringify_object
                                    [ ("error", VStr "Server error")
                                    ; ("message", VStr (error_message error)) ]) |}).

End Handler.
End XeroAuth.

(* ===================================================================== *)
(** * netlify/functions/xero-callback.js *)
(* ===================================================================== *)

Module XeroCallback.
Section Handler.
Context `{Runtime}.

(** Helper function to redirect with an error message *)
Definition redirectWithError (message : string) : http_response :=
  {| statusCode := 302;
     resp_headers := [ ("Location", "/?auth=error&message=" +:+ URI.encodeURIComponent message)
                     ; ("Cache-Control", "no-cache") ];
     resp_body := None |}.

Definition token_endpoint : string := "https://identity.xero.com/connect/token".
Definition connections_endpoint : string := "https://api.xero.com/connections".

(** [`Basic ${Buffer.from(`${clientId}:${clientSecret}`).toString('base64')}`] *)
Definition basic_auth (clientId clientSecret : value) : outcome string :=
  id ← ToString clientId;
  secret ← ToString clientSecret;
  Return ("Basic " +:+ base64 (id +:+ ":" +:+ secret)).

(** The request that exchanges the authorization code for tokens. *)
Definition token_request (authorization : string) (code : value)
    (redirectUri : string) (codeVerifier : value) : request :=
  {| req_url := token_endpoint;
     req_method := "POST";
     req_headers := [ ("Content-Type", "application/x-www-form-urlencoded")
                    ; ("Authorization", authorization) ];
     req_body := Some (Querystring.stringify
                         [ ("grant_type", VStr "authorization_code")
                         ; ("code", code)
                         ; ("redirect_uri", VStr redirectUri)
                         ; ("code_verifier", codeVerifier) ]) |}.

(** The request for the list of tenant connections. *)
Definition connections_request (bearer : string) : request :=
  {| req_url := connections_endpoint;
     req_method := "GET";
     req_headers := [ ("Authorization", "Bearer " +:+ bearer)
                    ; ("Accept", "application/json") ];
     req_body := None |}.

(** [{ path: '/', secure: true, httpOnly: true, sameSite: 'Lax',
       maxAge: 30 * 24 * 60 * 60 }] *)
Definition cookieOptions : Cookie.options :=
  {| Cookie.path := Some "/";
     Cookie.secure := true;
     Cookie.httpOnly := true;
     Cookie.sameSite := Some Cookie.Lax;
     Cookie.maxAge := Some (30 * 24 * 60 * 60)%Z;
     Cookie.expires := None |}.

(** [{ ...cookieOptions, expires: new Date(0) }] *)
Definition expiredOptions : Cookie.options :=
  {| Cookie.path := Cookie.path cookieOptions;
     Cookie.secure := Cookie.secure cookieOptions;
     Cookie.httpOnly := Cookie.httpOnly cookieOptions;
     Cookie.sameSite := Cookie.sameSite cookieOptions;
     Cookie.maxAge := Cookie.maxAge cookieOptions;
     Cookie.expires := Some (num_of_Z 0) |}.

(** [tokenData.id_token.split('.')[1]] for a truthy [id_token] *)
Definition split_second (id_token : value) : outcome value :=
  match id_token with
  | VStr s =>
      Return (match split_on "." s with
              | _ :: p :: _ => VStr p
              | _ => VUndefined
              end)
  | _ => Throw (TypeError "tokenData.id_token.split is not a function")
  end.

(** The cookies the handler builds once the tenant is known, in the order
    it builds them: [authCookie], [tenantIdCookie], [tenantNameCookie],
    [userIdCookie] and [clearAuthCookie]. *)
Definition session_cookies (tokenData tenantId tenantName : value)
  : outcome (list string) :=
  authCookie ← Cookie.serialize "xero_authenticated" (VStr "true") cookieOptions;
  tenantIdCookie ← Cookie.serialize "xero_tenant_id" (js_or tenantId (VStr EmptyString)) cookieOptions;
  tenantNameCookie ← Cookie.serialize "xero_tenant_name" (js_or tenantName (VStr EmptyString)) cookieOptions;
  id_token ← get tokenData "id_token";
  userIdCookie ←
    (if truthy id_token then
       part ← split_second id_token;
       Cookie.serialize "xero_user_id" (js_or part (VStr EmptyString)) cookieOptions
     else Return EmptyString);
  clearAuthCookie ← Cookie.serialize "xero_auth" (VStr EmptyString) expiredOptions;
  Return [authCookie; tenantIdCookie; tenantNameCookie; userIdCookie; clearAuthCookie].

(** [conn => ({ tenantId: conn.tenantId,
                tenantName: conn.tenantName || 'Unnamed Organization' })] *)
Definition tenant_entry (conn : value) : outcome value :=
  tenantId ← get conn "tenantId";
  tenantName ← get conn "tenantName";
  Return (VObj [ ("tenantId", tenantId)
               ; ("tenantName", js_or tenantName (VStr "Unnamed Organization")) ]).

Fixpoint map_entries (l : list value) : outcome (list value) :=
  match l with
  | [] => Return []
  | conn :: r =>
      e ← tenant_entry conn;
      es ← map_entries r;
      Return (e :: es)
  end.

(** [connections.map(conn => ...)] *)
Definition connections_map (connections : value) : outcome value :=
  match connections with
  | VArr l => es ← map_entries l; Return (VArr es)
  | VUndefined => Throw (cannot_read "undefined" "map")
  | VNull => Throw (cannot_read "null" "map")
  | _ => Throw (TypeError "connections.map is not a function")
  end.

(** [connections.length > 0 ? connections[0].k : otherwise] *)
Definition first_or (connections : value) (k : string) (otherwise : value)
  : outcome value :=
  len ← get connections "length";
  some ← js_gt len 0;
  if some : bool then
    first ← get_first connections;
    get first k
  else Return otherwise.

(** The token bundle handed to the browser. *)
Definition token_bundle (w : world) (tokenData : value) : outcome string :=
  access_token ← get tokenData "access_token";
  refresh_token ← get tokenData "refresh_token";
  expires_in ← get tokenData "expires_in";
  seconds ← ToNumber expires_in;
  Return (JSON.stringify_object
            [ ("access_token", access_token)
            ; ("refresh_token", refresh_token)
            ; ("expires_at", VNum (num_add (clock w) (num_mul seconds (num_of_Z 1000)))) ]).

(** The [Location] of the success redirect. *)
Definition success_location (w : world) (tokenData connections tenantId tenantName orgData : value)
  : outcome string :=
  name ← encodeURIComponent (js_or tenantName (VStr "Unknown"));
  id ← encodeURIComponent (js_or tenantId (VStr EmptyString));
  len ← get connections "length";
  multiple ← js_gt len 1;
  tokens ← token_bundle w tokenData;
  Return (concat_strings
    [ "/?auth=success&tenantName="; name
    ; "&tenantId="; id
    ; "&multipleOrgs="; if multiple : bool then "true" else "false"
    ; "&tenants="; URI.encodeURIComponent (JSON.stringify_object_or_array orgData)
    ; "&tokens="; URI.encodeURIComponent tokens ]).

(** The end of the handler, from the list of connections to the success
    redirect (the template in [console.log] reads [connections.length]
    and turns it into a string). *)
Definition tenant_redirect (w : world) (tokenData connections : value)
  : outcome http_response :=
  count ← get connections "length";
  _ ← ToString count;
  (* Store the first tenant ID in a cookie (simplified approach) *)
  tenantId ← first_or connections "tenantId" VNull;
  tenantName ← first_or connections "tenantName" (VStr "Unknown Organization");
  (* Create simplified authentication cookies; clear the auth cookie *)
  _ ← session_cookies tokenData tenantId tenantName;
  (* Store connections for tenant selection if there are multiple *)
  tenantsData ← connections_map connections;
  orgData ← connections_map connections;
  (* Use URL parameters to pass everything we need including tokens *)
  location ← success_location w tokenData connections tenantId tenantName orgData;
  Return {| statusCode := 302;
            resp_headers := [ ("Location", location)
                            ; ("Cache-Control", "no-cache") ];
            resp_body := None |}.

Definition handler (w : world) (ev : event) : M http_response :=
  try_catch
    (let params := queryStringParameters ev in
     (* Check for errors in the callback *)
     if truthy (field params "error") then
       message ← lift (ToString (js_or (field params "error_description") (field params "error")));
       mret (redirectWithError ("Authentication error: " +:+ message))
     else
     (* Get the authorization code from the query parameters *)
     let code := field params "code" in
     if negb (truthy code) then
       mret (redirectWithError "No authorization code received from Xero")
     else
     (* Get state from query parameters *)
     let receivedState := field params "state" in
     if negb (truthy receivedState) then
       mret (redirectWithError "Invalid authentication request (missing state)")
     else
     (* Get stored state and code verifier from cookies *)
     header ← lift (ToString (js_or (field (headers ev) "cookie") (VStr EmptyString)));
     let cookies := cookie_parse header in
     let xeroCookie := lookup_member "xero_auth" cookies in
     if negb (truthy xeroCookie) then
       mret (redirectWithError "Authentication session expired or invalid")
     else
     (* Parse cookie value *)
     raw ← lift (ToString xeroCookie);
     decoded ← lift (URI.decodeURIComponent raw);
     let cookieData := querystring_parse decoded in
     let storedState := lookup_member "state" cookieData in
     let codeVerifier := lookup_member "code_verifier" cookieData in
     (* Verify state parameter to prevent CSRF attacks *)
     if negb (strict_equal receivedState storedState) then
       mret (redirectWithError "Invalid authentication request (state mismatch)")
     else
     (* Get Xero client credentials from environment variables *)
     let clientId := field (env w) "XERO_CLIENT_ID" in
     let clientSecret := field (env w) "XERO_CLIENT_SECRET" in
     if negb (truthy clientId) || negb (truthy clientSecret) then
       mret (redirectWithError "Server configuration error (missing Xero credentials)")
     else
     (* Build the redirect URI (must match the one used in the authorization request) *)
     baseUrl ← lift (ToString (js_or (field (env w) "URL") (VStr "http://localhost:8888")));
     let redirectUri := baseUrl +:+ "/.netlify/functions/xero-callback" in
     (* Exchange the authorization code for tokens *)
     authorization ← lift (basic_auth clientId clientSecret);
     tokenResponse ← fetch w (token_request authorization code redirectUri codeVerifier);
     if negb (ok tokenResponse) then
       mret (redirectWithError ("Failed to exchange code for tokens ("
                                +:+ Z_to_string (status tokenResponse) +:+ ")"))
     else
     (* Parse the token response *)
     tokenData ← lift (response_json token_endpoint tokenResponse);
     (* Get user info from Xero *)
     access_token ← lift (get tokenData "access_token");
     bearer ← lift (ToString access_token);
     userInfoResponse ← fetch w (connections_request bearer);
     if negb (ok userInfoResponse) then
       mret (redirectWithError "Connected to Xero, but failed to get user details")
     else
     connections ← lift (response_json connections_endpoint userInfoResponse);
     lift (tenant_redirect w tokenData connections))
    (fun error =>
       mret (redirectWithError ("Server error: " +:+ error_message error))).

End Handler.
End XeroCallback.

(* ===================================================================== *)
(** * netlify/functions/xero-refresh.js *)
(* ===================================================================== *)

Module XeroRefresh.
Section Handler.
Context `{Runtime}.

Definition corsHeaders : list (string * string) :=
  [ ("Access-Control-Allow-Origin", "*")
  ; ("Access-Control-Allow-Headers", "Content-Type")
  ; ("Access-Control-Allow-Methods", "POST, OPTIONS") ].

Definition token_endpoint : string := "https://identity.xero.com/connect/token".

(** The request that trades a refresh token for new tokens. *)
Definition refresh_request (authorization : string) (refreshToken : value) : request :=
  {| req_url := token_endpoint;
     req_method := "POST";
     req_headers := [ ("Content-Type", "application/x-www-form-urlencoded")
                    ; ("Authorization", authorization) ];
     req_body := Some (Querystring.stringify
                         [ ("grant_type", VStr "refresh_token")
                         ; ("refresh_token", refreshToken) ]) |}.

(** The body returned when the provider refuses the refresh. *)
Definition failure_envelope (errorText : string) : string :=
  JSON.stringify_object
    [ ("error", VStr "Failed to refresh token")
    ; ("details", VStr errorText) ].

(** The body of a successful refresh. *)
Definition fresh_tokens (w : world) (tokenData : value) : outcome string :=
  (* Calculate expiration time *)
  expires_in ← get tokenData "expires_in";
  seconds ← ToNumber expires_in;
  let expiresAt := num_add (clock w) (num_mul seconds (num_of_Z 1000)) in
  (* Return the new tokens *)
  access_token ← get tokenData "access_token";
  refresh_token ← get tokenData "refresh_token";
  Return (JSON.stringify_object
            [ ("access_token", access_token)
            ; ("refresh_token", refresh_token)
            ; ("expires_at", VNum expiresAt) ]).

Definition handler (w : world) (ev : event) : M http_response :=
  if String.eqb (httpMethod ev) "OPTIONS" then
    mret {| statusCode := 204; resp_headers := corsHeaders; resp_body := None |}
  else
  try_catch
    (if negb (String.eqb (httpMethod ev) "POST") then
       mret {| statusCode := 405;
               resp_headers := corsHeaders;
               resp_body := Some (JSON.stringify_object
                                    [ ("error", VStr "Method not allowed") ]) |}
     else
     (* Parse request body to get refresh token *)
     source ← lift (ToString (js_or (nullable (body ev)) (VStr "{}")));
     requestData ← lift (JSON_parse source);
     refreshToken ← lift (get requestData "refresh_token");
     if negb (truthy refreshToken) then
       mret {| statusCode := 400;
               resp_headers := corsHeaders;
               resp_body := Some (JSON.stringify_object
                                    [ ("error", VStr "Refresh token is required") ]) |}
     else
     (* Get Xero client credentials from environment variables *)
     let clientId := field (env w) "XERO_CLIENT_ID" in
     let clientSecret := field (env w) "XERO_CLIENT_SECRET" in
     if negb (truthy clientId) || negb (truthy clientSecret) then
       mret {| statusCode := 500;
               resp_headers := corsHeaders;
               resp_body := Some (JSON.stringify_object
                                    [ ("error", VStr "Missing Xero credentials") ]) |}
     else
     (* Request new tokens using the refresh token *)
     authorization ← lift (XeroCallback.basic_auth clientId clientSecret);
     tokenResponse ← fetch w (refresh_request authorization refreshToken);
     if negb (ok tokenResponse) then
       mret {| statusCode := status tokenResponse;
               resp_headers := corsHeaders;
               resp_body := Some (failure_envelope (text tokenResponse)) |}
     else
     (* Parse the token response *)
     tokenData ← lift (response_json token_endpoint tokenResponse);
     tokens ← lift (fresh_tokens w tokenData);
     mret {| statusCode := 200;
             resp_headers := corsHeaders ++ [ ("Content-Type", "application/json") ];
             resp_body := Some tokens |})
    (fun error =>
       mret {| statusCode := 500;
               resp_headers := corsHeaders;
               resp_body := Some (JSON.stringify_object
                                    [ ("error", VStr "Server error")
                                    ; ("message", VStr (error_message error)) ]) |}).

End Handler.
End XeroRefresh.

(* ===================================================================== *)
(** * netlify/functions/xero-connections.js *)
(* ===================================================================== *)

Module XeroConnections.
Section Handler.
Context `{Runtime}.

Definition corsHeaders : list (string * string) :=
  [ ("Access-Control-Allow-Origin", "*")
  ; ("Access-Control-Allow-Headers", "Content-Type")
  ; ("Access-Control-Allow-Methods", "GET, OPTIONS") ].

Definition handler (ev : event) : M http_response :=
  if String.eqb (httpMethod ev) "OPTIONS" then
    mret {| statusCode := 204; resp_headers := corsHeaders; resp_body := None |}
  else
  try_catch
    ((* Get cookie to verify authentication *)
     header ← lift (ToString (js_or (field (headers ev) "cookie") (VStr EmptyString)));
     let cookies := cookie_parse header in
     let isAuthenticated := strict_equal (lookup_member "xero_authenticated" cookies) (VStr "true") in
     if negb isAuthenticated then
       mret {| statusCode := 401;
               resp_headers := corsHeaders;
               resp_body := Some (JSON.stringify_object
                                    [ ("error", VStr "Unauthorized")
                                    ; ("message", VStr "Please connect to Xero first") ]) |}
     else
     let tenantId := lookup_member "xero_tenant_id" cookies in
     let tenantName := lookup_member "xero_tenant_name" cookies in
     if negb (truthy tenantId) then
       mret {| statusCode := 404;
               resp_headers := corsHeaders;
               resp_body := Some (JSON.stringify_object
                                    [ ("error", VStr "Not Found")
                                    ; ("message", VStr "No Xero organization found. Please reconnect to Xero.") ]) |}
     else
     (* Return minimal tenant info *)
     mret {| statusCode := 200;
             resp_headers := corsHeaders ++ [ ("Content-Type", "application/json") ];
             resp_body := Some (JSON.stringify_object_or_array
                                  (VArr [ VObj [ ("tenantId", tenantId)
                                               ; ("tenantName", js_or tenantName (VStr "Xero Organization")) ] ])) |})
    (fun error =>
       mret {| statusCode := 500;
               resp_headers := corsHeaders;
               resp_body := Some (JSON.stringify_object
                                    [ ("error", VStr "Server error")
                                    ; ("message", VStr (error_message error)) ]) |}).

End Handler.
End XeroConnections.

(* ===================================================================== *)
(** * A reference runtime *)
(* ===================================================================== *)

(** Executable definitions of the library functions of [Runtime], written
    after node's [querystring], the [cookie] package (0.4) and ECMA-262,
    over numbers restricted to the integers (on which doubles are exact
    below 2^53).  The theorems below hold for every runtime; this one
    serves to run the handlers on concrete requests. *)

Module Node.

(** ** Numbers: the integers and [NaN] *)

Inductive int_number := NaN | Int (z : Z).

Definition is_digit (c : ascii) : bool :=
  let n := byte_of_ascii c in (48 <=? n)%Z && (n <=? 57)%Z.

Fixpoint all_digits (s : string) : bool :=
  match s with
  | EmptyString => true
  | String c r => is_digit c && all_digits r
  end.

Fixpoint digits_value (acc : Z) (s : string) : Z :=
  match s with
  | EmptyString => acc
  | String c r => digits_value (10 * acc + (byte_of_ascii c - 48))%Z r
  end.

(** The length in bytes of the white space or line terminator character at
    the head of [s], 0 if there is none (ECMA-262, 12.2 and 12.3). *)
Definition space_prefix (s : string) : nat :=
  match List.map byte_of_ascii (list_ascii_of_string (String.substring 0 3 s)) with
  | (9 :: _ | 10 :: _ | 11 :: _ | 12 :: _ | 13 :: _ | 32 :: _)%Z => 1%nat
  | (194 :: 160 :: _)%Z => 2%nat
  | (225 :: 154 :: 128 :: _)%Z => 3%nat
  | (226 :: 128 :: c :: _)%Z =>
      if ((128 <=? c) && (c <=? 138) || (c =? 168) || (c =? 169) || (c =? 175))%Z
      then 3%nat else 0%nat
  | (226 :: 129 :: 159 :: _)%Z => 3%nat
  | (227 :: 128 :: 128 :: _)%Z => 3%nat
  | (239 :: 187 :: 191 :: _)%Z => 3%nat
  | _ => 0%nat
  end.

Fixpoint drop (n : nat) (s : string) : string :=
  match n, s with
  | S m, String _ r => drop m r
  | _, _ => s
  end.

Fixpoint trim_start_fuel (fuel : nat) (s : string) : string :=
  match fuel with
  | O => s
  | S f =>
      match space_prefix s with
      | O => s
      | n => trim_start_fuel f (drop n s)
      end
  end.

Definition trimStart (s : string) : string := trim_start_fuel (String.length s) s.

Fixpoint trimEnd (s : string) : string :=
  match s with
  | EmptyString => EmptyString
  | String c r =>
      if String.eqb (trimStart s) EmptyString then EmptyString
      else String c (trimEnd r)
  end.

(** [s.trim()] *)
Definition trim (s : string) : string := trimEnd (trimStart s).

(** StringToNumber on integer numerals; every other string is [NaN].  *)
Definition int_of_string (s : string) : int_number :=
  match trim s with
  | EmptyString => Int 0
  | String "-" r => if all_digits r && negb (String.eqb r EmptyString)
                    then Int (- digits_value 0 r) else NaN
  | String "+" r => if all_digits r && negb (String.eqb r EmptyString)
                    then Int (digits_value 0 r) else NaN
  | t => if all_digits t then Int (digits_value 0 t) else NaN
  end.

Definition int_binary (f : Z -> Z -> Z) (x y : int_number) : int_number :=
  match x, y with
  | Int a, Int b => Int (f a b)
  | _, _ => NaN
  end.

Definition int_test (f : Z -> Z -> bool) (x y : int_number) : bool :=
  match x, y with
  | Int a, Int b => f a b
  | _, _ => false
  end.

#[export] Instance numbers : Numbers := {|
  number := int_number;
  num_of_Z := Int;
  num_nan := NaN;
  num_of_string := int_of_string;
  num_add := int_binary Z.add;
  num_mul := int_binary Z.mul;
  num_ltb := int_test Z.ltb;
  num_eqb := int_test Z.eqb;
  num_falsy := fun x => match x with Int 0 | NaN => true | _ => false end;
  num_finite := fun x => match x with Int _ => true | NaN => false end;
  num_to_string := fun x => match x with Int z => Z_to_string z | NaN => "NaN" end;
  num_ltb_of_Z := fun a b _ => eq_refl;
|}.

(** ** Object construction *)

(** An array index: a canonical numeral below 2^32 - 1. *)
Definition array_index (k : string) : option Z :=
  match k with
  | EmptyString => None
  | String "0" EmptyString => Some 0%Z
  | String "0" _ => None
  | _ => if all_digits k && (String.length k <=? 10)%nat
         && (digits_value 0 k <? 4294967295)%Z
         then Some (digits_value 0 k) else None
  end.

Fixpoint replace_member (k : string) (v : value) (ms : list (string * value))
  : list (string * value) :=
  match ms with
  | [] => []
  | (k', v') :: r =>
      if String.eqb k k' then (k, v) :: r else (k', v') :: replace_member k v r
  end.

(** Where a new index key goes: before the first larger index and before
    every key that is no index. *)
Fixpoint insert_index (i : Z) (k : string) (v : value) (ms : list (string * value))
  : list (string * value) :=
  match ms with
  | [] => [(k, v)]
  | (k', v') :: r =>
      match array_index k' with
      | Some j => if (j <? i)%Z then (k', v') :: insert_index i k v r
                  else (k, v) :: ms
      | None => (k, v) :: ms
      end
  end.

(** [obj[k] = v]: an existing property keeps its place; a new one is
    enumerated after the others, array indices first and in order. *)
Definition assign (k : string) (v : value) (ms : list (string * value))
  : list (string * value) :=
  if has_member k ms then replace_member k v ms
  else match array_index k with
       | Some i => insert_index i k v ms
       | None => ms ++ [(k, v)]
       end.

(** ** [cookie.parse] *)

(** The names [{}] inherits from [Object.prototype]: [obj[key]] is never
    [undefined] for them, so the parser leaves such cookies out. *)
Definition inherited : list string :=
  [ "constructor"; "__defineGetter__"; "__defineSetter__"; "hasOwnProperty"
  ; "__lookupGetter__"; "__lookupSetter__"; "isPrototypeOf"
  ; "propertyIsEnumerable"; "toString"; "valueOf"; "__proto__"; "toLocaleString" ].

Fixpoint drop_spaces (s : string) : string :=
  match s with
  | String " " r => drop_spaces r
  | _ => s
  end.

(** [str.split(/; */)] *)
Definition split_pairs (str : string) : list string :=
  match split_on ";" str with
  | [] => []
  | p :: ps => p :: List.map drop_spaces ps
  end.

(** The text before the first [c] and the text after it. *)
Fixpoint cut (c : ascii) (s : string) : option (string * string) :=
  match s with
  | EmptyString => None
  | String a r =>
      if Ascii.eqb a c then Some (EmptyString, r)
      else match cut c r with
           | Some (k, v) => Some (String a k, v)
           | None => None
           end
  end.

(** [val.slice(1, -1)] *)
Definition unquote (val : string) : string :=
  match val with
  | String _ r => String.substring 0 (String.length r - 1) r
  | EmptyString => EmptyString
  end.

(** [tryDecode(val, decodeURIComponent)] *)
Definition tryDecode (val : string) : string :=
  match URI.decodeURIComponent val with
  | Return d => d
  | Throw _ => val
  end.

Definition cookie_pair (obj : list (string * value)) (pair : string)
  : list (string * value) :=
  match cut "=" pair with
  | None => obj
  | Some (k, v) =>
      let key := trim k in
      let val := trim v in
      let val := match val with
                 | String "034" _ => unquote val
                 | _ => val
                 end in
      if has_member key obj || existsb (String.eqb key) inherited then obj
      else assign key (VStr (tryDecode val)) obj
  end.

Definition parse_cookie (str : string) : list (string * value) :=
  fold_left cookie_pair (split_pairs str) [].

(** ** [querystring.parse] *)

(** Is there an escape [%XY] with two hexadecimal digits in [s]? *)
Fixpoint has_escape (s : string) : bool :=
  match s with
  | EmptyString => false
  | String _ r =>
      match URI.percent_byte s with
      | Some _ => true
      | None => has_escape r
      end
  end.

(** [unescapeBuffer]: escapes become bytes, anything else stays. *)
Fixpoint unescape_bytes (fuel : nat) (s : string) : list Z :=
  match fuel, s with
  | _, EmptyString => []
  | O, _ => bytes_of_string s
  | S f, String c r =>
      match URI.percent_byte s with
      | Some (b, rest) => b :: unescape_bytes f rest
      | None => byte_of_ascii c :: unescape_bytes f r
      end
  end.

Definition replacement : list Z := [239; 191; 189]%Z.

Definition in_range (lo hi b : Z) : bool := (lo <=? b)%Z && (b <=? hi)%Z.

(** The bounds on the second byte of a sequence led by [a]. *)
Definition second_range (a : Z) : Z * Z :=
  (if a =? 224 then (160, 191)
   else if a =? 237 then (128, 159)
   else if a =? 240 then (144, 191)
   else if a =? 244 then (128, 143)
   else (128, 191))%Z.

(** [buf.toString()]: UTF-8 decoding, each maximal ill-formed part giving
    U+FFFD. *)
Fixpoint utf8_decode (fuel : nat) (l : list Z) : list Z :=
  match fuel, l with
  | _, [] => []
  | O, _ => l
  | S f, a :: r =>
      if (a <? 128)%Z then a :: utf8_decode f r
      else if in_range 194 223 a then
        match r with
        | b :: r1 => if in_range 128 191 b then a :: b :: utf8_decode f r1
                     else replacement ++ utf8_decode f r
        | [] => replacement
        end
      else if in_range 224 239 a then
        match r with
        | b :: r1 =>
            if in_range (fst (second_range a)) (snd (second_range a)) b then
              match r1 with
              | c :: r2 => if in_range 128 191 c then a :: b :: c :: utf8_decode f r2
                           else replacement ++ utf8_decode f r1
              | [] => replacement
              end
            else replacement ++ utf8_decode f r
        | [] => replacement
        end
      else if in_range 240 244 a then
        match r with
        | b :: r1 =>
            if in_range (fst (second_range a)) (snd (second_range a)) b then
              match r1 with
              | c :: r2 =>
                  if in_range 128 191 c then
                    match r2 with
                    | d :: r3 => if in_range 128 191 d
                                 then a :: b :: c :: d :: utf8_decode f r3
                                 else replacement ++ utf8_decode f r2
                    | [] => replacement
                    end
                  else replacement ++ utf8_decode f r1
              | [] => replacement
              end
            else replacement ++ utf8_decode f r
        | [] => replacement
        end
      else replacement ++ utf8_decode f r
  end.

(** [decodeStr(s, qsUnescape)] of a key or value in which [+] stands for a
    space. *)
Definition unescape (s : string) : string :=
  let s := replace_all "+" " " s in
  if has_escape s then
    match URI.decodeURIComponent s with
    | Return d => d
    | Throw _ =>
        let bytes := unescape_bytes (String.length s) s in
        string_of_bytes (utf8_decode (length bytes) bytes)
    end
  else s.

(** [addKeyValue]: a repeated key collects its values in an array. *)
Definition add_key_value (obj : list (string * value)) (piece : string)
  : list (string * value) :=
  if String.eqb piece EmptyString then obj else
  let (k, v) := match cut "=" piece with
                | Some (k, v) => (k, v)
                | None => (piece, EmptyString)
                end in
  let key := unescape k in
  let val := VStr (unescape v) in
  match lookup_member key obj with
  | VUndefined => assign key val obj
  | VArr l => assign key (VArr (l ++ [val])) obj
  | cur => assign key (VArr [cur; val]) obj
  end.

(** [querystring.parse(qs)]: at most 1000 pieces are read. *)
Definition parse_query (qs : string) : list (string * value) :=
  if String.eqb qs EmptyString then []
  else fold_left add_key_value (firstn 1000 (split_on "&" qs)) [].

(** ** [Date.prototype.toUTCString] *)

Definition pad2 (n : Z) : string :=
  if (n <? 10)%Z then "0" +:+ Z_to_string n else Z_to_string n.

Definition pad4 (n : Z) : string :=
  if (n <? 10)%Z then "000" +:+ Z_to_string n
  else if (n <? 100)%Z then "00" +:+ Z_to_string n
  else if (n <? 1000)%Z then "0" +:+ Z_to_string n
  else Z_to_string n.

Definition day_names : list string := ["Sun"; "Mon"; "Tue"; "Wed"; "Thu"; "Fri"; "Sat"].
Definition month_names : list string :=
  ["Jan"; "Feb"; "Mar"; "Apr"; "May"; "Jun"; "Jul"; "Aug"; "Sep"; "Oct"; "Nov"; "Dec"].

(** Year, month (1..12) and day of the month of a day number counted from
    1 January 1970, in the proleptic Gregorian calendar. *)
Definition civil (day : Z) : Z * Z * Z :=
  (let z := day + 719468 in
   let era := z / 146097 in
   let doe := z mod 146097 in
   let yoe := (doe - doe / 1460 + doe / 36524 - doe / 146096) / 365 in
   let doy := doe - (365 * yoe + yoe / 4 - yoe / 100) in
   let mp := (5 * doy + 2) / 153 in
   let d := doy - (153 * mp + 2) / 5 + 1 in
   let m := if mp <? 10 then mp + 3 else mp - 9 in
   let y := yoe + era * 400 + (if m <=? 2 then 1 else 0) in
   (y, m, d))%Z.

Definition toUTCString (t : int_number) : string :=
  match t with
  | NaN => "Invalid Date"
  | Int ms =>
      if (Z.abs ms >? 8640000000000000)%Z then "Invalid Date" else
      let day := (ms / 86400000)%Z in
      let rest := (ms mod 86400000)%Z in
      let '(y, m, d) := civil day in
      concat_strings
        [ nth (Z.to_nat ((day + 4) mod 7)) day_names EmptyString; ", "
        ; pad2 d; " "; nth (Z.to_nat (m - 1)) month_names EmptyString; " "
        ; (if (y <? 0)%Z then "-" +:+ pad4 (- y) else pad4 y); " "
        ; pad2 (rest / 3600000); ":"; pad2 (rest / 60000 mod 60); ":"
        ; pad2 (rest / 1000 mod 60); " GMT" ]
  end.

(** ** [JSON.parse] *)

(** A parser either stops at an offending token (what is left of the
    input there) or yields a result and the rest of the input. *)
Definition parsed (A : Type) : Type := (string + A * string)%type.

Definition is_json_space (c : ascii) : bool :=
  let n := byte_of_ascii c in ((n =? 32) || (n =? 9) || (n =? 10) || (n =? 13))%Z.

Fixpoint skip_spaces (s : string) : string :=
  match s with
  | String c r => if is_json_space c then skip_spaces r else s
  | EmptyString => s
  end.

(** The UTF-8 encoding of a code point. *)
Definition utf8_encode (cp : Z) : list Z :=
  (if cp <? 128 then [cp]
   else if cp <? 2048 then [192 + cp / 64; 128 + cp mod 64]
   else if cp <? 65536 then [224 + cp / 4096; 128 + cp / 64 mod 64; 128 + cp mod 64]
   else [240 + cp / 262144; 128 + cp / 4096 mod 64; 128 + cp / 64 mod 64; 128 + cp mod 64])%Z.

(** Four hexadecimal digits. *)
Definition hex4 (s : string) : option (Z * string) :=
  match s with
  | String a (String b (String c (String d r))) =>
      match Hex.value a, Hex.value b, Hex.value c, Hex.value d with
      | Some x, Some y, Some z, Some t => Some (4096 * x + 256 * y + 16 * z + t, r)%Z
      | _, _, _, _ => None
      end
  | _ => None
  end.

(** The code point written by a [\u] escape whose digits start [s]; a
    surrogate must come in a pair (a string with a lone surrogate has no
    UTF-8 form and is refused). *)
Definition unicode_escape (s : string) : option (Z * string) :=
  match hex4 s with
  | Some (u, r) =>
      if in_range 55296 56319 u then
        match r with
        | String "092" (String "u" r1) =>
            match hex4 r1 with
            | Some (l, r2) =>
                if in_range 56320 57343 l
                then Some (65536 + (u - 55296) * 1024 + (l - 56320), r2)%Z
                else None
            | None => None
            end
        | _ => None
        end
      else if in_range 56320 57343 u then None
      else Some (u, r)
  | None => None
  end.

(** The characters of a string literal after its opening quote. *)
Fixpoint string_chars (fuel : nat) (s : string) : parsed string :=
  match fuel, s with
  | O, _ | _, EmptyString => inl s
  | S f, String c r =>
      let n := byte_of_ascii c in
      let more (bytes : list Z) (rest : string) : parsed string :=
        match string_chars f rest with
        | inr (t, rest') => inr (string_of_bytes bytes +:+ t, rest')
        | inl e => inl e
        end in
      if (n =? 34)%Z then inr (EmptyString, r)
      else if (n <? 32)%Z then inl s
      else if (n =? 92)%Z then
        match r with
        | EmptyString => inl r
        | String e r1 =>
            let m := byte_of_ascii e in
            if (m =? 34)%Z || (m =? 92)%Z || (m =? 47)%Z then more [m] r1
            else if (m =? 98)%Z then more [8%Z] r1
            else if (m =? 102)%Z then more [12%Z] r1
            else if (m =? 110)%Z then more [10%Z] r1
            else if (m =? 114)%Z then more [13%Z] r1
            else if (m =? 116)%Z then more [9%Z] r1
            else if (m =? 117)%Z then
              match unicode_escape r1 with
              | Some (cp, r2) => more (utf8_encode cp) r2
              | None => inl r
              end
            else inl r
        end
      else more [n] r
  end.

Fixpoint take_digits (s : string) : string * string :=
  match s with
  | String c r =>
      if is_digit c then let (d, rest) := take_digits r in (String c d, rest)
      else (EmptyString, s)
  | EmptyString => (EmptyString, s)
  end.

(** An integer numeral.  A fraction or an exponent is outside this
    runtime's numbers and is refused. *)
Definition integer_literal (s : string) : parsed value :=
  let (negative, body) := match s with
                          | String "-" r => (true, r)
                          | _ => (false, s)
                          end in
  let (digits, rest) := take_digits body in
  match digits, rest with
  | EmptyString, _ => inl body
  | String "0" (String _ _), _ => inl (drop 1 body)
  | _, String "." _ | _, String "e" _ | _, String "E" _ => inl rest
  | _, _ =>
      let n := digits_value 0 digits in
      inr (VNum (Int (if negative : bool then - n else n)%Z), rest)
  end.

(** [word] at the head of [s]: what follows it, or what is left of [s]
    where it departs from [word]. *)
Fixpoint after_word (word s : string) : string + string :=
  match word, s with
  | EmptyString, _ => inr s
  | String a w, String b t => if Ascii.eqb a b then after_word w t else inl s
  | String _ _, EmptyString => inl s
  end.

Definition keyword (word : string) (v : value) (s : string) : parsed value :=
  match after_word word s with
  | inr rest => inr (v, rest)
  | inl e => inl e
  end.

Fixpoint json_value (fuel : nat) (s : string) : parsed value :=
  match fuel with
  | O => inl s
  | S f =>
      match skip_spaces s with
      | EmptyString => inl EmptyString
      | String c r as s' =>
          let n := byte_of_ascii c in
          if (n =? 123)%Z then
            match skip_spaces r with
            | String "}" rest => inr (VObj [], rest)
            | _ => json_members f r []
            end
          else if (n =? 91)%Z then
            match skip_spaces r with
            | String "]" rest => inr (VArr [], rest)
            | _ => json_elements f r []
            end
          else if (n =? 34)%Z then
            match string_chars (String.length r) r with
            | inr (t, rest) => inr (VStr t, rest)
            | inl e => inl e
            end
          else if (n =? 116)%Z then keyword "true" (VBool true) s'
          else if (n =? 102)%Z then keyword "false" (VBool false) s'
          else if (n =? 110)%Z then keyword "null" VNull s'
          else if (n =? 45)%Z || is_digit c then integer_literal s'
          else inl s'
      end
  end
with json_elements (fuel : nat) (s : string) (acc : list value) : parsed value :=
  match fuel with
  | O => inl s
  | S f =>
      match json_value f s with
      | inl e => inl e
      | inr (v, rest) =>
          match skip_spaces rest with
          | String "," r => json_elements f r (acc ++ [v])
          | String "]" r => inr (VArr (acc ++ [v]), r)
          | other => inl other
          end
      end
  end
with json_members (fuel : nat) (s : string) (acc : list (string * value)) : parsed value :=
  match fuel with
  | O => inl s
  | S f =>
      match skip_spaces s with
      | String "034" r =>
          match string_chars (String.length r) r with
          | inl e => inl e
          | inr (k, rest) =>
              match skip_spaces rest with
              | String ":" r1 =>
                  match json_value f r1 with
                  | inl e => inl e
                  | inr (v, rest1) =>
                      match skip_spaces rest1 with
                      | String "," r2 => json_members f r2 (assign k v acc)
                      | String "}" r2 => inr (VObj (assign k v acc), r2)
                      | other => inl other
                      end
                  end
              | other => inl other
              end
          end
      | other => inl other
      end
  end.

(** The error for the token at which parsing stopped (V8's wording). *)
Definition unexpected (source rest : string) : js_error :=
  match first_char rest with
  | VStr c =>
      SyntaxError ("Unexpected token " +:+ c +:+ " in JSON at position "
                   +:+ Z_to_string (utf16_length source - utf16_length rest))
  | _ => SyntaxError "Unexpected end of JSON input"
  end.

Definition parse_json (source : string) : outcome value :=
  match json_value (S (String.length source)) source with
  | inr (v, rest) =>
      match skip_spaces rest with
      | EmptyString => Return v
      | other => Throw (unexpected source other)
      end
  | inl rest => Throw (unexpected source rest)
  end.

#[export] Instance runtime : Runtime := {|
  JSON_parse := parse_json;
  cookie_parse := parse_cookie;
  querystring_parse := parse_query;
  Date_toUTCString := toUTCString;
  JSON_parse_empty_object := eq_refl;
|}.

End Node.

(* ===================================================================== *)
(** * Vocabulary of the properties *)
(* ===================================================================== *)

(** ** PKCE, in the words of the specification *)

(** [+] becomes [-] and [/] becomes [_]. *)
Definition url_safe (c : ascii) : ascii :=
  if Ascii.eqb c "+" then "-"%char
  else if Ascii.eqb c "/" then "_"%char
  else c.

Fixpoint map_chars (f : ascii -> ascii) (s : string) : string :=
  match s with
  | EmptyString => EmptyString
  | String c r => String (f c) (map_chars f r)
  end.

(** [s] without the [c]s at its end. *)
Fixpoint strip_trailing (c : ascii) (s : string) : string :=
  match s with
  | EmptyString => EmptyString
  | String a r =>
      match strip_trailing c r with
      | EmptyString => if Ascii.eqb a c then EmptyString else String a EmptyString
      | r' => String a r'
      end
  end.

(** Base64url without padding: Base64, made URL-safe, the trailing [=]
    stripped. *)
Definition base64url_nopad (bytes : list Z) : string :=
  strip_trailing "=" (map_chars url_safe (Base64.encode bytes)).

(** The challenge of a verifier: the SHA-256 digest of its UTF-8 bytes,
    base64url-encoded without padding. *)
Definition challenge_of (codeVerifier : string) : string :=
  base64url_nopad (Sha256.digest (bytes_of_string codeVerifier)).

(** ** Form decoding, as the provider reads a query or a form body *)

Fixpoint form_decode_fuel (fuel : nat) (s : string) : option string :=
  match fuel, s with
  | _, EmptyString => Some EmptyString
  | O, _ => None
  | S f, String c r =>
      if Ascii.eqb c "+" then String " " <$> form_decode_fuel f r
      else if Ascii.eqb c "%" then
        match URI.percent_byte s with
        | Some (b, rest) => String (ascii_of_byte b) <$> form_decode_fuel f rest
        | None => None
        end
      else String c <$> form_decode_fuel f r
  end.

(** The value written by an application/x-www-form-urlencoded text: [+]
    is a space and [%XY] a byte. *)
Definition form_decode (s : string) : option string :=
  form_decode_fuel (String.length s) s.

(** ** Character classes *)

(** Every character of [s] satisfies [p]. *)
Fixpoint all_chars (p : ascii -> bool) (s : string) : bool :=
  match s with
  | EmptyString => true
  | String c r => p c && all_chars p r
  end.

(** A lower-case hexadecimal digit. *)
Definition lower_hex (c : ascii) : bool :=
  let n := byte_of_ascii c in
  ((48 <=? n) && (n <=? 57) || (97 <=? n) && (n <=? 102))%Z.

(** A character of the base64url alphabet: a letter, a digit, [-] or [_]. *)
Definition base64url_char (c : ascii) : bool :=
  let n := byte_of_ascii c in
  (URI.is_alnum n || (n =? 45) || (n =? 95))%Z.

(** A character of an encoded URI component: an unreserved one, or the
    [%] of an escape. *)
Definition component_char (c : ascii) : bool :=
  URI.unreserved c || Ascii.eqb c "%".

(** ** Well-formed UTF-8 *)

Definition between (lo hi : Z) (c : ascii) : bool :=
  let n := byte_of_ascii c in ((lo <=? n) && (n <=? hi))%Z.

(** A continuation byte, [10xxxxxx]. *)
Definition continuation_byte (c : ascii) : bool := between 128 191 c.

(** Well-formed UTF-8 (Unicode, table 3-7): the texts that stand for a
    JavaScript string without lone surrogates. *)
Fixpoint utf8 (s : string) : bool :=
  match s with
  | EmptyString => true
  | String a r =>
      if between 0 127 a then utf8 r
      else if between 194 223 a then
        match r with
        | String b r1 => continuation_byte b && utf8 r1
        | _ => false
        end
      else if between 224 239 a then
        match r with
        | String b (String c r2) =>
            (if between 224 224 a then between 160 191 b
             else if between 237 237 a then between 128 159 b
             else continuation_byte b)
            && continuation_byte c && utf8 r2
        | _ => false
        end
      else if between 240 244 a then
        match r with
        | String b (String c (String d r3)) =>
            (if between 240 240 a then between 144 191 b
             else if between 244 244 a then between 128 143 b
             else continuation_byte b)
            && continuation_byte c && continuation_byte d && utf8 r3
        | _ => false
        end
      else false
  end.

Section Vocabulary.
Context `{Runtime}.
Import XeroCallback.

(** The value of the header called [name], if there is one. *)
Fixpoint header (name : string) (hs : list (string * string)) : option string :=
  match hs with
  | [] => None
  | (k, v) :: r => if String.eqb k name then Some v else header name r
  end.

(** A browser redirect to the application root that reports success, or an
    error with a message. *)
Definition is_redirect (r : http_response) : Prop :=
  statusCode r = 302%Z
  /\ resp_body r = None
  /\ exists location,
       resp_headers r = [("Location", location); ("Cache-Control", "no-cache")]
       /\ (String.prefix "/?auth=success&" location = true
           \/ exists message,
                location = "/?auth=error&message=" +:+ URI.encodeURIComponent message).

(** [m.k || d] as a string. *)
Definition string_or (m : gmap string string) (k d : string) : string :=
  match m !! k with
  | Some s => if String.eqb s EmptyString then d else s
  | None => d
  end.

(** The description shown for a provider error:
    [params.error_description || params.error]. *)
Definition provider_description (params : gmap string string) : string :=
  string_or params "error_description" (string_or params "error" EmptyString).

(** [cookies.xero_auth] for the cookies sent with the request. *)
Definition xero_auth_cookie (ev : event) : value :=
  lookup_member "xero_auth" (cookie_parse (string_or (headers ev) "cookie" EmptyString)).

(** [decodeURIComponent(xeroCookie)] *)
Definition decoded_cookie (xeroCookie : value) : outcome string :=
  raw ← ToString xeroCookie; URI.decodeURIComponent raw.

(** Are both client credentials configured? *)
Definition credentials_configured (w : world) : bool :=
  truthy (field (env w) "XERO_CLIENT_ID") && truthy (field (env w) "XERO_CLIENT_SECRET").

(** The redirect reports success. *)
Definition is_success (r : http_response) : Prop :=
  exists location,
    header "Location" (resp_headers r) = Some location
    /\ String.prefix "/?auth=success" location = true.

(** [`${process.env.URL || 'http://localhost:8888'}/.netlify/functions/xero-callback`] *)
Definition callback_uri (w : world) : string :=
  string_or (env w) "URL" "http://localhost:8888" +:+ "/.netlify/functions/xero-callback".

(** The run passes every check, the provider exchanges the code for
    [tokenData], and answers the connections request with [connections]. *)
Definition reaches_tenants (w : world) (ev : event) (tokenData connections : value) : Prop :=
  let params := queryStringParameters ev in
  truthy (field params "error") = false
  /\ truthy (field params "code") = true
  /\ truthy (field params "state") = true
  /\ truthy (xero_auth_cookie ev) = true
  /\ credentials_configured w = true
  /\ exists decoded authorization tokenResponse access_token bearer userInfoResponse,
       decoded_cookie (xero_auth_cookie ev) = Return decoded
       /\ strict_equal (field params "state")
            (lookup_member "state" (querystring_parse decoded)) = true
       /\ basic_auth (field (env w) "XERO_CLIENT_ID") (field (env w) "XERO_CLIENT_SECRET")
          = Return authorization
       /\ network w (token_request authorization (field params "code") (callback_uri w)
                       (lookup_member "code_verifier" (querystring_parse decoded)))
          = Return tokenResponse
       /\ ok tokenResponse = true
       /\ response_json token_endpoint tokenResponse = Return tokenData
       /\ get tokenData "access_token" = Return access_token
       /\ ToString access_token = Return bearer
       /\ network w (connections_request bearer) = Return userInfoResponse
       /\ ok userInfoResponse = true
       /\ response_json connections_endpoint userInfoResponse = Return connections.

(** What the [catch] makes of the end of the handler. *)
Definition caught (o : outcome http_response) : http_response :=
  match o with
  | Return r => r
  | Throw e => redirectWithError ("Server error: " +:+ error_message e)
  end.

(** The cookie that would mark the browser as authenticated, and the one
    that would clear the correlation cookie, as the handler builds them. *)
Definition authenticated_cookie : string :=
  "xero_authenticated=true; Max-Age=2592000; Path=/; HttpOnly; Secure; SameSite=Lax".

Definition clearing_cookie : string :=
  "xero_auth=; Max-Age=2592000; Path=/; Expires=" +:+ Date_toUTCString (num_of_Z 0)
  +:+ "; HttpOnly; Secure; SameSite=Lax".

(** The [Cookie] header of a request, [''] when there is none. *)
Definition cookie_header (ev : event) : string :=
  string_or (headers ev) "cookie" EmptyString.

(** The success redirect to [location]. *)
Definition success_redirect (location : string) : http_response :=
  {| statusCode := 302;
     resp_headers := [("Location", location); ("Cache-Control", "no-cache")];
     resp_body := None |}.

(** [s || d] on strings. *)
Definition or_default (s d : string) : string :=
  if String.eqb s EmptyString then d else s.

(** The connection [c] is the tenant with identifier [fst t] and name
    [snd t]. *)
Definition is_tenant (c : value) (t : string * string) : Prop :=
  get c "tenantId" = Return (VStr (fst t)) /\ get c "tenantName" = Return (VStr (snd t)).

(** The entry of a tenant in the list handed to the browser. *)
Definition tenant_entry_of (t : string * string) : value :=
  VObj [ ("tenantId", VStr (fst t))
       ; ("tenantName", VStr (or_default (snd t) "Unnamed Organization")) ].

(** The [Location] of the success redirect for the tenants the provider
    listed, in its order: the first one is the active tenant (an empty name
    shown as [Unknown]); with no tenant the identifier is empty and the
    name is the placeholder [Unknown Organization]. *)
Definition selected_location (tenants : list (string * string)) (tokens : string) : string :=
  concat_strings
    [ "/?auth=success&tenantName="
    ; URI.encodeURIComponent
        match tenants with
        | first :: _ => or_default (snd first) "Unknown"
        | [] => "Unknown Organization"
        end
    ; "&tenantId="
    ; URI.encodeURIComponent
        match tenants with
        | first :: _ => fst first
        | [] => EmptyString
        end
    ; "&multipleOrgs="
    ; match tenants with
      | _ :: _ :: _ => "true"
      | _ => "false"
      end
    ; "&tenants="
    ; URI.encodeURIComponent
        (JSON.stringify_object_or_array (VArr (List.map tenant_entry_of tenants)))
    ; "&tokens="
    ; URI.encodeURIComponent tokens ].

(** The token response has no [id_token], or a string. *)
Definition usable_id_token (tokenData : value) : Prop :=
  exists t, get tokenData "id_token" = Return t
            /\ (truthy t = false \/ exists s, t = VStr s).

(** The text the refresh handler parses: [event.body || '{}']. *)
Definition request_source (ev : event) : string :=
  match body ev with
  | Some s => or_default s "{}"
  | None => "{}"
  end.

(** [JSON.parse(event.body || '{}').refresh_token] *)
Definition refresh_token_of (ev : event) : outcome value :=
  requestData ← JSON_parse (request_source ev);
  get requestData "refresh_token".

(** The refresh handler's answer [{ error: message }] with a status. *)
Definition error_response (code : Z) (message : string) : http_response :=
  {| statusCode := code;
     resp_headers := XeroRefresh.corsHeaders;
     resp_body := Some (JSON.stringify_object [ ("error", VStr message) ]) |}.

(** The refresh handler's answer to a thrown error. *)
Definition server_error (e : js_error) : http_response :=
  {| statusCode := 500;
     resp_headers := XeroRefresh.corsHeaders;
     resp_body := Some (JSON.stringify_object
                          [ ("error", VStr "Server error")
                          ; ("message", VStr (error_message e)) ]) |}.

(** The refresh handler's answer to a refusal of the provider. *)
Definition passthrough (upstream : fetch_response) : http_response :=
  {| statusCode := status upstream;
     resp_headers := XeroRefresh.corsHeaders;
     resp_body := Some (XeroRefresh.failure_envelope (text upstream)) |}.

(** [`Basic ${base64(id:secret)}`] for the configured credentials. *)
Definition client_authorization (id secret : string) : string :=
  "Basic " +:+ base64 (id +:+ ":" +:+ secret).

(** The correlation cookie the authorization handler writes for a state
    and a verifier at the time [now]; it expires 15 minutes later. *)
Definition correlation_cookie (state verifier : string) (now : number) : string :=
  "xero_auth=state%3D" +:+ state +:+ "%26code_verifier%3D" +:+ verifier
  +:+ "; Path=/; Expires=" +:+ Date_toUTCString (num_add now (num_of_Z 900000))
  +:+ "; SameSite=Lax; HttpOnly; Secure".

(** The redirect to the provider for a state and a verifier. *)
Definition authorization_redirect (w : world) (clientId state verifier : string)
  : http_response :=
  {| statusCode := 302;
     resp_headers :=
       [ ("Location",
          URLSearchParams.href "https://login.xero.com/identity/connect/authorize"
            (XeroAuth.searchParams clientId (callback_uri w) state
               (XeroAuth.codeChallenge verifier)))
       ; ("Set-Cookie", correlation_cookie state verifier (clock w))
       ; ("Cache-Control", "no-cache") ];
     resp_body := None |}.

(** The refresh handler's answer to a successful refresh. *)
Definition refreshed (tokens : string) : http_response :=
  {| statusCode := 200;
     resp_headers := XeroRefresh.corsHeaders ++ [ ("Content-Type", "application/json") ];
     resp_body := Some tokens |}.

(** The connections handler's answer [{ error, message }] with a status. *)
Definition connections_error (code : Z) (error message : string) : http_response :=
  {| statusCode := code;
     resp_headers := XeroConnections.corsHeaders;
     resp_body := Some (JSON.stringify_object
                          [ ("error", VStr error); ("message", VStr message) ]) |}.

(** Its answer for the tenant the cookies name. *)
Definition tenant_response (tenantId tenantName : value) : http_response :=
  {| statusCode := 200;
     resp_headers := XeroConnections.corsHeaders ++ [ ("Content-Type", "application/json") ];
     resp_body := Some (JSON.stringify_object_or_array
                          (VArr [ VObj [ ("tenantId", tenantId)
                                       ; ("tenantName", tenantName) ] ])) |}.

End Vocabulary.

(* ===================================================================== *)
(** * Sample requests *)
(* ===================================================================== *)

(** Concrete worlds and events, run on the reference runtime. *)

Module Sample.
#[local] Existing Instance Node.numbers.
#[local] Existing Instance Node.runtime.

Definition environment : gmap string string :=
  list_to_map [ ("XERO_CLIENT_ID", "client"); ("XERO_CLIENT_SECRET", "secret")
              ; ("URL", "https://app.example") ].

(** A token response of the provider, and its text. *)
Definition token_data : value :=
  VObj [ ("access_token", VStr "AT"); ("refresh_token", VStr "RT")
       ; ("expires_in", VNum (Node.Int 1800)); ("id_token", VStr "h.p.s") ].

Definition token_body : string := JSON.stringify_object_or_array token_data.

(** A connections response of the provider, one object per tenant, and
    its text. *)
Definition connections (tenants : list (string * string)) : list value :=
  List.map (fun t => VObj [ ("tenantId", VStr (fst t))
                          ; ("tenantName", VStr (snd t)) ]) tenants.

Definition connections_body (tenants : list (string * string)) : string :=
  JSON.stringify_object_or_array (VArr (connections tenants)).

(** The token bundle the browser receives for [token_data]. *)
Definition bundle : string :=
  JSON.stringify_object
    [ ("access_token", VStr "AT"); ("refresh_token", VStr "RT")
    ; ("expires_at", VNum (Node.Int 1700001800000)) ].

(** A provider that answers the token endpoint with [token_reply] and any
    other request with [connections_reply]. *)
Definition provider (token_reply connections_reply : fetch_response) (q : request)
  : outcome fetch_response :=
  Return (if String.eqb (req_url q) XeroCallback.token_endpoint
          then token_reply else connections_reply).

Definition world_of (token_reply connections_reply : fetch_response) : world :=
  {| env := environment;
     network := provider token_reply connections_reply;
     clock := Node.Int 1700000000000;
     entropy := fun i => Z.of_nat i |}.

Definition two_tenants : world :=
  world_of (FetchResponse 200 token_body)
           (FetchResponse 200 (connections_body [("A", "Acme"); ("B", "Bolt")])).

Definition no_tenant : world :=
  world_of (FetchResponse 200 token_body) (FetchResponse 200 (connections_body [])).

(** The provider refuses the grant. *)
Definition refusal : string := JSON.stringify_object [ ("error", VStr "invalid_grant") ].

Definition refusing : world :=
  world_of (FetchResponse 400 refusal) (FetchResponse 200 (connections_body [])).

Definition callback (params : list (string * string)) (cookie : option string) : event :=
  {| httpMethod := "GET";
     queryStringParameters := list_to_map params;
     headers := match cookie with
                | Some c => list_to_map [("cookie", c)]
                | None => list_to_map []
                end;
     body := None |}.

(** The browser comes back with the state the cookie holds. *)
Definition returning : event :=
  callback [("code", "c0de"); ("state", "abc")]
           (Some "xero_auth=state%3Dabc%26code_verifier%3Dxyz").

(** The state of the query differs from the one in the cookie. *)
Definition forged : event :=
  callback [("code", "c0de"); ("state", "abc")]
           (Some "xero_auth=state%3Dother%26code_verifier%3Dxyz").

(** The same, with an [error] parameter besides. *)
Definition denied_and_forged : event :=
  callback [("error", "access_denied"); ("code", "c0de"); ("state", "abc")]
           (Some "xero_auth=state%3Dother%26code_verifier%3Dxyz").

(** The cookie is there, but its value is no URI-encoded text. *)
Definition garbled : event :=
  callback [("code", "c0de"); ("state", "abc")] (Some "xero_auth=%").

(** A deployment without the client secret. *)
Definition unconfigured : world :=
  {| env := list_to_map [ ("XERO_CLIENT_ID", "client") ];
     network := provider (FetchResponse 200 token_body) (FetchResponse 200 (connections_body []));
     clock := Node.Int 1700000000000;
     entropy := fun i => Z.of_nat i |}.

(** The query has a state but no code. *)
Definition codeless : event :=
  callback [("state", "abc")] (Some "xero_auth=state%3Dabc%26code_verifier%3Dxyz").

(** The browser comes back without the cookie. *)
Definition cookieless : event := callback [("code", "c0de"); ("state", "abc")] None.

(** The body of a well-formed refresh request. *)
Definition refresh_body : string := JSON.stringify_object [ ("refresh_token", VStr "RT") ].

Definition refresh (method : string) (text : option string) : event :=
  {| httpMethod := method;
     queryStringParameters := list_to_map [];
     headers := list_to_map [];
     body := text |}.

(** The provider hands out tokens but refuses to list the connections. *)
Definition connections_refused : world :=
  world_of (FetchResponse 200 token_body) (FetchResponse 403 "Forbidden").

(** The token endpoint answers 200 with a page that is no JSON. *)
Definition garbling : world :=
  world_of (FetchResponse 200 "<html>") (FetchResponse 200 (connections_body [])).

(** The provider cannot be reached. *)
Definition unreachable : js_error :=
  FetchError "request to https://identity.xero.com/connect/token failed, reason: connect ECONNREFUSED".

Definition offline : world :=
  {| env := environment;
     network := fun _ => Throw unreachable;
     clock := Node.Int 1700000000000;
     entropy := fun i => Z.of_nat i |}.

(** A deployment without any configuration. *)
Definition unset : world :=
  {| env := list_to_map [];
     network := provider (FetchResponse 200 token_body) (FetchResponse 200 (connections_body []));
     clock := Node.Int 1700000000000;
     entropy := fun i => Z.of_nat i |}.

(** The token request of the run of [returning], and the refresh request
    of a refresh with [refresh_body]. *)
Definition exchange : request :=
  XeroCallback.token_request "Basic Y2xpZW50OnNlY3JldA==" (VStr "c0de")
    "https://app.example/.netlify/functions/xero-callback" (VStr "xyz").

Definition renewal : request :=
  XeroRefresh.refresh_request "Basic Y2xpZW50OnNlY3JldA==" (VStr "RT").

(** The state and the verifier the authorization handler draws from the
    sample entropy. *)
Definition state : string := "000102030405060708090a0b0c0d0e0f".

Definition verifier : string :=
  "101112131415161718191a1b1c1d1e1f202122232425262728292a2b2c2d2e2f".

(** The browser comes back from the provider with the cookie the
    authorization handler set, the provider echoing the state. *)
Definition echoed : event :=
  callback [("code", "c0de"); ("state", state)]
    (Some ("xero_auth=state%3D" +:+ state +:+ "%26code_verifier%3D" +:+ verifier)).

(** A request to the connections endpoint with session cookies. *)
Definition session (cookie : string) : event :=
  {| httpMethod := "GET";
     queryStringParameters := list_to_map [];
     headers := list_to_map [("cookie", cookie)];
     body := None |}.

(** An error description with two accented letters, [e grave] and
    [e acute], in UTF-8. *)
Definition denial : string :=
  "Acc" +:+ String "195" (String "168" ("s refus" +:+ String "195" (String "169" EmptyString))).

End Sample.

(* ===================================================================== *)
(** * Properties *)
(* ===================================================================== *)

(** ** How computations in [M] unfold *)

Section Steps.
Context `{Runtime}.

Lemma outcome_bind_returns {A B} (m : outcome A) (f : A -> outcome B) b :
  m ≫= f = Return b -> exists a, m = Return a /\ f a = Return b.
Proof. destruct m as [a | e]; [eauto | discriminate]. Qed.

Lemma outcome_bind_throws {A B} (m : outcome A) (f : A -> outcome B) e :
  m ≫= f = Throw e -> m = Throw e \/ exists a, m = Return a /\ f a = Throw e.
Proof. destruct m as [a | e']; [eauto | intros [= <-]; auto]. Qed.

Lemma bind_cases {A B} (m : M A) (f : A -> M B) tr o tr' :
  (m ≫= f) tr = (o, tr') ->
  (exists a tr1, m tr = (Return a, tr1) /\ f a tr1 = (o, tr'))
  \/ (exists e, m tr = (Throw e, tr') /\ o = Throw e).
Proof.
  unfold mbind, M_bind. destruct (m tr) as [[a | e] tr1]; intros Hm.
  - left. eauto.
  - right. injection Hm as <- <-. eauto.
Qed.

Lemma bind_returns {A B} (m : M A) (f : A -> M B) tr a tr1 :
  m tr = (Return a, tr1) -> (m ≫= f) tr = f a tr1.
Proof. intros Hm. unfold mbind, M_bind. now rewrite Hm. Qed.

Lemma bind_throws {A B} (m : M A) (f : A -> M B) tr e tr1 :
  m tr = (Throw e, tr1) -> (m ≫= f) tr = (Throw e, tr1).
Proof. intros Hm. unfold mbind, M_bind. now rewrite Hm. Qed.

Lemma lift_cases {A} (x : outcome A) tr o tr' :
  lift x tr = (o, tr') -> x = o /\ tr' = tr.
Proof. unfold lift. intros [= <- <-]. auto. Qed.

Lemma ret_cases {A} (a : A) tr (o : outcome A) tr' :
  (mret a : M A) tr = (o, tr') -> o = Return a /\ tr' = tr.
Proof. unfold mret, M_ret. intros [= <- <-]. auto. Qed.

Lemma throw_cases {A} e tr (o : outcome A) tr' :
  throw e tr = (o, tr') -> o = Throw e /\ tr' = tr.
Proof. unfold throw. intros [= <- <-]. auto. Qed.

Lemma fetch_cases w q tr o tr' :
  fetch w q tr = (o, tr') -> network w q = o /\ tr' = tr ++ [q].
Proof. unfold fetch. intros [= <- <-]. auto. Qed.

Lemma try_catch_cases {A} (m : M A) (h : js_error -> M A) tr o tr' :
  try_catch m h tr = (o, tr') ->
  (exists a, m tr = (Return a, tr') /\ o = Return a)
  \/ (exists e tr1, m tr = (Throw e, tr1) /\ h e tr1 = (o, tr')).
Proof.
  unfold try_catch. destruct (m tr) as [[a | e] tr1]; intros Hm.
  - left. injection Hm as <- <-. eauto.
  - right. eauto.
Qed.

Lemma ToString_field_or m k d :
  ToString (js_or (field m k) (VStr d)) = Return (string_or m k d).
Proof.
  unfold js_or, field, string_or. destruct (m !! k) as [s |]; simpl; [| reflexivity].
  destruct (String.eqb s EmptyString); reflexivity.
Qed.

Lemma lift_bind {A B} (a : A) (f : A -> M B) tr : (lift (Return a) ≫= f) tr = f a tr.
Proof. reflexivity. Qed.

Lemma lift_throw_bind {A B} e (f : A -> M B) tr :
  (lift (Throw e) ≫= f) tr = (Throw e, tr).
Proof. reflexivity. Qed.

Lemma fetch_bind {B} w q r (f : fetch_response -> M B) tr :
  network w q = Return r -> (fetch w q ≫= f) tr = f r (tr ++ [q]).
Proof. intros Hq. unfold mbind, M_bind, fetch. now rewrite Hq. Qed.

Lemma fetch_throw_bind {B} w q e (f : fetch_response -> M B) tr :
  network w q = Throw e -> (fetch w q ≫= f) tr = (Throw e, tr ++ [q]).
Proof. intros Hq. unfold mbind, M_bind, fetch. now rewrite Hq. Qed.

Lemma try_catch_return {A} (m : M A) h tr a tr' :
  m tr = (Return a, tr') -> try_catch m h tr = (Return a, tr').
Proof. intros Hm. unfold try_catch. now rewrite Hm. Qed.

Lemma try_catch_throw {A} (m : M A) h tr e tr' :
  m tr = (Throw e, tr') -> try_catch m h tr = h e tr'.
Proof. intros Hm. unfold try_catch. now rewrite Hm. Qed.

End Steps.

(** One step of a computation whose result is known. *)
Ltac step :=
  match goal with
  | H : (if ?c then _ else _) _ = (_, _) |- _ => destruct c eqn:?
  | H : mbind _ _ _ = (_, _) |- _ =>
      apply bind_cases in H; destruct H as [(? & ? & ? & H) | (? & H & ?)]
  | H : lift _ _ = (_, _) |- _ => apply lift_cases in H; destruct H
  | H : mret _ _ = (_, _) |- _ => apply ret_cases in H; destruct H
  | H : try_catch _ _ _ = (_, _) |- _ =>
      apply try_catch_cases in H; destruct H as [(? & H & ?) | (? & ? & ? & H)]
  | H : throw _ _ = (_, _) |- _ => apply throw_cases in H; destruct H
  | H : fetch _ _ _ = (_, _) |- _ => apply fetch_cases in H; destruct H
  end.

Ltac steps := repeat (step; simplify_eq).

(** One step of a computation in [outcome] that returns. *)
Ltac ostep :=
  match goal with
  | H : mbind _ _ = Return _ |- _ =>
      apply outcome_bind_returns in H; destruct H as (? & ? & H)
  | H : (if ?c then _ else _) = Return _ |- _ => destruct c eqn:?
  end.

Ltac osteps := repeat (ostep; simplify_eq).

(** Start a run of the callback handler, and take it forward with the
    facts at hand. *)
Ltac callback_run := unfold run, XeroCallback.handler; cbv zeta; unfold try_catch.

Ltac forward :=
  repeat first
    [ rewrite lift_bind
    | rewrite lift_throw_bind
    | rewrite ToString_field_or
    | progress cbn [negb orb andb]
    | progress cbv beta
    | match goal with
      | E : ?c = true |- context [?c] => rewrite E
      | E : ?c = false |- context [?c] => rewrite E
      | E : ?x = Return _ |- context [lift ?x] => rewrite E
      | E : ?x = Throw _ |- context [lift ?x] => rewrite E
      end ].


(** ** The callback handler: what every response looks like *)

Section CallbackShape.
Context `{Runtime}.
Import XeroCallback.

Lemma redirectWithError_is_redirect message : is_redirect (redirectWithError message).
Proof.
  unfold is_redirect, redirectWithError; simpl.
  repeat split. eexists; split; [reflexivity | right; eauto].
Qed.

Lemma success_location_prefix w tokenData connections tenantId tenantName orgData location :
  success_location w tokenData connections tenantId tenantName orgData = Return location ->
  String.prefix "/?auth=success&" location = true.
Proof.
  unfold success_location, mbind, outcome_bind.
  repeat (match goal with |- context [match ?x with _ => _ end] => destruct x end;
          try discriminate).
  all: intros [= <-]; reflexivity.
Qed.

Lemma tenant_redirect_is_redirect w tokenData connections r :
  tenant_redirect w tokenData connections = Return r -> is_redirect r.
Proof.
  unfold tenant_redirect. intros Hr.
  do 8 ostep. simplify_eq.
  unfold is_redirect; simpl. repeat split.
  eexists; split; [reflexivity | left].
  eauto using success_location_prefix.
Qed.

(** X21.  Whatever response the callback handler returns, from a [return]
    inside the [try] or from the [catch], is an HTTP 302 redirect to the
    application root whose query says [auth=success], or [auth=error] with
    a [message]; it has no body, so it is never a JSON error body.  (That
    a response is returned at all is not part of this statement.) *)
Theorem callback_response_is_redirect w ev resp trace :
  run (handler w ev) = (Return resp, trace) -> is_redirect resp.
Proof.
  unfold run, handler. intros Hrun. cbv zeta in Hrun.
  apply try_catch_cases in Hrun as [(r & Hm & Hr) | (e & tr1 & Hm & Hh)].
  - simplify_eq.
    steps; eauto using redirectWithError_is_redirect, tenant_redirect_is_redirect.
  - apply ret_cases in Hh as [? _]. simplify_eq.
    apply redirectWithError_is_redirect.
Qed.

End CallbackShape.

(** ** The callback handler: the order of its checks *)

Section CallbackChecks.
Context `{Runtime}.
Import XeroCallback.

Lemma ToString_description params :
  truthy (field params "error") = true ->
  ToString (js_or (field params "error_description") (field params "error"))
  = Return (provider_description params).
Proof.
  unfold provider_description, js_or, field, string_or.
  destruct (params !! "error") as [e |]; simpl; [| discriminate].
  destruct (String.eqb e EmptyString); [discriminate |]. intros _.
  destruct (params !! "error_description") as [d |]; simpl; [| reflexivity].
  destruct (String.eqb d EmptyString); reflexivity.
Qed.

(** C6 (as amended).  The checks run in this order, and the first one that
    fails decides the response; none of them issues a request:
    provider error, missing code, missing state, absent (or empty)
    correlation cookie, a cookie value that cannot be URI-decoded (which
    ends in the catch-all "Server error" redirect, not in the
    session-expired one), state mismatch, missing client credentials. *)
Theorem callback_validation_order w ev :
  let params := queryStringParameters ev in
  let code := field params "code" in
  let receivedState := field params "state" in
  let xeroCookie := xero_auth_cookie ev in
  (truthy (field params "error") = true ->
     run (handler w ev)
     = (Return (redirectWithError ("Authentication error: " +:+ provider_description params)), []))
  /\ (truthy (field params "error") = false ->
      (truthy code = false ->
         run (handler w ev)
         = (Return (redirectWithError "No authorization code received from Xero"), []))
      /\ (truthy code = true ->
          (truthy receivedState = false ->
             run (handler w ev)
             = (Return (redirectWithError "Invalid authentication request (missing state)"), []))
          /\ (truthy receivedState = true ->
              (truthy xeroCookie = false ->
                 run (handler w ev)
                 = (Return (redirectWithError "Authentication session expired or invalid"), []))
              /\ (truthy xeroCookie = true ->
                  (forall e, decoded_cookie xeroCookie = Throw e ->
                     run (handler w ev)
                     = (Return (redirectWithError ("Server error: " +:+ error_message e)), []))
                  /\ (forall decoded, decoded_cookie xeroCookie = Return decoded ->
                      let storedState := lookup_member "state" (querystring_parse decoded) in
                      (strict_equal receivedState storedState = false ->
                         run (handler w ev)
                         = (Return (redirectWithError "Invalid authentication request (state mismatch)"), []))
                      /\ (strict_equal receivedState storedState = true ->
                          credentials_configured w = false ->
                          run (handler w ev)
                          = (Return (redirectWithError "Server configuration error (missing Xero credentials)"), []))))))).
Proof.
  intros params code receivedState xeroCookie.
  subst params code receivedState xeroCookie. unfold xero_auth_cookie.
  split; [| intros Herror; split; [| intros Hcode; split; [| intros Hstate; split;
    [| intros Hcookie; split; [| intros decoded Hdecoded; cbv zeta; split]]]]].
  - intros Herror. callback_run. forward.
    rewrite (ToString_description _ Herror). reflexivity.
  - intros Hcode. callback_run. forward. reflexivity.
  - intros Hstate. callback_run. forward. reflexivity.
  - intros Hcookie. callback_run. forward. reflexivity.
  - intros e He. callback_run. forward.
    unfold decoded_cookie in He.
    apply outcome_bind_throws in He as [He | (raw & Hraw & He)]; forward; reflexivity.
  - intros Hne. callback_run. forward.
    unfold decoded_cookie in Hdecoded.
    apply outcome_bind_returns in Hdecoded as (raw & Hraw & Hdecoded).
    forward. reflexivity.
  - intros Heq Hcred. callback_run. forward.
    unfold decoded_cookie in Hdecoded.
    apply outcome_bind_returns in Hdecoded as (raw & Hraw & Hdecoded).
    forward.
    unfold credentials_configured in Hcred.
    destruct (truthy (field (env w) "XERO_CLIENT_ID"));
      destruct (truthy (field (env w) "XERO_CLIENT_SECRET")); try discriminate; reflexivity.
Qed.

Lemma error_redirect_not_success message : ~ is_success (redirectWithError message).
Proof. intros (location & Hloc & Hprefix). simpl in Hloc. simplify_eq. Qed.

(** A run that passes the checks and gets both answers ends as
    [tenant_redirect] does, after two requests. *)
Lemma callback_reaches_tenants w ev tokenData connections :
  reaches_tenants w ev tokenData connections ->
  exists q1 q2,
    req_url q1 = token_endpoint /\ req_url q2 = connections_endpoint
    /\ run (handler w ev) = (Return (caught (tenant_redirect w tokenData connections)), [q1; q2]).
Proof.
  intros (Herror & Hcode & Hstate & Hcookie & Hcred & decoded & authorization
          & tokenResponse & access_token & bearer & userInfoResponse & Hdecoded & Heq
          & Hauth & Htoken & Hok1 & Hjson1 & Haccess & Hbearer & Hconn & Hok2 & Hjson2).
  unfold xero_auth_cookie, decoded_cookie, credentials_configured, callback_uri in *.
  apply outcome_bind_returns in Hdecoded as (raw & Hraw & Hdecoded).
  apply andb_true_iff in Hcred as [Hid Hsecret].
  eexists _, _. split; [| split]; [| | callback_run; forward].
  3: { erewrite fetch_bind by eassumption. forward.
       erewrite fetch_bind by eassumption. forward.
       destruct (tenant_redirect w tokenData connections); reflexivity. }
  all: reflexivity.
Qed.

(** A success response comes from [tenant_redirect], at the end of such a
    run. *)
Lemma callback_success_inversion w ev resp trace :
  run (handler w ev) = (Return resp, trace) -> is_success resp ->
  exists tokenData connections,
    reaches_tenants w ev tokenData connections
    /\ tenant_redirect w tokenData connections = Return resp.
Proof.
  unfold run, handler. intros Hrun Hsuccess. cbv zeta in Hrun.
  apply try_catch_cases in Hrun as [(r & Hm & Hr) | (e & tr1 & Hm & Hh)].
  - simplify_eq. steps; try (now apply error_redirect_not_success in Hsuccess).
    eexists _, _. split; [| eassumption].
    unfold reaches_tenants, xero_auth_cookie, decoded_cookie, credentials_configured,
      callback_uri.
    rewrite ToString_field_or in *. simplify_eq.
    repeat match goal with
           | E : negb _ = false |- _ => apply negb_false_iff in E
           | E : _ || _ = false |- _ => apply orb_false_iff in E as [? ?]
           end.
    repeat (split; [first [assumption | apply andb_true_iff; auto] |]).
    eexists _, _, _, _, _, _.
    repeat (split; [first [eassumption | rewrite H2; simpl; eassumption] |]).
    eassumption.
  - apply ret_cases in Hh as [? _]. simplify_eq.
    now apply error_redirect_not_success in Hsuccess.
Qed.

(** C1 (as amended).  When the query carries a code and a state, the
    correlation cookie is present and decodes, and the state it holds is
    not the state of the query, the handler issues no request at all; and
    unless the query also carries an [error] parameter (which is reported
    first), its response is the state-mismatch redirect. *)
Theorem callback_state_mismatch_rejected w ev decoded :
  let params := queryStringParameters ev in
  truthy (field params "code") = true ->
  truthy (field params "state") = true ->
  truthy (xero_auth_cookie ev) = true ->
  decoded_cookie (xero_auth_cookie ev) = Return decoded ->
  strict_equal (field params "state") (lookup_member "state" (querystring_parse decoded)) = false ->
  snd (run (handler w ev)) = []
  /\ (truthy (field params "error") = false ->
      fst (run (handler w ev))
      = Return (redirectWithError "Invalid authentication request (state mismatch)")).
Proof.
  intros params Hcode Hstate Hcookie Hdecoded Hne. subst params.
  unfold xero_auth_cookie, decoded_cookie in *.
  apply outcome_bind_returns in Hdecoded as (raw & Hraw & Hdecoded).
  destruct (truthy (field (queryStringParameters ev) "error")) eqn:Herror.
  - split; [| discriminate].
    callback_run. forward. rewrite (ToString_description _ Herror). reflexivity.
  - split; [| intros _]; callback_run; forward; reflexivity.
Qed.

Lemma session_cookies_built tokenData tenantId tenantName cookies :
  session_cookies tokenData tenantId tenantName = Return cookies ->
  exists tenantIdCookie tenantNameCookie userIdCookie,
    cookies = [ authenticated_cookie; tenantIdCookie; tenantNameCookie; userIdCookie
              ; clearing_cookie ].
Proof.
  unfold session_cookies. intros Hc.
  do 6 ostep. simplify_eq.
  repeat match goal with
         | E : Cookie.serialize _ (VStr _) _ = Return _ |- _ =>
             unfold Cookie.serialize in E; simpl in E; simplify_eq
         end.
  eexists _, _, _. reflexivity.
Qed.

Lemma tenant_redirect_cases w tokenData connections resp :
  tenant_redirect w tokenData connections = Return resp ->
  exists tenantId tenantName cookies orgData location,
    first_or connections "tenantId" VNull = Return tenantId
    /\ first_or connections "tenantName" (VStr "Unknown Organization") = Return tenantName
    /\ session_cookies tokenData tenantId tenantName = Return cookies
    /\ connections_map connections = Return orgData
    /\ success_location w tokenData connections tenantId tenantName orgData = Return location
    /\ resp = {| statusCode := 302;
                 resp_headers := [("Location", location); ("Cache-Control", "no-cache")];
                 resp_body := None |}.
Proof.
  unfold tenant_redirect. intros Hr. do 8 ostep. simplify_eq.
  eexists _, _, _, _, _. repeat (split; [eassumption |]). reflexivity.
Qed.

End CallbackChecks.

(** ** The session cookies *)

Section SessionCookies.
Context `{Runtime}.
Import XeroCallback.

Lemma strict_equal_string v s : strict_equal v (VStr s) = true -> v = VStr s.
Proof.
  destruct v; simpl; try discriminate.
  intros Heq. apply String.eqb_eq in Heq. now subst.
Qed.

Lemma connections_ok_needs_flag ev r tr :
  run (XeroConnections.handler ev) = (Return r, tr) ->
  statusCode r = 200%Z ->
  lookup_member "xero_authenticated" (cookie_parse (cookie_header ev)) = VStr "true".
Proof.
  unfold run, XeroConnections.handler, cookie_header. intros Hrun Hstatus.
  destruct (String.eqb (httpMethod ev) "OPTIONS"); [step; simplify_eq; discriminate |].
  cbv zeta in Hrun.
  apply try_catch_cases in Hrun as [(a & Hm & Ha) | (e & tr1 & Hm & Hh)].
  - simplify_eq. rewrite ToString_field_or in Hm.
    steps; try discriminate.
    match goal with E : negb _ = false |- _ => apply negb_false_iff in E end.
    auto using strict_equal_string.
  - apply ret_cases in Hh as [? _]. simplify_eq.
Qed.

(** C10.  On the success path the response has the headers [Location] and
    [Cache-Control] and no other, so no [Set-Cookie] header: the session
    cookies and the cookie clearing [xero_auth] were built (the run went
    through [session_cookies]) but are not part of the response.  The
    connections endpoint answers 200 only to a request whose cookies hold
    [xero_authenticated=true], a cookie this handler therefore never sets. *)
Theorem callback_success_sets_no_cookie w ev resp trace :
  run (handler w ev) = (Return resp, trace) ->
  is_success resp ->
  List.map fst (resp_headers resp) = ["Location"; "Cache-Control"]
  /\ header "Set-Cookie" (resp_headers resp) = None
  /\ (exists tokenData tenantId tenantName tenantIdCookie tenantNameCookie userIdCookie,
        session_cookies tokenData tenantId tenantName
        = Return [ authenticated_cookie; tenantIdCookie; tenantNameCookie; userIdCookie
                 ; clearing_cookie ])
  /\ (forall ev' r tr,
        run (XeroConnections.handler ev') = (Return r, tr) ->
        statusCode r = 200%Z ->
        lookup_member "xero_authenticated" (cookie_parse (cookie_header ev')) = VStr "true").
Proof.
  intros Hrun Hsuccess.
  destruct (callback_success_inversion _ _ _ _ Hrun Hsuccess)
    as (tokenData & connections & _ & Hredirect).
  apply tenant_redirect_cases in Hredirect
    as (tenantId & tenantName & cookies & orgData & location & _ & _ & Hcookies & _ & _ & ->).
  destruct (session_cookies_built _ _ _ _ Hcookies) as (c2 & c3 & c4 & ->).
  repeat split; eauto 10 using connections_ok_needs_flag.
Qed.

End SessionCookies.

(** ** PKCE *)

Section Pkce.

Lemma replace_all_char c r a s :
  replace_all c (String r EmptyString) (String a s)
  = String (if Ascii.eqb a c then r else a) (replace_all c (String r EmptyString) s).
Proof. cbn [replace_all]. now destruct (Ascii.eqb a c). Qed.

Lemma url_safe_replace s :
  replace_all "/" "_" (replace_all "+" "-" s) = map_chars url_safe s.
Proof.
  induction s as [| a s IH]; [reflexivity |].
  rewrite !replace_all_char. cbn [map_chars]. rewrite IH. f_equal.
  unfold url_safe. now destruct (Ascii.eqb a "+").
Qed.

Lemma strip_trailing_cons c a s :
  Ascii.eqb a c = false ->
  strip_trailing c (String a s) = String a (strip_trailing c s).
Proof.
  intros Hne. simpl. rewrite Hne. now destruct (strip_trailing c s).
Qed.

Lemma drop_cons a s :
  Ascii.eqb a "=" = false ->
  replace_all "=" EmptyString (String a s) = String a (replace_all "=" EmptyString s).
Proof. intros Hne. simpl. now rewrite Hne. Qed.

(** No character of the alphabet is the padding character, before and
    after it is made URL-safe. *)
Lemma alphabet_no_padding i : Ascii.eqb (url_safe (Base64.char i)) "=" = false.
Proof.
  unfold Base64.char.
  assert (Z.to_nat (i mod 64) < 64)%nat as Hlt
    by (pose proof (Z.mod_pos_bound i 64 eq_refl); lia).
  revert Hlt. generalize (Z.to_nat (i mod 64)) as n. intros n Hlt.
  do 64 (destruct n as [| n]; [reflexivity |]). lia.
Qed.

(** On Base64 text, removing every [=] is stripping the padding. *)
Lemma padding_only_at_end (l : list Z) :
  replace_all "=" EmptyString (map_chars url_safe (Base64.encode l))
  = strip_trailing "=" (map_chars url_safe (Base64.encode l)).
Proof.
  revert l. fix IH 1. intros [| a [| b [| c l]]].
  - reflexivity.
  - cbn [Base64.encode map_chars].
    rewrite !drop_cons, !strip_trailing_cons by apply alphabet_no_padding.
    reflexivity.
  - cbn [Base64.encode map_chars].
    rewrite !drop_cons, !strip_trailing_cons by apply alphabet_no_padding.
    reflexivity.
  - cbn [Base64.encode map_chars].
    rewrite !drop_cons, !strip_trailing_cons by apply alphabet_no_padding.
    now rewrite IH.
Qed.

(** C3.  The challenge the authorization handler derives from a verifier is
    the SHA-256 digest of the verifier's UTF-8 bytes in Base64 with [+]
    replaced by [-], [/] by [_] and the trailing [=] stripped; for the
    verifier [abc123] it is the known value. *)
Theorem codeChallenge_is_base64url_sha256 :
  (forall codeVerifier, XeroAuth.codeChallenge codeVerifier = challenge_of codeVerifier)
  /\ XeroAuth.codeChallenge "abc123" = "bKE9UspwyIPg8LsQHkJaiehiTeUdstI5JZOvaoQRgJA".
Proof.
  split.
  - intros v. unfold XeroAuth.codeChallenge, challenge_of, base64url_nopad.
    rewrite url_safe_replace. apply padding_only_at_end.
  - vm_compute. reflexivity.
Qed.

End Pkce.

(** ** The redirect URI *)

Section RedirectUri.
Context `{Runtime}.

Lemma escape_decodes a rest :
  URI.percent_byte (URI.escape a +:+ rest) = Some (byte_of_ascii a, rest).
Proof. destruct a as [[] [] [] [] [] [] [] []]; reflexivity. Qed.

Lemma ascii_of_byte_of_ascii a : ascii_of_byte (byte_of_ascii a) = a.
Proof. destruct a as [[] [] [] [] [] [] [] []]; reflexivity. Qed.

Lemma escape_shape a : exists h l, URI.escape a = String "%" (String h (String l EmptyString)).
Proof. unfold URI.escape, Hex.of_byte. eauto. Qed.

Lemma unreserved_literal a :
  URI.unreserved a = true -> Ascii.eqb a "+" = false /\ Ascii.eqb a "%" = false.
Proof. destruct a as [[] [] [] [] [] [] [] []]; intros Hu; try discriminate Hu; auto. Qed.

Lemma plain_literal a :
  URLSearchParams.plain a = true -> Ascii.eqb a "+" = false /\ Ascii.eqb a "%" = false.
Proof. destruct a as [[] [] [] [] [] [] [] []]; intros Hu; try discriminate Hu; auto. Qed.

Lemma form_decode_fuel_cons f c r :
  form_decode_fuel (S f) (String c r)
  = if Ascii.eqb c "+" then String " " <$> form_decode_fuel f r
    else if Ascii.eqb c "%" then
      match URI.percent_byte (String c r) with
      | Some (b, rest) => String (ascii_of_byte b) <$> form_decode_fuel f rest
      | None => None
      end
    else String c <$> form_decode_fuel f r.
Proof. reflexivity. Qed.

Lemma decode_escape f a rest :
  form_decode_fuel (S f) (URI.escape a +:+ rest) = String a <$> form_decode_fuel f rest.
Proof.
  pose proof (escape_decodes a rest) as Hbyte.
  destruct (escape_shape a) as (h & l & Hshape). rewrite Hshape in *.
  change (String "%" (String h (String l EmptyString)) +:+ rest)
    with (String "%" (String h (String l rest))) in *.
  rewrite form_decode_fuel_cons.
  change (Ascii.eqb "%" "+") with false. change (Ascii.eqb "%" "%") with true.
  cbv iota. rewrite Hbyte, ascii_of_byte_of_ascii. reflexivity.
Qed.

Lemma form_decode_fuel_more f s t :
  form_decode_fuel f s = Some t -> form_decode_fuel (S f) s = Some t.
Proof.
  revert s t. induction f as [| f IH]; intros s t.
  - destruct s; [auto | discriminate].
  - destruct s as [| c r]; [auto |].
    rewrite !form_decode_fuel_cons.
    destruct (Ascii.eqb c "+").
    + destruct (form_decode_fuel f r) eqn:E; [| discriminate].
      rewrite (IH _ _ E). auto.
    + destruct (Ascii.eqb c "%").
      * destruct (URI.percent_byte (String c r)) as [[b rest] |]; [| discriminate].
        destruct (form_decode_fuel f rest) eqn:E; [| discriminate].
        rewrite (IH _ _ E). auto.
      * destruct (form_decode_fuel f r) eqn:E; [| discriminate].
        rewrite (IH _ _ E). auto.
Qed.

Lemma form_decode_fuel_enough f g s t :
  form_decode_fuel f s = Some t -> (f <= g)%nat -> form_decode_fuel g s = Some t.
Proof. induction 2; auto using form_decode_fuel_more. Qed.

(** Both encodings of a value are read back as that value. *)
Lemma component_decodes s : form_decode (URI.encodeURIComponent s) = Some s.
Proof.
  unfold form_decode.
  assert (exists f, form_decode_fuel f (URI.encodeURIComponent s) = Some s
                    /\ (f <= String.length (URI.encodeURIComponent s))%nat) as (f & Hf & Hle).
  { induction s as [| a s (f & IH & Hle)]; [exists 0%nat; auto |].
    cbn [URI.encodeURIComponent].
    destruct (URI.unreserved a) eqn:Hu.
    - exists (S f). destruct (unreserved_literal _ Hu) as [H1 H2].
      rewrite form_decode_fuel_cons, H1, H2, IH. cbn [String.length].
      split; [reflexivity | lia].
    - exists (S f). rewrite decode_escape, IH. split; [reflexivity |].
      destruct (escape_shape a) as (h & l & ->).
      change (String "%" (String h (String l EmptyString)) +:+ ?x)
        with (String "%" (String h (String l x))).
      cbn [String.length]. lia. }
  eauto using form_decode_fuel_enough.
Qed.

Lemma search_param_decodes s : form_decode (URLSearchParams.encode s) = Some s.
Proof.
  unfold form_decode.
  assert (exists f, form_decode_fuel f (URLSearchParams.encode s) = Some s
                    /\ (f <= String.length (URLSearchParams.encode s))%nat) as (f & Hf & Hle).
  { induction s as [| a s (f & IH & Hle)]; [exists 0%nat; auto |].
    cbn [URLSearchParams.encode].
    destruct (URLSearchParams.plain a) eqn:Hu.
    - exists (S f). destruct (plain_literal _ Hu) as [H1 H2].
      rewrite form_decode_fuel_cons, H1, H2, IH. cbn [String.length].
      split; [reflexivity | lia].
    - destruct (Ascii.eqb a " ") eqn:Hspace.
      + apply Ascii.eqb_eq in Hspace. subst a. exists (S f).
        rewrite form_decode_fuel_cons. change (Ascii.eqb "+" "+") with true.
        cbv iota. rewrite IH. cbn [String.length]. split; [reflexivity | lia].
      + exists (S f). rewrite decode_escape, IH. split; [reflexivity |].
        destruct (escape_shape a) as (h & l & ->).
      change (String "%" (String h (String l EmptyString)) +:+ ?x)
        with (String "%" (String h (String l x))).
      cbn [String.length]. lia. }
  eauto using form_decode_fuel_enough.
Qed.

(** C4.  For every configuration, the [redirect_uri] the authorization
    handler puts in the authorization URL and the [redirect_uri] the
    callback handler sends to the token endpoint are the same string,
    [callback_uri]: as values, and as the provider decodes them from the
    query and from the form body. *)
Theorem redirect_uri_consistent w ev :
  let uri := callback_uri w in
  (forall resp trace,
     run (XeroAuth.handler w) = (Return resp, trace) -> statusCode resp = 302%Z ->
     exists clientId state challenge,
       header "Location" (resp_headers resp)
       = Some (URLSearchParams.href "https://login.xero.com/identity/connect/authorize"
                 (XeroAuth.searchParams clientId uri state challenge)))
  /\ (forall q,
        In q (snd (run (XeroCallback.handler w ev))) ->
        req_url q = XeroCallback.token_endpoint ->
        exists authorization code verifier,
          q = XeroCallback.token_request authorization code uri verifier)
  /\ (forall clientId state challenge,
        header "redirect_uri" (XeroAuth.searchParams clientId uri state challenge) = Some uri)
  /\ (forall authorization code verifier,
        req_body (XeroCallback.token_request authorization code uri verifier)
        = Some (Querystring.stringify
                  [ ("grant_type", VStr "authorization_code"); ("code", code)
                  ; ("redirect_uri", VStr uri); ("code_verifier", verifier) ]))
  /\ form_decode (URLSearchParams.encode uri) = Some uri
  /\ form_decode (URI.encodeURIComponent uri) = Some uri.
Proof.
  cbv zeta. repeat split; auto using component_decodes, search_param_decodes.
  - intros resp trace Hrun Hstatus.
    unfold run, XeroAuth.handler, XeroAuth.redirectUri in Hrun. cbv zeta in Hrun.
    set (state := Hex.encode (randomBytes w 0 16)) in Hrun.
    set (challenge := XeroAuth.codeChallenge _) in Hrun.
    set (cookie := String.append "xero_auth=" _) in Hrun.
    clearbody state challenge cookie.
    rewrite ToString_field_or in Hrun.
    apply try_catch_cases in Hrun as [(a & Hm & Ha) | (e & tr1 & Hm & Hh)].
    + steps. osteps. eexists _, _, _. reflexivity.
    + apply ret_cases in Hh as [? _]. simplify_eq.
  - intros q Hq Hurl.
    destruct (run (XeroCallback.handler w ev)) as [o trace] eqn:Hrun.
    unfold run, XeroCallback.handler in Hrun. cbv zeta in Hrun. simpl in Hq.
    unfold callback_uri.
    apply try_catch_cases in Hrun as [(a & Hm & Ha) | (e & tr1 & Hm & Hh)].
    + rewrite !ToString_field_or in Hm.
      steps; try (now destruct Hq);
        repeat (destruct Hq as [<- | Hq]; [try discriminate Hurl; eauto |]);
        destruct Hq.
    + apply ret_cases in Hh as [_ ->].
      rewrite !ToString_field_or in Hm.
      steps; try (now destruct Hq);
        repeat (destruct Hq as [<- | Hq]; [try discriminate Hurl; eauto |]);
        destruct Hq.
Qed.

End RedirectUri.

(** ** The refresh handler *)

Section Refresh.
Context `{Runtime}.
Import XeroRefresh.

Lemma ToString_request_source ev :
  ToString (js_or (nullable (body ev)) (VStr "{}")) = Return (request_source ev).
Proof.
  unfold request_source, nullable, js_or, or_default.
  destruct (body ev) as [s |]; simpl; [| reflexivity].
  destruct (String.eqb s EmptyString); reflexivity.
Qed.

Ltac refresh_run := unfold run, handler; cbv zeta; unfold try_catch.

(** C7 (as amended).  A method other than POST and OPTIONS is answered
    405.  For a POST: if parsing the body (or [{}] when it is absent or
    empty) or reading [refresh_token] throws, the answer is the catch-all
    500 (a body that is no JSON is answered 500, not 400); a missing or
    falsy [refresh_token] is answered 400; missing credentials are answered
    500.  None of these issues a request: a request goes to the token
    endpoint only for a POST with a refresh token and with credentials. *)
Theorem refresh_validation w ev :
  (httpMethod ev <> "POST" -> httpMethod ev <> "OPTIONS" ->
     run (handler w ev) = (Return (error_response 405 "Method not allowed"), []))
  /\ (httpMethod ev = "POST" ->
      (forall e, refresh_token_of ev = Throw e ->
         run (handler w ev) = (Return (server_error e), []))
      /\ (forall t, refresh_token_of ev = Return t ->
          (truthy t = false ->
             run (handler w ev) = (Return (error_response 400 "Refresh token is required"), []))
          /\ (truthy t = true -> credentials_configured w = false ->
              run (handler w ev) = (Return (error_response 500 "Missing Xero credentials"), []))))
  /\ (forall q, In q (snd (run (handler w ev))) ->
      httpMethod ev = "POST"
      /\ credentials_configured w = true
      /\ exists t authorization,
           refresh_token_of ev = Return t /\ truthy t = true
           /\ q = refresh_request authorization t).
Proof.
  split; [| split].
  - intros Hpost Hoptions.
    apply String.eqb_neq in Hpost, Hoptions.
    refresh_run. rewrite Hoptions, Hpost. reflexivity.
  - intros Hpost. unfold refresh_token_of.
    assert (String.eqb (httpMethod ev) "OPTIONS" = false) as Hoptions
      by (rewrite Hpost; reflexivity).
    assert (String.eqb (httpMethod ev) "POST" = true) as Hpost'
      by (rewrite Hpost; reflexivity).
    split.
    + intros e He. refresh_run. rewrite Hoptions, Hpost', ToString_request_source.
      forward.
      apply outcome_bind_throws in He as [He | (requestData & Hparse & He)];
        forward; reflexivity.
    + intros t Ht.
      apply outcome_bind_returns in Ht as (requestData & Hparse & Ht).
      split.
      * intros Hfalsy. refresh_run.
        rewrite Hoptions, Hpost', ToString_request_source. forward. reflexivity.
      * intros Htruthy Hcred. refresh_run.
        rewrite Hoptions, Hpost', ToString_request_source. forward.
        unfold credentials_configured in Hcred.
        destruct (truthy (field (env w) "XERO_CLIENT_ID"));
          destruct (truthy (field (env w) "XERO_CLIENT_SECRET"));
          try discriminate; reflexivity.
  - intros q. destruct (run (handler w ev)) as [o trace] eqn:Hrun.
    unfold run, handler in Hrun. cbv zeta in Hrun.
    destruct (String.eqb (httpMethod ev) "OPTIONS") eqn:Hoptions;
      [step; simplify_eq; intros [] |].
    simpl. intros Hq.
    assert (exists t authorization,
              String.eqb (httpMethod ev) "POST" = true
              /\ credentials_configured w = true
              /\ refresh_token_of ev = Return t /\ truthy t = true
              /\ q = refresh_request authorization t) as Hgoal.
    { unfold refresh_token_of, credentials_configured.
      apply try_catch_cases in Hrun as [(a & Hm & Ha) | (e & tr1 & Hm & Hh)].
      - rewrite ToString_request_source in Hm.
        steps; try (now destruct Hq);
          repeat match goal with
                 | E : negb _ = false |- _ => apply negb_false_iff in E
                 | E : _ || _ = false |- _ => apply orb_false_iff in E as [? ?]
                 end;
          destruct Hq as [<- | []]; eexists _, _;
          repeat match goal with E : _ = Return _ |- _ => rewrite E end; simpl;
          repeat split; eauto using andb_true_intro.
      - apply ret_cases in Hh as [_ ->].
        rewrite ToString_request_source in Hm.
        steps; try (now destruct Hq);
          repeat match goal with
                 | E : negb _ = false |- _ => apply negb_false_iff in E
                 | E : _ || _ = false |- _ => apply orb_false_iff in E as [? ?]
                 end;
          destruct Hq as [<- | []]; eexists _, _;
          repeat match goal with E : _ = Return _ |- _ => rewrite E end; simpl;
          repeat split; eauto using andb_true_intro. }
    destruct Hgoal as (t & authorization & Hpost & Hcred & Ht & Htruthy & ->).
    apply String.eqb_eq in Hpost. eauto 10.
Qed.

(** C8.  Whenever the refresh handler receives from the token endpoint a
    response whose status is not 2xx, it answers with that very status and
    with the envelope [{ error: 'Failed to refresh token', details: text }]
    around the text of that response; it made no other request. *)
Theorem refresh_upstream_error_passthrough w ev o trace q upstream :
  run (handler w ev) = (o, trace) ->
  In q trace ->
  network w q = Return upstream ->
  ok upstream = false ->
  o = Return (passthrough upstream)
  /\ trace = [q]
  /\ statusCode (passthrough upstream) = status upstream
  /\ resp_body (passthrough upstream)
     = Some (JSON.stringify_object [ ("error", VStr "Failed to refresh token")
                                   ; ("details", VStr (text upstream)) ]).
Proof.
  intros Hrun Hq Hnet Hok.
  unfold run, handler in Hrun. cbv zeta in Hrun.
  destruct (String.eqb (httpMethod ev) "OPTIONS"); [step; simplify_eq; destruct Hq |].
  assert (o = Return (passthrough upstream) /\ trace = [q]) as [-> ->];
    [| repeat split; reflexivity].
  apply try_catch_cases in Hrun as [(a & Hm & Ha) | (e & tr1 & Hm & Hh)].
  - steps; try (now destruct Hq); destruct Hq as [<- | []];
      rewrite Hnet in *; simplify_eq;
      try (rewrite Hok in *; discriminate); auto.
  - apply ret_cases in Hh as [-> ->].
    steps; try (now destruct Hq); destruct Hq as [<- | []];
      rewrite Hnet in *; simplify_eq;
      try (rewrite Hok in *; discriminate); auto.
Qed.

End Refresh.

(** ** Tenant selection *)

Section TenantSelection.
Context `{Runtime}.
Import XeroCallback.

Lemma js_or_strings s d : js_or (VStr s) (VStr d) = VStr (or_default s d).
Proof. unfold js_or, or_default, truthy. destruct (String.eqb s EmptyString); reflexivity. Qed.

Lemma or_default_empty s : or_default s EmptyString = s.
Proof.
  unfold or_default. destruct (String.eqb s EmptyString) eqn:E; [| reflexivity].
  apply String.eqb_eq in E. now subst.
Qed.

(** [l.length > k] for an array and a small literal. *)
Lemma js_gt_length (n : nat) (k : Z) :
  (- 2 ^ 53 < k < 2 ^ 53)%Z ->
  js_gt (VNum (num_of_Z (Z.of_nat n))) k = Return (k <? Z.of_nat n)%Z.
Proof. intros Hk. unfold js_gt. simpl. now rewrite num_ltb_of_Z. Qed.

Lemma first_or_empty k otherwise : first_or (VArr []) k otherwise = Return otherwise.
Proof.
  unfold first_or. cbn [get String.eqb Ascii.eqb Bool.eqb mbind outcome_bind length].
  rewrite js_gt_length by lia. reflexivity.
Qed.

Lemma first_or_first first others k otherwise :
  first_or (VArr (first :: others)) k otherwise = get first k.
Proof.
  unfold first_or. cbn [get String.eqb Ascii.eqb Bool.eqb mbind outcome_bind].
  rewrite js_gt_length by lia.
  replace (0 <? Z.of_nat (length (first :: others)))%Z with true
    by (symmetry; apply Z.ltb_lt; simpl; lia).
  reflexivity.
Qed.

Lemma map_entries_tenants elements tenants :
  Forall2 is_tenant elements tenants ->
  map_entries elements = Return (List.map tenant_entry_of tenants).
Proof.
  induction 1 as [| c t elements tenants [Hid Hname] _ IH]; [reflexivity |].
  simpl. unfold tenant_entry. rewrite Hid, Hname. simpl.
  rewrite IH. simpl. now rewrite js_or_strings.
Qed.

Lemma serialize_string name s opt :
  exists c, Cookie.serialize name (VStr s) opt = Return c.
Proof. unfold Cookie.serialize. simpl. eauto. Qed.

Lemma session_cookies_return tokenData tenantId tenantName :
  usable_id_token tokenData ->
  exists cookies,
    session_cookies tokenData (VStr tenantId) (VStr tenantName) = Return cookies.
Proof.
  intros (t & Ht & Hshape). unfold session_cookies, Cookie.serialize.
  rewrite !js_or_strings. simpl. rewrite Ht. simpl.
  destruct Hshape as [Hfalsy | (s & ->)].
  - rewrite Hfalsy. simpl. eauto.
  - destruct (truthy (VStr s)); simpl; [| eauto].
    destruct (split_on "." s) as [| a [| b l]]; simpl;
      rewrite ?js_or_strings; unfold js_or; simpl; eauto.
Qed.

Lemma multiple_tenants (elements : list value) (A : Type) (l : list A) :
  length l = length elements ->
  (1 <? Z.of_nat (length elements))%Z
  = match l with _ :: _ :: _ => true | _ => false end.
Proof.
  intros <-. destruct l as [| a [| b l]]; simpl; try reflexivity.
  apply Z.ltb_lt. lia.
Qed.

(** The end of the handler on a list of tenants. *)
Lemma tenant_redirect_tenants w tokenData elements tenants tokens :
  usable_id_token tokenData ->
  token_bundle w tokenData = Return tokens ->
  Forall2 is_tenant elements tenants ->
  tenant_redirect w tokenData (VArr elements)
  = Return (success_redirect (selected_location tenants tokens)).
Proof.
  intros Hid Htokens Htenants.
  pose proof (map_entries_tenants _ _ Htenants) as Hentries.
  pose proof (Forall2_length _ _ _ Htenants) as Hlength.
  unfold tenant_redirect, success_location, selected_location, success_redirect,
    connections_map, encodeURIComponent.
  cbn [get String.eqb Ascii.eqb Bool.eqb ToString mbind outcome_bind].
  rewrite Hentries, Htokens. cbn [mbind outcome_bind].
  rewrite (js_gt_length _ 1) by lia.
  rewrite (multiple_tenants elements _ tenants) by auto.
  destruct Htenants as [| first t others tenants [Htid Htname] _].
  - rewrite !first_or_empty. cbn [mbind outcome_bind].
    destruct (session_cookies_return tokenData EmptyString "Unknown Organization" Hid)
      as (cookies & Hcookies).
    change (session_cookies tokenData VNull (VStr "Unknown Organization"))
      with (session_cookies tokenData (VStr EmptyString) (VStr "Unknown Organization")).
    rewrite Hcookies. reflexivity.
  - rewrite !first_or_first, Htid, Htname. cbn [mbind outcome_bind].
    destruct (session_cookies_return tokenData (fst t) (snd t) Hid) as (cookies & ->).
    cbn [mbind outcome_bind].
    rewrite !js_or_strings, or_default_empty.
    cbn [ToString mbind outcome_bind]. destruct tenants; reflexivity.
Qed.

(** C9 (as amended).  When the provider answers the connections request
    with a list of tenants (objects with a string [tenantId] and a string
    [tenantName]) and the token response can be packaged, the handler ends
    with the success redirect of [selected_location]: the active tenant is
    the first of the list in the provider's order, its name replaced by
    [Unknown] if empty; for the empty list the tenant identifier is empty
    and the tenant name is the placeholder [Unknown Organization]. *)
Theorem callback_selects_first_tenant w ev tokenData elements tenants tokens :
  reaches_tenants w ev tokenData (VArr elements) ->
  Forall2 is_tenant elements tenants ->
  usable_id_token tokenData ->
  token_bundle w tokenData = Return tokens ->
  fst (run (handler w ev)) = Return (success_redirect (selected_location tenants tokens))
  /\ is_success (success_redirect (selected_location tenants tokens)).
Proof.
  intros Hreach Htenants Hid Htokens.
  destruct (callback_reaches_tenants _ _ _ _ Hreach) as (q1 & q2 & _ & _ & ->).
  rewrite (tenant_redirect_tenants _ _ _ _ _ Hid Htokens Htenants).
  split; [reflexivity |].
  eexists; split; reflexivity.
Qed.

End TenantSelection.

(** ** The handlers at work on the sample requests *)

Section Samples.
#[local] Existing Instance Node.numbers.
#[local] Existing Instance Node.runtime.
Import XeroCallback.

(** C1, on a forged callback: no request goes out and the response is the
    state-mismatch redirect. *)
Lemma callback_state_mismatch_rejected_witness :
  snd (run (handler Sample.two_tenants Sample.forged)) = []
  /\ fst (run (handler Sample.two_tenants Sample.forged))
     = Return (redirectWithError "Invalid authentication request (state mismatch)").
Proof.
  pose proof (callback_state_mismatch_rejected Sample.two_tenants Sample.forged
                "state=other&code_verifier=xyz") as Hthm.
  cbv zeta in Hthm.
  destruct Hthm as [Htrace Hresp]; try (reflexivity).
  split; [exact Htrace | apply Hresp; reflexivity].
Defined.

(** C1 as stated fails: code, state and a decodable cookie are there and
    the states differ, yet an [error] parameter makes the response the
    provider-error redirect. *)
Lemma callback_provider_error_precedes_state_check :
  let ev := Sample.denied_and_forged in
  let params := queryStringParameters ev in
  (truthy (field params "code") = true
   /\ truthy (field params "state") = true
   /\ truthy (xero_auth_cookie ev) = true
   /\ decoded_cookie (xero_auth_cookie ev) = Return "state=other&code_verifier=xyz"
   /\ strict_equal (field params "state")
        (lookup_member "state" (querystring_parse "state=other&code_verifier=xyz")) = false)
  /\ fst (run (handler Sample.two_tenants ev))
     = Return (redirectWithError "Authentication error: access_denied")
  /\ redirectWithError "Authentication error: access_denied"
     <> redirectWithError "Invalid authentication request (state mismatch)".
Proof.
  cbv zeta. split; [repeat split; reflexivity |].
  split; [reflexivity | discriminate].
Qed.

(** C6 as stated fails: a cookie that is present but cannot be decoded
    does not end in the session-expired redirect. *)
Lemma callback_undecodable_cookie_is_server_error :
  let ev := Sample.garbled in
  (truthy (field (queryStringParameters ev) "error") = false
   /\ truthy (field (queryStringParameters ev) "code") = true
   /\ truthy (field (queryStringParameters ev) "state") = true
   /\ xero_auth_cookie ev = VStr "%"
   /\ decoded_cookie (xero_auth_cookie ev) = Throw URI.malformed)
  /\ run (handler Sample.two_tenants ev)
     = (Return (redirectWithError "Server error: URI malformed"), [])
  /\ redirectWithError "Server error: URI malformed"
     <> redirectWithError "Authentication session expired or invalid".
Proof.
  cbv zeta. split; [repeat split; reflexivity |].
  split; [reflexivity | discriminate].
Qed.

(** The sample run passes every check and gets both answers. *)
Lemma returning_reaches_tenants :
  reaches_tenants Sample.two_tenants Sample.returning Sample.token_data
    (VArr (Sample.connections [("A", "Acme"); ("B", "Bolt")])).
Proof.
  unfold reaches_tenants. cbv zeta.
  repeat (split; [reflexivity |]).
  exists "state=abc&code_verifier=xyz", "Basic Y2xpZW50OnNlY3JldA==",
    (FetchResponse 200 Sample.token_body), (VStr "AT"), "AT",
    (FetchResponse 200 (Sample.connections_body [("A", "Acme"); ("B", "Bolt")])).
  repeat split; reflexivity.
Defined.

Lemma sample_tenants :
  Forall2 is_tenant (Sample.connections [("A", "Acme"); ("B", "Bolt")])
    [("A", "Acme"); ("B", "Bolt")].
Proof. repeat constructor. Defined.

Lemma sample_id_token : usable_id_token Sample.token_data.
Proof. exists (VStr "h.p.s"). split; [reflexivity | right; eauto]. Defined.

(** C9, on the sample run with two tenants: the first one is selected. *)
Lemma callback_selects_first_tenant_witness :
  fst (run (handler Sample.two_tenants Sample.returning))
  = Return (success_redirect
              (selected_location [("A", "Acme"); ("B", "Bolt")] Sample.bundle))
  /\ is_success (success_redirect
                   (selected_location [("A", "Acme"); ("B", "Bolt")] Sample.bundle)).
Proof.
  apply (callback_selects_first_tenant Sample.two_tenants Sample.returning
           Sample.token_data _ _ Sample.bundle
           returning_reaches_tenants sample_tenants sample_id_token).
  reflexivity.
Defined.

(** C9 as stated fails on the empty list: the redirect reports success
    with an empty tenant identifier, but the tenant name it carries is
    [Unknown Organization], which is neither empty nor null. *)
Lemma callback_no_tenant_named_unknown_organization :
  response_json connections_endpoint (FetchResponse 200 (Sample.connections_body []))
  = Return (VArr [])
  /\ fst (run (handler Sample.no_tenant Sample.returning))
     = Return (success_redirect
                 ("/?auth=success&tenantName=Unknown%20Organization&tenantId=&multipleOrgs=false"
                  +:+ "&tenants=%5B%5D&tokens=" +:+ URI.encodeURIComponent Sample.bundle))
  /\ first_or (VArr []) "tenantName" (VStr "Unknown Organization")
     = Return (VStr "Unknown Organization")
  /\ VStr "Unknown Organization" <> VStr EmptyString
  /\ VStr "Unknown Organization" <> VNull.
Proof.
  split; [reflexivity |].
  split; [reflexivity |].
  split; [reflexivity |].
  split; discriminate.
Qed.

(** The response of the sample run. *)
Lemma returning_succeeds :
  run (handler Sample.two_tenants Sample.returning)
  = (Return (success_redirect
               (selected_location [("A", "Acme"); ("B", "Bolt")] Sample.bundle)),
     snd (run (handler Sample.two_tenants Sample.returning))).
Proof. reflexivity. Defined.

Lemma sample_is_success :
  is_success (success_redirect
                (selected_location [("A", "Acme"); ("B", "Bolt")] Sample.bundle)).
Proof. eexists; split; reflexivity. Defined.

(** C10, on the sample run. *)
Lemma callback_success_sets_no_cookie_witness :
  let resp := success_redirect
                (selected_location [("A", "Acme"); ("B", "Bolt")] Sample.bundle) in
  List.map fst (resp_headers resp) = ["Location"; "Cache-Control"]
  /\ header "Set-Cookie" (resp_headers resp) = None
  /\ (exists tokenData tenantId tenantName tenantIdCookie tenantNameCookie userIdCookie,
        session_cookies tokenData tenantId tenantName
        = Return [ authenticated_cookie; tenantIdCookie; tenantNameCookie; userIdCookie
                 ; clearing_cookie ])
  /\ (forall ev' r tr,
        run (XeroConnections.handler ev') = (Return r, tr) ->
        statusCode r = 200%Z ->
        lookup_member "xero_authenticated" (cookie_parse (cookie_header ev')) = VStr "true").
Proof.
  exact (callback_success_sets_no_cookie Sample.two_tenants Sample.returning _ _
           returning_succeeds sample_is_success).
Defined.

(** C2 fails on the code.  The sample request carries the correlation
    cookie and succeeds; the handler builds the cookie that would clear it
    ([clearing_cookie], expiring at the epoch), but the response has no
    [Set-Cookie] header.  The error redirects have none either. *)
Lemma callback_success_leaves_cookie_uncleared :
  xero_auth_cookie Sample.returning = VStr "state=abc&code_verifier=xyz"
  /\ (exists resp tenantIdCookie tenantNameCookie userIdCookie,
        fst (run (handler Sample.two_tenants Sample.returning)) = Return resp
        /\ is_success resp
        /\ session_cookies Sample.token_data (VStr "A") (VStr "Acme")
           = Return [ authenticated_cookie; tenantIdCookie; tenantNameCookie; userIdCookie
                    ; clearing_cookie ]
        /\ clearing_cookie
           = "xero_auth=; Max-Age=2592000; Path=/; Expires=Thu, 01 Jan 1970 00:00:00 GMT; HttpOnly; Secure; SameSite=Lax"
        /\ header "Set-Cookie" (resp_headers resp) = None)
  /\ (exists resp,
        fst (run (handler Sample.two_tenants Sample.forged)) = Return resp
        /\ header "Set-Cookie" (resp_headers resp) = None).
Proof.
  split; [reflexivity |]. split.
  - eexists _, _, _, _.
    split; [reflexivity |].
    split; [eexists; split; reflexivity |].
    split; [reflexivity |].
    split; reflexivity.
  - eexists. split; reflexivity.
Qed.

End Samples.

Section RefreshSamples.
#[local] Existing Instance Node.numbers.
#[local] Existing Instance Node.runtime.
Import XeroRefresh.

(** C7, on four requests: a GET, a POST that is no JSON, a POST without
    body, and a POST to a deployment without credentials. *)
Lemma refresh_validation_witness :
  run (handler Sample.refusing (Sample.refresh "GET" None))
  = (Return (error_response 405 "Method not allowed"), [])
  /\ run (handler Sample.refusing (Sample.refresh "POST" (Some "oops")))
     = (Return (server_error (SyntaxError "Unexpected token o in JSON at position 0")), [])
  /\ run (handler Sample.refusing (Sample.refresh "POST" None))
     = (Return (error_response 400 "Refresh token is required"), [])
  /\ run (handler Sample.unconfigured (Sample.refresh "POST" (Some Sample.refresh_body)))
     = (Return (error_response 500 "Missing Xero credentials"), []).
Proof.
  pose proof (refresh_validation Sample.refusing (Sample.refresh "GET" None)) as H1.
  pose proof (refresh_validation Sample.refusing (Sample.refresh "POST" (Some "oops"))) as H2.
  pose proof (refresh_validation Sample.refusing (Sample.refresh "POST" None)) as H3.
  pose proof (refresh_validation Sample.unconfigured
                (Sample.refresh "POST" (Some Sample.refresh_body))) as H4.
  split; [| split; [| split]].
  - apply (proj1 H1); discriminate.
  - apply (proj1 (proj1 (proj2 H2) eq_refl)). reflexivity.
  - apply (proj1 (proj2 (proj1 (proj2 H3) eq_refl) VUndefined eq_refl)). reflexivity.
  - apply (proj2 (proj2 (proj1 (proj2 H4) eq_refl) (VStr "RT") eq_refl)); reflexivity.
Defined.

(** C7 as stated fails: a POST whose body is no JSON is answered 500. *)
Lemma refresh_unparsable_body_is_500 :
  let ev := Sample.refresh "POST" (Some "oops") in
  httpMethod ev = "POST"
  /\ JSON_parse (request_source ev)
     = Throw (SyntaxError "Unexpected token o in JSON at position 0")
  /\ (exists resp,
        fst (run (handler Sample.refusing ev)) = Return resp
        /\ statusCode resp = 500%Z /\ statusCode resp <> 400%Z).
Proof.
  cbv zeta. split; [reflexivity |]. split; [reflexivity |].
  eexists. split; [reflexivity |]. split; [reflexivity | discriminate].
Qed.

(** C8, on a refresh the provider refuses with status 400. *)
Lemma refresh_upstream_error_passthrough_witness :
  let ev := Sample.refresh "POST" (Some Sample.refresh_body) in
  let q := refresh_request "Basic Y2xpZW50OnNlY3JldA==" (VStr "RT") in
  let upstream := FetchResponse 400 Sample.refusal in
  fst (run (handler Sample.refusing ev)) = Return (passthrough upstream)
  /\ snd (run (handler Sample.refusing ev)) = [q]
  /\ statusCode (passthrough upstream) = 400%Z
  /\ resp_body (passthrough upstream)
     = Some (JSON.stringify_object [ ("error", VStr "Failed to refresh token")
                                   ; ("details", VStr Sample.refusal) ]).
Proof.
  cbv zeta.
  apply (refresh_upstream_error_passthrough Sample.refusing
           (Sample.refresh "POST" (Some Sample.refresh_body))).
  - apply surjective_pairing.
  - left. reflexivity.
  - reflexivity.
  - reflexivity.
Defined.

End RefreshSamples.

Section CallbackSamples.
#[local] Existing Instance Node.numbers.
#[local] Existing Instance Node.runtime.
Import XeroCallback.

(** C6, on requests that fail one check each: provider error, no code,
    no cookie, a cookie that does not decode, a forged state, and missing
    credentials. *)
Lemma callback_validation_order_witness :
  run (handler Sample.two_tenants Sample.denied_and_forged)
  = (Return (redirectWithError "Authentication error: access_denied"), [])
  /\ run (handler Sample.two_tenants Sample.codeless)
     = (Return (redirectWithError "No authorization code received from Xero"), [])
  /\ run (handler Sample.two_tenants Sample.cookieless)
     = (Return (redirectWithError "Authentication session expired or invalid"), [])
  /\ run (handler Sample.two_tenants Sample.garbled)
     = (Return (redirectWithError "Server error: URI malformed"), [])
  /\ run (handler Sample.two_tenants Sample.forged)
     = (Return (redirectWithError "Invalid authentication request (state mismatch)"), [])
  /\ run (handler Sample.unconfigured Sample.returning)
     = (Return (redirectWithError "Server configuration error (missing Xero credentials)"), []).
Proof.
  pose proof (callback_validation_order Sample.two_tenants Sample.denied_and_forged) as H1.
  pose proof (callback_validation_order Sample.two_tenants Sample.codeless) as H2.
  pose proof (callback_validation_order Sample.two_tenants Sample.cookieless) as H3.
  pose proof (callback_validation_order Sample.two_tenants Sample.garbled) as H4.
  pose proof (callback_validation_order Sample.two_tenants Sample.forged) as H5.
  pose proof (callback_validation_order Sample.unconfigured Sample.returning) as H6.
  cbv zeta in *.
  split; [| split; [| split; [| split; [| split]]]].
  - apply (proj1 H1). reflexivity.
  - apply (proj1 (proj2 H2 eq_refl)). reflexivity.
  - apply (proj1 (proj2 (proj2 (proj2 H3 eq_refl) eq_refl) eq_refl)). reflexivity.
  - apply (proj1 (proj2 (proj2 (proj2 (proj2 H4 eq_refl) eq_refl) eq_refl) eq_refl)
             URI.malformed).
    reflexivity.
  - apply (proj1 (proj2 (proj2 (proj2 (proj2 (proj2 H5 eq_refl) eq_refl) eq_refl) eq_refl)
                    "state=other&code_verifier=xyz" eq_refl)).
    reflexivity.
  - apply (proj2 (proj2 (proj2 (proj2 (proj2 (proj2 H6 eq_refl) eq_refl) eq_refl) eq_refl)
                    "state=abc&code_verifier=xyz" eq_refl));
      reflexivity.
Defined.

End CallbackSamples.

(* ===================================================================== *)
(** * Further properties of the handlers *)
(* ===================================================================== *)

(** ** Strings and character classes *)

Section Strings.

Lemma append_cons x (a b : string) : String x a +:+ b = String x (a +:+ b).
Proof. reflexivity. Qed.

Lemma append_empty (a : string) : EmptyString +:+ a = a.
Proof. reflexivity. Qed.

Lemma append_empty_r (a : string) : a +:+ EmptyString = a.
Proof. induction a as [| x a IH]; [reflexivity |]. now rewrite append_cons, IH. Qed.

Lemma append_assoc (a b c : string) : (a +:+ b) +:+ c = a +:+ (b +:+ c).
Proof. induction a as [| x a IH]; [reflexivity |]. rewrite !append_cons. now rewrite IH. Qed.

Lemma length_append (a b : string) :
  String.length (a +:+ b) = (String.length a + String.length b)%nat.
Proof. induction a as [| x a IH]; [reflexivity |]. rewrite append_cons. simpl. now rewrite IH. Qed.

Lemma all_chars_append p a b :
  all_chars p (a +:+ b) = all_chars p a && all_chars p b.
Proof.
  induction a as [| x a IH]; [reflexivity |].
  rewrite append_cons. cbn [all_chars]. rewrite IH. apply andb_assoc.
Qed.

Lemma all_chars_weaken (p q : ascii -> bool) s :
  (forall c, p c = true -> q c = true) -> all_chars p s = true -> all_chars q s = true.
Proof.
  intros Hpq. induction s as [| c s IH]; [reflexivity |]. cbn [all_chars].
  intros [Hc Hs]%andb_true_iff. rewrite (Hpq _ Hc), (IH Hs). reflexivity.
Qed.

Lemma nonempty_length s n : String.length s = S n -> s <> EmptyString.
Proof. now intros Hlen ->. Qed.

Lemma split_on_absent c s :
  all_chars (fun a => negb (Ascii.eqb a c)) s = true -> split_on c s = [s].
Proof.
  induction s as [| a s IH]; [reflexivity |]. cbn [all_chars split_on].
  intros [Ha Hs]%andb_true_iff. apply negb_true_iff in Ha. now rewrite Ha, IH.
Qed.

Lemma split_on_present c a b :
  all_chars (fun x => negb (Ascii.eqb x c)) a = true ->
  split_on c (a +:+ String c b) = a :: split_on c b.
Proof.
  induction a as [| x a IH].
  - intros _. change (EmptyString +:+ String c b) with (String c b).
    cbn [split_on]. now rewrite Ascii.eqb_refl.
  - cbn [all_chars]. intros [Hx Ha]%andb_true_iff. apply negb_true_iff in Hx.
    rewrite append_cons. cbn [split_on]. now rewrite Hx, IH.
Qed.

Lemma encode_append a b :
  URI.encodeURIComponent (a +:+ b) = URI.encodeURIComponent a +:+ URI.encodeURIComponent b.
Proof.
  induction a as [| x a IH]; [reflexivity |].
  rewrite append_cons. cbn [URI.encodeURIComponent]. rewrite IH.
  destruct (URI.unreserved x); [reflexivity |]. now rewrite append_assoc.
Qed.

Lemma encode_unreserved s :
  all_chars URI.unreserved s = true -> URI.encodeURIComponent s = s.
Proof.
  induction s as [| c s IH]; [reflexivity |]. cbn [all_chars URI.encodeURIComponent].
  intros [Hc Hs]%andb_true_iff. now rewrite Hc, IH.
Qed.

Lemma search_param_plain s :
  all_chars URLSearchParams.plain s = true -> URLSearchParams.encode s = s.
Proof.
  induction s as [| c s IH]; [reflexivity |]. cbn [all_chars URLSearchParams.encode].
  intros [Hc Hs]%andb_true_iff. now rewrite Hc, IH.
Qed.

Lemma lower_hex_unreserved c : lower_hex c = true -> URI.unreserved c = true.
Proof. destruct c as [[] [] [] [] [] [] [] []]; intros Hc; try discriminate Hc; reflexivity. Qed.

Lemma lower_hex_plain c : lower_hex c = true -> URLSearchParams.plain c = true.
Proof. destruct c as [[] [] [] [] [] [] [] []]; intros Hc; try discriminate Hc; reflexivity. Qed.

Lemma lower_hex_literal c : lower_hex c = true -> negb (Ascii.eqb c "%") = true.
Proof. destruct c as [[] [] [] [] [] [] [] []]; intros Hc; try discriminate Hc; reflexivity. Qed.

Lemma base64url_char_plain c : base64url_char c = true -> URLSearchParams.plain c = true.
Proof. destruct c as [[] [] [] [] [] [] [] []]; intros Hc; try discriminate Hc; reflexivity. Qed.

Lemma component_char_no_separator c :
  component_char c = true -> negb (Ascii.eqb c "&") = true.
Proof. destruct c as [[] [] [] [] [] [] [] []]; intros Hc; try discriminate Hc; reflexivity. Qed.

Lemma digit_lower_hex d : (0 <= d < 16)%Z -> lower_hex (Hex.digit false d) = true.
Proof.
  intros Hd. replace d with (Z.of_nat (Z.to_nat d)) by lia.
  assert (Z.to_nat d < 16)%nat as Hlt by lia.
  revert Hlt. generalize (Z.to_nat d). intros n Hlt.
  do 16 (destruct n as [| n]; [reflexivity |]). lia.
Qed.

Lemma of_byte_lower_hex b :
  (0 <= b < 256)%Z -> all_chars lower_hex (Hex.of_byte false b) = true.
Proof.
  intros Hb. unfold Hex.of_byte. cbn [all_chars].
  rewrite !digit_lower_hex; [reflexivity | |].
  - change 15%Z with (Z.ones 4). rewrite Z.land_ones by lia.
    apply Z.mod_pos_bound. reflexivity.
  - rewrite Z.shiftr_div_pow2 by lia. change (2 ^ 4)%Z with 16%Z.
    split; [apply Z.div_pos; lia | apply Z.div_lt_upper_bound; lia].
Qed.

(** [n] bytes are written as [2 n] lower-case hexadecimal digits. *)
Lemma hex_encode_shape l :
  Forall (fun b => 0 <= b < 256)%Z l ->
  String.length (Hex.encode l) = (2 * length l)%nat
  /\ all_chars lower_hex (Hex.encode l) = true.
Proof.
  unfold Hex.encode. induction 1 as [| b l Hb _ [IHlen IHhex]]; [split; reflexivity |].
  cbn [List.map concat_strings length]. rewrite length_append, all_chars_append, IHlen, IHhex.
  rewrite (of_byte_lower_hex _ Hb). split; [| reflexivity]. simpl. lia.
Qed.

End Strings.

Section Fields.
Context `{Runtime}.

Lemma field_truthy m k :
  truthy (field m k) = true -> exists s, m !! k = Some s /\ field m k = VStr s.
Proof.
  unfold field. destruct (m !! k) as [s |]; [eauto | discriminate].
Qed.

Lemma field_string m k s : m !! k = Some s -> field m k = VStr s.
Proof. unfold field. now intros ->. Qed.

Lemma truthy_string s : s <> EmptyString -> truthy (VStr s) = true.
Proof. intros Hs%String.eqb_neq. simpl. now rewrite Hs. Qed.

Lemma string_or_present (m : gmap string string) k s d :
  m !! k = Some s -> s <> EmptyString -> string_or m k d = s.
Proof. intros Hk Hs%String.eqb_neq. unfold string_or. now rewrite Hk, Hs. Qed.

Lemma randomBytes_bytes w from n :
  Forall (fun b => 0 <= b < 256)%Z (randomBytes w from n).
Proof.
  unfold randomBytes. generalize (seq from n). intros l.
  induction l as [| i l IH]; constructor; [| exact IH].
  apply Z.mod_pos_bound. reflexivity.
Qed.

Lemma randomBytes_length w from n : length (randomBytes w from n) = n.
Proof. unfold randomBytes. now rewrite length_map, length_seq. Qed.

End Fields.

(** ** The callback handler: its requests *)

Section CallbackRequests.
Context `{Runtime}.
Import XeroCallback.

Ltac checks_passed :=
  repeat match goal with
         | E : negb _ = false |- _ => apply negb_false_iff in E
         | E : _ || _ = false |- _ => apply orb_false_iff in E as [? ?]
         end;
  repeat match goal with
         | E : truthy (field (env _) _) = true |- _ =>
             apply field_truthy in E as (? & ? & ?)
         end;
  repeat match goal with
         | E : field (env _) _ = VStr _, E' : context [basic_auth] |- _ =>
             rewrite E in E'
         end;
  repeat match goal with
         | E : basic_auth (VStr _) (VStr _) = Return _ |- _ =>
             cbn [basic_auth ToString mbind outcome_bind] in E
         | E : basic_auth (VStr _) (VStr _) = Throw _ |- _ =>
             cbn [basic_auth ToString mbind outcome_bind] in E
         end;
  simplify_eq.

(** The requests of a run: none, or the token request alone, or the token
    request followed by the connections request. *)
Lemma callback_trace_cases w ev o trace :
  run (handler w ev) = (o, trace) ->
  trace = []
  \/ exists id secret decoded,
       let params := queryStringParameters ev in
       let q1 := token_request (client_authorization id secret)
                   (field params "code") (callback_uri w)
                   (lookup_member "code_verifier" (querystring_parse decoded)) in
       truthy (field params "error") = false
       /\ truthy (field params "code") = true
       /\ decoded_cookie (xero_auth_cookie ev) = Return decoded
       /\ strict_equal (field params "state")
            (lookup_member "state" (querystring_parse decoded)) = true
       /\ env w !! "XERO_CLIENT_ID" = Some id
       /\ env w !! "XERO_CLIENT_SECRET" = Some secret
       /\ (trace = [q1]
           \/ exists tokenResponse tokenData access_token bearer,
                network w q1 = Return tokenResponse
                /\ ok tokenResponse = true
                /\ response_json token_endpoint tokenResponse = Return tokenData
                /\ get tokenData "access_token" = Return access_token
                /\ ToString access_token = Return bearer
                /\ trace = [q1; connections_request bearer]).
Proof.
  unfold run, handler. intros Hrun. cbv zeta in Hrun. cbv zeta.
  unfold callback_uri, decoded_cookie, xero_auth_cookie, client_authorization.
  apply try_catch_cases in Hrun as [(a & Hm & Ha) | (e & tr1 & Hm & Hh)].
  - rewrite !ToString_field_or in Hm.
    steps; auto; checks_passed.
    all: right; eexists _, _, _.
    all: repeat (split; [first [eassumption | reflexivity
                               | match goal with E : _ = Return _ |- _ => rewrite E end;
                                 simpl; eassumption] |]).
    all: first [ left; reflexivity
               | right; eexists _, _, _, _; repeat (split; [eassumption |]); reflexivity ].
  - apply ret_cases in Hh as [_ ->].
    rewrite !ToString_field_or in Hm.
    steps; auto; checks_passed.
    all: right; eexists _, _, _.
    all: repeat (split; [first [eassumption | reflexivity
                               | match goal with E : _ = Return _ |- _ => rewrite E end;
                                 simpl; eassumption] |]).
    all: first [ left; reflexivity
               | right; eexists _, _, _, _; repeat (split; [eassumption |]); reflexivity ].
Qed.

(** X1.  A run of the callback handler issues at most two requests, in
    this order: first a POST to the token endpoint; then, only once that
    request was answered 2xx with JSON text, the request for the
    connections, bearing the [access_token] of that answer. *)
Theorem callback_requests_in_order w ev :
  let trace := snd (run (handler w ev)) in
  trace = []
  \/ exists q1,
       req_url q1 = token_endpoint /\ req_method q1 = "POST"
       /\ (trace = [q1]
           \/ exists tokenResponse tokenData access_token bearer,
                network w q1 = Return tokenResponse
                /\ ok tokenResponse = true
                /\ response_json token_endpoint tokenResponse = Return tokenData
                /\ get tokenData "access_token" = Return access_token
                /\ ToString access_token = Return bearer
                /\ trace = [q1; connections_request bearer]).
Proof.
  cbv zeta. destruct (run (handler w ev)) as [o trace] eqn:Hrun. simpl.
  apply callback_trace_cases in Hrun
    as [-> | (id & secret & decoded & _ & _ & _ & _ & _ & _ & Htrace)]; [auto |].
  right. eexists (token_request _ _ _ _).
  split; [reflexivity |]. split; [reflexivity |]. exact Htrace.
Qed.

(** X2.  A request to the token endpoint is sent only by a run without
    provider error whose correlation cookie decodes and holds the state of
    the query, and with both client credentials configured; the request
    authenticates with these credentials (Basic) and carries the code of
    the query, the callback URI and the [code_verifier] read from the
    cookie. *)
Theorem callback_token_request_content w ev q :
  let params := queryStringParameters ev in
  In q (snd (run (handler w ev))) ->
  req_url q = token_endpoint ->
  exists id secret decoded,
    env w !! "XERO_CLIENT_ID" = Some id
    /\ env w !! "XERO_CLIENT_SECRET" = Some secret
    /\ truthy (field params "error") = false
    /\ decoded_cookie (xero_auth_cookie ev) = Return decoded
    /\ strict_equal (field params "state")
         (lookup_member "state" (querystring_parse decoded)) = true
    /\ q = token_request (client_authorization id secret)
             (field params "code") (callback_uri w)
             (lookup_member "code_verifier" (querystring_parse decoded)).
Proof.
  cbv zeta. destruct (run (handler w ev)) as [o trace] eqn:Hrun. simpl.
  intros Hq Hurl.
  apply callback_trace_cases in Hrun
    as [-> | (id & secret & decoded & Herror & _ & Hdecoded & Hstate & Hid & Hsecret & Htrace)];
    [destruct Hq |].
  cbv zeta in Htrace.
  exists id, secret, decoded. repeat (split; [assumption |]).
  destruct Htrace as [-> | (r & d & a & b & _ & _ & _ & _ & _ & ->)].
  - destruct Hq as [<- | []]. reflexivity.
  - destruct Hq as [<- | [<- | []]]; [reflexivity | discriminate Hurl].
Qed.

(** X3.  When the token endpoint answers the exchange with a status that
    is not 2xx, the handler redirects with the message
    [Failed to exchange code for tokens (<status>)] and makes no further
    request: the connections are not asked for. *)
Theorem callback_token_exchange_refused w ev o trace q tokenResponse :
  run (handler w ev) = (o, trace) ->
  In q trace ->
  req_url q = token_endpoint ->
  network w q = Return tokenResponse ->
  ok tokenResponse = false ->
  o = Return (redirectWithError ("Failed to exchange code for tokens ("
                                 +:+ Z_to_string (status tokenResponse) +:+ ")"))
  /\ trace = [q].
Proof.
  intros Hrun Hq Hurl Hnet Hok. revert Hurl.
  unfold run, handler in Hrun. cbv zeta in Hrun.
  apply try_catch_cases in Hrun as [(a & Hm & Ha) | (e & tr1 & Hm & Hh)].
  - steps; try solve [destruct Hq].
    all: intros Hurl; repeat (destruct Hq as [<- | Hq]; [try discriminate Hurl |]);
      try solve [destruct Hq].
    all: rewrite Hnet in *; simplify_eq; try (rewrite Hok in *; discriminate); auto.
  - apply ret_cases in Hh as [-> ->].
    steps; try solve [destruct Hq].
    all: intros Hurl; repeat (destruct Hq as [<- | Hq]; [try discriminate Hurl |]);
      try solve [destruct Hq].
    all: rewrite Hnet in *; simplify_eq; try (rewrite Hok in *; discriminate); auto.
Qed.

(** X4.  When the connections endpoint answers with a status that is not
    2xx, the handler redirects with the message
    [Connected to Xero, but failed to get user details]; the trace is the
    token request followed by that request, and the tokens obtained are
    dropped. *)
Theorem callback_connections_refused w ev o trace q userInfoResponse :
  run (handler w ev) = (o, trace) ->
  In q trace ->
  req_url q = connections_endpoint ->
  network w q = Return userInfoResponse ->
  ok userInfoResponse = false ->
  o = Return (redirectWithError "Connected to Xero, but failed to get user details")
  /\ exists q1, req_url q1 = token_endpoint /\ trace = [q1; q].
Proof.
  intros Hrun Hq Hurl Hnet Hok. revert Hurl.
  unfold run, handler in Hrun. cbv zeta in Hrun.
  apply try_catch_cases in Hrun as [(a & Hm & Ha) | (e & tr1 & Hm & Hh)].
  - steps; try solve [destruct Hq].
    all: intros Hurl; repeat (destruct Hq as [<- | Hq]; [try discriminate Hurl |]);
      try solve [destruct Hq].
    all: rewrite Hnet in *; simplify_eq; try (rewrite Hok in *; discriminate).
    all: split; [reflexivity | eexists; split; [| reflexivity]; reflexivity].
  - apply ret_cases in Hh as [-> ->].
    steps; try solve [destruct Hq].
    all: intros Hurl; repeat (destruct Hq as [<- | Hq]; [try discriminate Hurl |]);
      try solve [destruct Hq].
    all: rewrite Hnet in *; simplify_eq; try (rewrite Hok in *; discriminate).
Qed.

(** X5.  When a request fails on the network ([fetch] rejects with an
    error), the handler still answers: with the catch-all redirect whose
    message is [Server error: ] followed by the message of that error;
    the failed request is the last one it made. *)
Theorem callback_network_failure w ev o trace q e :
  run (handler w ev) = (o, trace) ->
  In q trace ->
  network w q = Throw e ->
  o = Return (redirectWithError ("Server error: " +:+ error_message e))
  /\ exists before, trace = before ++ [q].
Proof.
  intros Hrun Hq Hnet.
  unfold run, handler in Hrun. cbv zeta in Hrun.
  apply try_catch_cases in Hrun as [(a & Hm & Ha) | (e' & tr1 & Hm & Hh)].
  - steps; try solve [destruct Hq].
    all: repeat (destruct Hq as [<- | Hq]; [rewrite Hnet in *; simplify_eq |]);
      try solve [destruct Hq].
  - apply ret_cases in Hh as [-> ->].
    steps; try solve [destruct Hq].
    all: repeat (destruct Hq as [<- | Hq]; [rewrite Hnet in *; simplify_eq |]);
      try solve [destruct Hq].
    all: split; [reflexivity | eexists; reflexivity].
Qed.

(** Once every check passes, the token request is the first request. *)
Lemma callback_sends_token_request w ev id secret decoded :
  let params := queryStringParameters ev in
  truthy (field params "error") = false ->
  truthy (field params "code") = true ->
  truthy (field params "state") = true ->
  truthy (xero_auth_cookie ev) = true ->
  decoded_cookie (xero_auth_cookie ev) = Return decoded ->
  strict_equal (field params "state") (lookup_member "state" (querystring_parse decoded)) = true ->
  env w !! "XERO_CLIENT_ID" = Some id -> id <> EmptyString ->
  env w !! "XERO_CLIENT_SECRET" = Some secret -> secret <> EmptyString ->
  exists rest,
    snd (run (handler w ev))
    = token_request (client_authorization id secret) (field params "code") (callback_uri w)
        (lookup_member "code_verifier" (querystring_parse decoded)) :: rest.
Proof.
  cbv zeta. intros Herror Hcode Hstate Hcookie Hdecoded Heq Hid Hid' Hsecret Hsecret'.
  unfold xero_auth_cookie, decoded_cookie, callback_uri, client_authorization in *.
  apply outcome_bind_returns in Hdecoded as (raw & Hraw & Hdecoded).
  callback_run. forward.
  rewrite (field_string _ _ _ Hid), (field_string _ _ _ Hsecret).
  rewrite (truthy_string _ Hid'), (truthy_string _ Hsecret').
  cbn [negb orb basic_auth ToString mbind outcome_bind]. forward.
  match goal with |- context [fetch w ?q] => destruct (network w q) as [r | e] eqn:Hnet end.
  - erewrite fetch_bind by eassumption.
    destruct (ok r); forward; [| eexists; reflexivity].
    destruct (response_json token_endpoint r) as [tokenData | e]; forward;
      [| eexists; reflexivity].
    destruct (get tokenData "access_token") as [access_token | e]; forward;
      [| eexists; reflexivity].
    destruct (ToString access_token) as [bearer | e]; forward; [| eexists; reflexivity].
    match goal with |- context [fetch w ?q] => destruct (network w q) as [r2 | e] eqn:Hnet2 end.
    + erewrite fetch_bind by eassumption.
      destruct (ok r2); forward; [| eexists; reflexivity].
      destruct (response_json connections_endpoint r2) as [connections | e]; forward;
        [| eexists; reflexivity].
      destruct (tenant_redirect w tokenData connections); eexists; reflexivity.
    + erewrite fetch_throw_bind by eassumption. eexists; reflexivity.
  - erewrite fetch_throw_bind by eassumption. eexists; reflexivity.
Qed.

End CallbackRequests.

(** ** The authorization handler *)

Section Authorization.
Context `{Runtime}.

Lemma correlation_value_encoded state verifier :
  all_chars lower_hex state = true -> all_chars lower_hex verifier = true ->
  URI.encodeURIComponent ("state=" +:+ state +:+ "&code_verifier=" +:+ verifier)
  = "state%3D" +:+ state +:+ "%26code_verifier%3D" +:+ verifier.
Proof.
  intros Hs Hv.
  rewrite !encode_append.
  rewrite (encode_unreserved state), (encode_unreserved verifier)
    by eauto using all_chars_weaken, lower_hex_unreserved.
  reflexivity.
Qed.

(** The response of the authorization handler once the client identifier
    is configured. *)
Lemma auth_handler_run w clientId :
  env w !! "XERO_CLIENT_ID" = Some clientId ->
  clientId <> EmptyString ->
  run (XeroAuth.handler w)
  = (Return (authorization_redirect w clientId (Hex.encode (randomBytes w 0 16))
               (Hex.encode (randomBytes w 16 32))), []).
Proof.
  intros Hid Hne.
  destruct (hex_encode_shape _ (randomBytes_bytes w 0 16)) as [_ Hhex1].
  destruct (hex_encode_shape _ (randomBytes_bytes w 16 32)) as [_ Hhex2].
  unfold run, XeroAuth.handler, XeroAuth.redirectUri, authorization_redirect,
    correlation_cookie, callback_uri.
  cbv zeta.
  rewrite (correlation_value_encoded _ _ Hhex1 Hhex2).
  set (state := Hex.encode (randomBytes w 0 16)).
  set (verifier := Hex.encode (randomBytes w 16 32)).
  set (challenge := XeroAuth.codeChallenge verifier).
  clearbody state verifier challenge.
  rewrite ToString_field_or.
  unfold field. rewrite Hid.
  apply String.eqb_neq in Hne.
  unfold try_catch. cbn [truthy ToString]. rewrite Hne.
  cbn [negb]. cbv beta. cbn [mbind outcome_bind mret].
  rewrite !lift_bind.
  unfold mret, M_ret. f_equal. f_equal. f_equal. f_equal. f_equal.
  rewrite !append_assoc. reflexivity.
Qed.

(** X6.  Without [XERO_CLIENT_ID] (absent or empty) the authorization
    handler answers 500 with the JSON body
    [{ error: 'Server error', message: 'Missing XERO_CLIENT_ID environment
    variable' }]; its only header is [Content-Type], so no cookie is set,
    and it makes no request. *)
Theorem auth_missing_client_id w :
  truthy (field (env w) "XERO_CLIENT_ID") = false ->
  exists resp,
    run (XeroAuth.handler w) = (Return resp, [])
    /\ statusCode resp = 500%Z
    /\ resp_headers resp = [("Content-Type", "application/json")]
    /\ resp_body resp
       = Some (JSON.stringify_object
                 [ ("error", VStr "Server error")
                 ; ("message", VStr "Missing XERO_CLIENT_ID environment variable") ]).
Proof.
  intros Hid. eexists. split.
  - unfold run, XeroAuth.handler, try_catch. cbv zeta. rewrite Hid. reflexivity.
  - repeat split.
Qed.

(** X7.  With a client identifier configured, the authorization handler
    answers 302 without making a request; the state is 32 and the verifier
    64 lower-case hexadecimal digits; the [state] of the authorization URL
    is the state stored in the [xero_auth] cookie, the [code_challenge] of
    the URL is the challenge of the verifier stored in that cookie, and
    the cookie expires 15 minutes after the present time. *)
Theorem auth_redirect_binds_cookie_and_url w clientId :
  env w !! "XERO_CLIENT_ID" = Some clientId ->
  clientId <> EmptyString ->
  exists state verifier,
    String.length state = 32%nat /\ all_chars lower_hex state = true
    /\ String.length verifier = 64%nat /\ all_chars lower_hex verifier = true
    /\ run (XeroAuth.handler w)
       = (Return (authorization_redirect w clientId state verifier), []).
Proof.
  intros Hid Hne.
  destruct (hex_encode_shape _ (randomBytes_bytes w 0 16)) as [Hlen1 Hhex1].
  destruct (hex_encode_shape _ (randomBytes_bytes w 16 32)) as [Hlen2 Hhex2].
  rewrite randomBytes_length in Hlen1, Hlen2.
  exists (Hex.encode (randomBytes w 0 16)), (Hex.encode (randomBytes w 16 32)).
  repeat (split; [assumption |]).
  apply auth_handler_run; assumption.
Qed.

End Authorization.

(** ** The shape of the challenge *)

Section Challenge.

Lemma be_bytes_length n x : length (Sha256.be_bytes n x) = n.
Proof. induction n as [| n IH]; [reflexivity |]. simpl. now rewrite IH. Qed.

Lemma compress_length h block :
  length h = 8%nat -> length (Sha256.compress h block) = 8%nat.
Proof.
  intros Hh. unfold Sha256.compress. cbv zeta.
  rewrite length_map, length_combine, Hh. reflexivity.
Qed.

Lemma fold_compress_length bs h :
  length h = 8%nat -> length (fold_left Sha256.compress bs h) = 8%nat.
Proof.
  revert h. induction bs as [| b bs IH]; intros h Hh; [exact Hh |].
  simpl. apply IH, compress_length, Hh.
Qed.

Lemma concat_be_bytes_length h :
  length (List.concat (List.map (Sha256.be_bytes 4) h)) = (4 * length h)%nat.
Proof.
  induction h as [| x h IH]; [reflexivity |].
  cbn [List.map List.concat]. rewrite length_app, be_bytes_length, IH. simpl. lia.
Qed.

(** The digest has 32 bytes, whatever the message. *)
Lemma digest_length msg : length (Sha256.digest msg) = 32%nat.
Proof.
  unfold Sha256.digest. cbv zeta.
  rewrite concat_be_bytes_length, fold_compress_length; reflexivity.
Qed.

Lemma alphabet_url_char i : base64url_char (url_safe (Base64.char i)) = true.
Proof.
  unfold Base64.char.
  assert (Z.to_nat (i mod 64) < 64)%nat as Hlt
    by (pose proof (Z.mod_pos_bound i 64 eq_refl); lia).
  revert Hlt. generalize (Z.to_nat (i mod 64)) as n. intros n Hlt.
  do 64 (destruct n as [| n]; [reflexivity |]). lia.
Qed.

(** Base64 made URL-safe and without its padding: its length and its
    characters. *)
Lemma nopad_shape (l : list Z) :
  let s := replace_all "=" EmptyString (map_chars url_safe (Base64.encode l)) in
  String.length s = ((4 * length l + 2) / 3)%nat
  /\ all_chars base64url_char s = true.
Proof.
  cbv zeta. revert l. fix IH 1. intros [| a [| b [| c l]]].
  - split; reflexivity.
  - cbn [Base64.encode map_chars].
    rewrite !drop_cons by apply alphabet_no_padding.
    cbn [all_chars]. rewrite !alphabet_url_char. split; reflexivity.
  - cbn [Base64.encode map_chars].
    rewrite !drop_cons by apply alphabet_no_padding.
    cbn [all_chars]. rewrite !alphabet_url_char. split; reflexivity.
  - cbn [Base64.encode map_chars].
    rewrite !drop_cons by apply alphabet_no_padding.
    cbn [all_chars String.length length]. rewrite !alphabet_url_char.
    destruct (IH l) as [-> ->]. split; [| reflexivity].
    replace (4 * S (S (S (length l))) + 2)%nat with (4 * length l + 2 + 4 * 3)%nat by lia.
    rewrite Nat.div_add by lia. lia.
Qed.

Lemma codeChallenge_length codeVerifier :
  String.length (XeroAuth.codeChallenge codeVerifier) = 43%nat.
Proof.
  unfold XeroAuth.codeChallenge. rewrite url_safe_replace.
  destruct (nopad_shape (Sha256.digest (bytes_of_string codeVerifier))) as [Hlen _].
  now rewrite digest_length in Hlen.
Qed.

Lemma codeChallenge_chars codeVerifier :
  all_chars base64url_char (XeroAuth.codeChallenge codeVerifier) = true.
Proof.
  unfold XeroAuth.codeChallenge. rewrite url_safe_replace.
  apply (nopad_shape (Sha256.digest (bytes_of_string codeVerifier))).
Qed.

(** X8.  Whatever the verifier, its challenge is 43 characters of the
    base64url alphabet (letters, digits, [-] and [_]: no [+], [/] or [=]),
    so the URL serialisation leaves it as it is. *)
Theorem codeChallenge_shape codeVerifier :
  let challenge := XeroAuth.codeChallenge codeVerifier in
  String.length challenge = 43%nat
  /\ all_chars base64url_char challenge = true
  /\ URLSearchParams.encode challenge = challenge.
Proof.
  cbv zeta.
  split; [apply codeChallenge_length |]. split; [apply codeChallenge_chars |].
  apply search_param_plain.
  eauto using all_chars_weaken, base64url_char_plain, codeChallenge_chars.
Qed.

End Challenge.

Section AuthorizationUrl.
Context `{Runtime}.

(** X9.  The text of the authorization URL: the authorize endpoint with
    seven parameters in this order, [client_id], [response_type=code],
    [redirect_uri], the six scopes joined by [+], [state],
    [code_challenge] and [code_challenge_method=S256]; the state (32
    characters) and the challenge (43 characters) appear verbatim. *)
Theorem authorization_url_text w clientId :
  env w !! "XERO_CLIENT_ID" = Some clientId ->
  clientId <> EmptyString ->
  exists resp state challenge,
    fst (run (XeroAuth.handler w)) = Return resp
    /\ String.length state = 32%nat
    /\ String.length challenge = 43%nat
    /\ header "Location" (resp_headers resp)
       = Some (concat_strings
                 [ "https://login.xero.com/identity/connect/authorize?client_id="
                 ; URLSearchParams.encode clientId
                 ; "&response_type=code&redirect_uri="
                 ; URLSearchParams.encode (callback_uri w)
                 ; "&scope=openid+profile+email+offline_access"
                 ; "+accounting.transactions.read+accounting.settings.read&state="
                 ; state
                 ; "&code_challenge="
                 ; challenge
                 ; "&code_challenge_method=S256" ]).
Proof.
  intros Hid Hne.
  destruct (hex_encode_shape _ (randomBytes_bytes w 0 16)) as [Hlen Hhex].
  rewrite randomBytes_length in Hlen.
  rewrite (auth_handler_run _ _ Hid Hne).
  eexists _, (Hex.encode (randomBytes w 0 16)),
    (XeroAuth.codeChallenge (Hex.encode (randomBytes w 16 32))).
  split; [reflexivity |]. split; [exact Hlen |].
  split; [apply codeChallenge_length |].
  cbn [authorization_redirect resp_headers header String.eqb Ascii.eqb Bool.eqb].
  unfold URLSearchParams.href, XeroAuth.searchParams, URLSearchParams.serialize.
  cbn [List.map join fst snd concat_strings].
  rewrite (search_param_plain (XeroAuth.codeChallenge _))
    by eauto using all_chars_weaken, base64url_char_plain, codeChallenge_chars.
  rewrite (search_param_plain (Hex.encode _))
    by eauto using all_chars_weaken, lower_hex_plain.
  generalize (URLSearchParams.encode clientId) (URLSearchParams.encode (callback_uri w))
    (Hex.encode (randomBytes w 0 16))
    (XeroAuth.codeChallenge (Hex.encode (randomBytes w 16 32))).
  intros id uri state challenge.
  change (URLSearchParams.encode "client_id") with "client_id".
  change (URLSearchParams.encode "response_type") with "response_type".
  change (URLSearchParams.encode "code") with "code".
  change (URLSearchParams.encode "redirect_uri") with "redirect_uri".
  change (URLSearchParams.encode "scope") with "scope".
  change (URLSearchParams.encode XeroAuth.scope)
    with ("openid+profile+email+offline_access"
          +:+ "+accounting.transactions.read+accounting.settings.read").
  change (URLSearchParams.encode "state") with "state".
  change (URLSearchParams.encode "code_challenge") with "code_challenge".
  change (URLSearchParams.encode "code_challenge_method") with "code_challenge_method".
  change (URLSearchParams.encode "S256") with "S256".
  rewrite ?append_assoc. reflexivity.
Qed.

End AuthorizationUrl.

(** ** The refresh handler: success and failures *)

Section RefreshOutcomes.
Context `{Runtime}.
Import XeroRefresh.

(** X10.  A POST with a refresh token, to a deployment with both
    credentials, that the token endpoint answers 2xx with JSON text: the
    handler made that one request (Basic credentials, the refresh token in
    the form body) and answers 200 with [Content-Type: application/json]
    and the body [{ access_token, refresh_token, expires_at }], the tokens
    being those of the provider's answer and [expires_at] the present time
    plus [expires_in] times 1000. *)
Theorem refresh_returns_fresh_tokens w ev t id secret tokenResponse tokenData
    access_token refresh_token expires_in seconds :
  httpMethod ev = "POST" ->
  refresh_token_of ev = Return t ->
  truthy t = true ->
  env w !! "XERO_CLIENT_ID" = Some id -> id <> EmptyString ->
  env w !! "XERO_CLIENT_SECRET" = Some secret -> secret <> EmptyString ->
  network w (refresh_request (client_authorization id secret) t) = Return tokenResponse ->
  ok tokenResponse = true ->
  JSON_parse (text tokenResponse) = Return tokenData ->
  get tokenData "access_token" = Return access_token ->
  get tokenData "refresh_token" = Return refresh_token ->
  get tokenData "expires_in" = Return expires_in ->
  ToNumber expires_in = Return seconds ->
  run (handler w ev)
  = (Return (refreshed (JSON.stringify_object
                          [ ("access_token", access_token)
                          ; ("refresh_token", refresh_token)
                          ; ("expires_at",
                             VNum (num_add (clock w) (num_mul seconds (num_of_Z 1000)))) ])),
     [refresh_request (client_authorization id secret) t]).
Proof.
  intros Hpost Ht Htruthy Hid Hid' Hsecret Hsecret' Hnet Hok Hjson Ha Hr He Hs.
  unfold refresh_token_of in Ht.
  apply outcome_bind_returns in Ht as (requestData & Hparse & Ht).
  unfold client_authorization in *.
  unfold run, handler; cbv zeta; unfold try_catch.
  rewrite Hpost. cbn [String.eqb Ascii.eqb Bool.eqb negb].
  rewrite ToString_request_source. forward.
  rewrite (field_string _ _ _ Hid), (field_string _ _ _ Hsecret).
  rewrite (truthy_string _ Hid'), (truthy_string _ Hsecret').
  cbn [negb orb XeroCallback.basic_auth ToString mbind outcome_bind]. forward.
  erewrite fetch_bind by eassumption. forward.
  unfold response_json. rewrite Hjson. forward.
  unfold fresh_tokens. rewrite He. cbn [mbind outcome_bind].
  rewrite Hs. cbn [mbind outcome_bind]. rewrite Ha, Hr. reflexivity.
Qed.

(** X11.  The refresh handler always answers (nothing it throws escapes),
    every answer starts with the three CORS headers, and it makes at most
    one request.  An OPTIONS request is answered 204 without body and
    without any request, whatever the body and the configuration. *)
Theorem refresh_always_answers w ev :
  exists resp trace,
    run (handler w ev) = (Return resp, trace)
    /\ firstn 3 (resp_headers resp) = corsHeaders
    /\ (length trace <= 1)%nat
    /\ (httpMethod ev = "OPTIONS" ->
        resp = {| statusCode := 204; resp_headers := corsHeaders; resp_body := None |}
        /\ trace = []).
Proof.
  destruct (run (handler w ev)) as [o trace] eqn:Hrun.
  unfold run, handler in Hrun. cbv zeta in Hrun.
  destruct (String.eqb (httpMethod ev) "OPTIONS") eqn:Hoptions.
  - step. simplify_eq. eexists _, _. split; [reflexivity |]. repeat split. simpl. lia.
  - apply String.eqb_neq in Hoptions.
    apply try_catch_cases in Hrun as [(a & Hm & Ha) | (e & tr1 & Hm & Hh)].
    + steps; eexists _, _; (split; [reflexivity |]); repeat split;
        simpl; try lia; intros; contradiction.
    + apply ret_cases in Hh as [-> ->].
      steps; eexists _, _; (split; [reflexivity |]); repeat split;
        simpl; try lia; intros; contradiction.
Qed.

(** X12.  When the request to the token endpoint fails on the network,
    the refresh handler answers 500 with
    [{ error: 'Server error', message }], the message being that of the
    error; it made that one request. *)
Theorem refresh_network_failure w ev o trace q e :
  run (handler w ev) = (o, trace) ->
  In q trace ->
  network w q = Throw e ->
  o = Return (server_error e) /\ trace = [q].
Proof.
  intros Hrun Hq Hnet.
  unfold run, handler in Hrun. cbv zeta in Hrun.
  destruct (String.eqb (httpMethod ev) "OPTIONS"); [step; simplify_eq; destruct Hq |].
  apply try_catch_cases in Hrun as [(a & Hm & Ha) | (e' & tr1 & Hm & Hh)].
  - steps; try solve [destruct Hq]; destruct Hq as [<- | []];
      rewrite Hnet in *; simplify_eq.
  - apply ret_cases in Hh as [-> ->].
    steps; try solve [destruct Hq]; destruct Hq as [<- | []];
      rewrite Hnet in *; simplify_eq; auto.
Qed.

(** X13.  When the token endpoint answers 2xx with a text that is no
    JSON, the refresh handler answers 500 (not 200, and not the upstream
    status): the error is the one [response.json()] throws,
    [invalid json response body at <url> reason: <parser message>]. *)
Theorem refresh_unreadable_token_response w ev o trace q tokenResponse e :
  run (handler w ev) = (o, trace) ->
  In q trace ->
  network w q = Return tokenResponse ->
  ok tokenResponse = true ->
  JSON_parse (text tokenResponse) = Throw e ->
  o = Return (server_error
                (FetchError ("invalid json response body at " +:+ token_endpoint
                             +:+ " reason: " +:+ error_message e)))
  /\ trace = [q].
Proof.
  intros Hrun Hq Hnet Hok Hjson.
  unfold run, handler in Hrun. cbv zeta in Hrun.
  destruct (String.eqb (httpMethod ev) "OPTIONS"); [step; simplify_eq; destruct Hq |].
  unfold response_json in Hrun.
  apply try_catch_cases in Hrun as [(a & Hm & Ha) | (e' & tr1 & Hm & Hh)].
  - steps; try solve [destruct Hq]; destruct Hq as [<- | []];
      rewrite Hnet in *; simplify_eq; try (rewrite Hok in *; discriminate);
      rewrite Hjson in *; simplify_eq.
  - apply ret_cases in Hh as [-> ->].
    steps; try solve [destruct Hq]; destruct Hq as [<- | []];
      rewrite Hnet in *; simplify_eq; try (rewrite Hok in *; discriminate);
      rewrite Hjson in *; simplify_eq; auto.
Qed.

End RefreshOutcomes.

(** ** The connections handler *)

Section Connections.
Context `{Runtime}.
Import XeroConnections.

Lemma connections_run ev :
  httpMethod ev <> "OPTIONS" ->
  let cookies := cookie_parse (cookie_header ev) in
  let tenantId := lookup_member "xero_tenant_id" cookies in
  let tenantName := lookup_member "xero_tenant_name" cookies in
  run (handler ev)
  = (Return
       (if negb (strict_equal (lookup_member "xero_authenticated" cookies) (VStr "true"))
        then connections_error 401 "Unauthorized" "Please connect to Xero first"
        else if negb (truthy tenantId)
        then connections_error 404 "Not Found"
               "No Xero organization found. Please reconnect to Xero."
        else tenant_response tenantId (js_or tenantName (VStr "Xero Organization"))),
     []).
Proof.
  intros Hoptions%String.eqb_neq. cbv zeta.
  unfold run, handler, cookie_header, try_catch. rewrite Hoptions. cbv zeta.
  rewrite ToString_field_or, lift_bind.
  destruct (strict_equal _ _); [| reflexivity]. cbn [negb].
  destruct (truthy _); reflexivity.
Qed.

(** X14.  The connections handler always answers, with status 204, 401,
    404 or 200 and never with the 500 of its [catch]; it makes no request,
    and every answer starts with the three CORS headers. *)
Theorem connections_never_fails ev :
  exists resp,
    run (handler ev) = (Return resp, [])
    /\ In (statusCode resp) [204; 401; 404; 200]%Z
    /\ firstn 3 (resp_headers resp) = corsHeaders.
Proof.
  destruct (String.eqb (httpMethod ev) "OPTIONS") eqn:Hoptions.
  - eexists. split; [unfold run, handler; rewrite Hoptions; reflexivity |].
    simpl. auto.
  - apply String.eqb_neq in Hoptions.
    eexists. split; [apply (connections_run _ Hoptions) |].
    destruct (strict_equal _ _); [| simpl; auto].
    destruct (truthy _); simpl; auto 6.
Qed.

(** X15.  For a request (of any method but OPTIONS) whose cookies hold
    [xero_authenticated=true]: without a [xero_tenant_id] cookie (or with
    an empty one) the answer is 404; otherwise it is 200 with the one
    tenant the cookies name, [[{ tenantId, tenantName }]], the name being
    [Xero Organization] when the [xero_tenant_name] cookie is absent or
    empty.  No provider is asked. *)
Theorem connections_reads_tenant_from_cookies ev :
  let cookies := cookie_parse (cookie_header ev) in
  let tenantId := lookup_member "xero_tenant_id" cookies in
  let tenantName := lookup_member "xero_tenant_name" cookies in
  httpMethod ev <> "OPTIONS" ->
  lookup_member "xero_authenticated" cookies = VStr "true" ->
  (truthy tenantId = false ->
     run (handler ev)
     = (Return (connections_error 404 "Not Found"
                  "No Xero organization found. Please reconnect to Xero."), []))
  /\ (truthy tenantId = true ->
      (truthy tenantName = true ->
         run (handler ev) = (Return (tenant_response tenantId tenantName), []))
      /\ (truthy tenantName = false ->
          run (handler ev)
          = (Return (tenant_response tenantId (VStr "Xero Organization")), []))).
Proof.
  cbv zeta. intros Hoptions Hflag.
  pose proof (connections_run _ Hoptions) as Hrun. cbv zeta in Hrun.
  rewrite Hrun, Hflag. cbn [strict_equal String.eqb Ascii.eqb Bool.eqb negb].
  split; [intros ->; reflexivity |]. intros ->. cbn [negb].
  unfold js_or. split; intros ->; reflexivity.
Qed.

End Connections.

(** ** Decoding what was encoded *)

Section RoundTrip.

Lemma byte_range a : (0 <= byte_of_ascii a < 256)%Z.
Proof. destruct a as [[] [] [] [] [] [] [] []]; cbv; split; congruence. Qed.

Lemma decode_cons f c r :
  URI.decode (S f) (String c r)
  = if Ascii.eqb c "%" then
      match URI.percent_byte (String c r) with
      | None => Throw URI.malformed
      | Some (b, rest) =>
          if (b <? 128)%Z then
            t ← URI.decode f rest; Return (String (ascii_of_byte b) t)
          else
            match URI.sequence_length b with
            | None => Throw URI.malformed
            | Some n =>
                match URI.continuation (n - 1) rest with
                | None => Throw URI.malformed
                | Some (bs, rest') =>
                    if URI.well_formed (b :: bs) then
                      t ← URI.decode f rest'; Return (string_of_bytes (b :: bs) +:+ t)
                    else Throw URI.malformed
                end
            end
      end
    else t ← URI.decode f r; Return (String c t).
Proof. reflexivity. Qed.

(** A text without [%] decodes to itself. *)
Lemma decode_plain s : forall f,
  all_chars (fun c => negb (Ascii.eqb c "%")) s = true -> URI.decode f s = Return s.
Proof.
  induction s as [| c s IH]; intros f; [destruct f; reflexivity |].
  cbn [all_chars]. intros [Hc Hs]%andb_true_iff. apply negb_true_iff in Hc.
  destruct f as [| f]; [reflexivity |].
  rewrite decode_cons, Hc, IH by exact Hs. reflexivity.
Qed.

Lemma escape_length a rest :
  String.length (URI.escape a +:+ rest) = S (S (S (String.length rest))).
Proof. reflexivity. Qed.

Lemma unreserved_ascii a : URI.unreserved a = true -> between 0 127 a = true.
Proof. destruct a as [[] [] [] [] [] [] [] []]; intros Hu; try discriminate Hu; reflexivity. Qed.

Lemma high_escaped a : between 0 127 a = false -> URI.unreserved a = false.
Proof.
  intros Hh. destruct (URI.unreserved a) eqn:Hu; [| reflexivity].
  apply unreserved_ascii in Hu. congruence.
Qed.

Lemma continuation_escaped a : continuation_byte a = true -> URI.unreserved a = false.
Proof. destruct a as [[] [] [] [] [] [] [] []]; intros Hu; try discriminate Hu; reflexivity. Qed.

(** An escaped ASCII character at the head of an encoded text. *)
Lemma decode_low f a rest :
  between 0 127 a = true ->
  URI.decode (S f) (URI.escape a +:+ rest)
  = (t ← URI.decode f rest; Return (String a t)).
Proof.
  intros Ha. pose proof (escape_decodes a rest) as Hbyte.
  destruct (escape_shape a) as (h & l & Hshape). rewrite Hshape in *.
  change (String "%" (String h (String l EmptyString)) +:+ rest)
    with (String "%" (String h (String l rest))) in *.
  rewrite decode_cons. change (Ascii.eqb "%" "%") with true. cbv iota.
  rewrite Hbyte. unfold between in Ha.
  replace (byte_of_ascii a <? 128)%Z with true by lia.
  now rewrite ascii_of_byte_of_ascii.
Qed.

Lemma continuation_one b rest n :
  continuation_byte b = true ->
  URI.continuation (S n) (URI.escape b +:+ rest)
  = match URI.continuation n rest with
    | Some (bs, rest') => Some (byte_of_ascii b :: bs, rest')
    | None => None
    end.
Proof.
  intros Hb. cbn [URI.continuation]. rewrite escape_decodes.
  unfold continuation_byte, between in Hb. now rewrite Hb.
Qed.

Ltac to_prop :=
  unfold continuation_byte, between in *;
  repeat match goal with
         | H : _ && _ = true |- _ => apply andb_true_iff in H as [? ?]
         | H : _ && _ = false |- _ => apply andb_false_iff in H as [H | H]
         | H : (_ <=? _)%Z = true |- _ => apply Z.leb_le in H
         | H : (_ <=? _)%Z = false |- _ => apply Z.leb_gt in H
         end.

Ltac arith :=
  to_prop; unfold URI.sequence_length, URI.well_formed;
  repeat (match goal with
          | |- context [(?x <=? ?y)%Z] => destruct (Z.leb_spec x y)
          | |- context [(?x <? ?y)%Z] => destruct (Z.ltb_spec x y)
          | |- context [(?x =? ?y)%Z] => destruct (Z.eqb_spec x y)
          end; try lia; cbn [andb orb negb]);
  try reflexivity; try discriminate; try lia.

(** A multi-byte sequence at the head of an encoded text. *)
Lemma decode_sequence f a k rest bs rest' :
  between 0 127 a = false ->
  URI.sequence_length (byte_of_ascii a) = Some (S k) ->
  URI.continuation k rest = Some (bs, rest') ->
  URI.well_formed (byte_of_ascii a :: bs) = true ->
  URI.decode (S f) (URI.escape a +:+ rest)
  = (t ← URI.decode f rest'; Return (string_of_bytes (byte_of_ascii a :: bs) +:+ t)).
Proof.
  intros Ha Hlen Hcont Hwf. pose proof (escape_decodes a rest) as Hbyte.
  destruct (escape_shape a) as (h & l & Hshape). rewrite Hshape in *.
  change (String "%" (String h (String l EmptyString)) +:+ rest)
    with (String "%" (String h (String l rest))) in *.
  rewrite decode_cons. change (Ascii.eqb "%" "%") with true. cbv iota.
  rewrite Hbyte, Hlen. cbn [Nat.sub]. rewrite Nat.sub_0_r, Hcont, Hwf.
  pose proof (byte_range a).
  replace (byte_of_ascii a <? 128)%Z with false by (clear Hlen Hwf; arith).
  reflexivity.
Qed.

(** Decoding undoes encoding on well-formed text. *)
Lemma decode_encode n : forall s f,
  (String.length s <= n)%nat ->
  (String.length (URI.encodeURIComponent s) <= f)%nat ->
  utf8 s = true ->
  URI.decode f (URI.encodeURIComponent s) = Return s.
Proof.
  induction n as [| n IH]; intros s f Hn Hf Hs.
  { destruct s; [destruct f; reflexivity | simpl in Hn; lia]. }
  destruct s as [| a r]; [destruct f; reflexivity |].
  cbn [URI.encodeURIComponent utf8] in *. cbn [String.length] in Hn.
  destruct (between 0 127 a) eqn:Hlow.
  - destruct (URI.unreserved a) eqn:Hu.
    + destruct f as [| f]; [simpl in Hf; lia |].
      rewrite decode_cons. destruct (unreserved_literal _ Hu) as [_ ->].
      rewrite IH by (simpl in Hf; auto; lia). reflexivity.
    + destruct f as [| f]; [rewrite escape_length in Hf; lia |].
      rewrite (decode_low _ _ _ Hlow).
      rewrite IH by (try rewrite escape_length in Hf; auto; lia). reflexivity.
  - rewrite (high_escaped _ Hlow) in *.
    destruct f as [| f]; [rewrite escape_length in Hf; lia |].
    pose proof (byte_range a) as Hrange.
    destruct (between 194 223 a) eqn:H2; [| destruct (between 224 239 a) eqn:H3;
      [| destruct (between 240 244 a) eqn:H4; [| discriminate]]].
    + destruct r as [| b r1]; [discriminate |].
      apply andb_true_iff in Hs as [Hb Hs].
      cbn [URI.encodeURIComponent] in *. rewrite (continuation_escaped _ Hb) in *.
      rewrite (decode_sequence f a 1 _ [byte_of_ascii b] (URI.encodeURIComponent r1) Hlow).
      * rewrite IH; [| simpl in Hn; lia | rewrite !escape_length in Hf; lia | exact Hs].
        cbn [string_of_bytes mbind outcome_bind]. now rewrite !ascii_of_byte_of_ascii.
      * clear Hs IH. arith.
      * rewrite (continuation_one _ _ _ Hb). reflexivity.
      * clear Hs IH. arith.
    + destruct r as [| b [| c r2]]; try discriminate.
      apply andb_true_iff in Hs as [Hbc Hs]. apply andb_true_iff in Hbc as [Hb Hc].
      assert (continuation_byte b = true) as Hb'.
      { clear Hs IH Hc. pose proof (byte_range b). revert Hb.
        destruct (between 224 224 a); [| destruct (between 237 237 a)]; arith. }
      cbn [URI.encodeURIComponent] in *.
      rewrite (continuation_escaped _ Hb'), (continuation_escaped _ Hc) in *.
      rewrite (decode_sequence f a 2 _ [byte_of_ascii b; byte_of_ascii c]
                 (URI.encodeURIComponent r2) Hlow).
      * rewrite IH; [| simpl in Hn; lia | rewrite !escape_length in Hf; lia | exact Hs].
        cbn [string_of_bytes mbind outcome_bind]. now rewrite !ascii_of_byte_of_ascii.
      * clear Hs IH. arith.
      * rewrite (continuation_one _ _ _ Hb'), (continuation_one _ _ _ Hc). reflexivity.
      * clear Hs IH Hb' Hc. pose proof (byte_range b). revert Hb.
        destruct (between 224 224 a) eqn:E1; [| destruct (between 237 237 a) eqn:E2]; arith.
    + destruct r as [| b [| c [| d r3]]]; try discriminate.
      apply andb_true_iff in Hs as [Hbcd Hs]. apply andb_true_iff in Hbcd as [Hbc Hd].
      apply andb_true_iff in Hbc as [Hb Hc].
      assert (continuation_byte b = true) as Hb'.
      { clear Hs IH Hc Hd. pose proof (byte_range b). revert Hb.
        destruct (between 240 240 a); [| destruct (between 244 244 a)]; arith. }
      cbn [URI.encodeURIComponent] in *.
      rewrite (continuation_escaped _ Hb'), (continuation_escaped _ Hc),
        (continuation_escaped _ Hd) in *.
      rewrite (decode_sequence f a 3 _ [byte_of_ascii b; byte_of_ascii c; byte_of_ascii d]
                 (URI.encodeURIComponent r3) Hlow).
      * rewrite IH; [| simpl in Hn; lia | rewrite !escape_length in Hf; lia | exact Hs].
        cbn [string_of_bytes mbind outcome_bind]. now rewrite !ascii_of_byte_of_ascii.
      * clear Hs IH. arith.
      * rewrite (continuation_one _ _ _ Hb'), (continuation_one _ _ _ Hc),
          (continuation_one _ _ _ Hd). reflexivity.
      * clear Hs IH Hb' Hc Hd. pose proof (byte_range b). revert Hb.
        destruct (between 240 240 a) eqn:E1; [| destruct (between 244 244 a) eqn:E2]; arith.
Qed.

Lemma decodeURIComponent_encodeURIComponent s :
  utf8 s = true -> URI.decodeURIComponent (URI.encodeURIComponent s) = Return s.
Proof. intros Hs. unfold URI.decodeURIComponent. eapply decode_encode; eauto. Qed.

Lemma escape_chars a : all_chars component_char (URI.escape a) = true.
Proof. destruct a as [[] [] [] [] [] [] [] []]; reflexivity. Qed.

Lemma encode_chars s : all_chars component_char (URI.encodeURIComponent s) = true.
Proof.
  induction s as [| c s IH]; [reflexivity |]. cbn [URI.encodeURIComponent].
  destruct (URI.unreserved c) eqn:Hu.
  - cbn [all_chars]. unfold component_char at 1. now rewrite Hu, IH.
  - now rewrite all_chars_append, escape_chars, IH.
Qed.

End RoundTrip.

Section ErrorRedirect.
Context `{Runtime}.
Import XeroCallback.

(** X16.  The error redirect carries its message intact: for every
    message (a well-formed string), the [message] parameter of the
    [Location] is made of unreserved characters and [%XY] escapes only, so
    the query splits at [&] into exactly [auth=error] and the message
    parameter, and [decodeURIComponent] gives the message back. *)
Theorem redirectWithError_message_round_trip message :
  utf8 message = true ->
  exists encoded,
    resp_headers (redirectWithError message)
    = [("Location", "/?auth=error&message=" +:+ encoded); ("Cache-Control", "no-cache")]
    /\ all_chars component_char encoded = true
    /\ split_on "&" ("auth=error&message=" +:+ encoded) = ["auth=error"; "message=" +:+ encoded]
    /\ URI.decodeURIComponent encoded = Return message.
Proof.
  intros Hm. exists (URI.encodeURIComponent message).
  split; [reflexivity |]. split; [apply encode_chars |].
  split; [| apply decodeURIComponent_encodeURIComponent, Hm].
  change ("auth=error&message=" +:+ ?x) with ("auth=error" +:+ String "&" ("message=" +:+ x)).
  rewrite split_on_present by reflexivity. f_equal.
  apply split_on_absent. rewrite all_chars_append. apply andb_true_iff. split; [reflexivity |].
  eapply all_chars_weaken; [| apply encode_chars]. apply component_char_no_separator.
Qed.


End ErrorRedirect.

(** ** The success redirect *)

Section SuccessRedirect.
Context `{Runtime}.
Import XeroCallback.

Lemma field_chars k x :
  all_chars component_char x = true ->
  all_chars (fun a => negb (Ascii.eqb a "&")) k = true ->
  all_chars (fun a => negb (Ascii.eqb a "&")) (k +:+ x) = true.
Proof.
  intros Hx Hk. rewrite all_chars_append, Hk.
  apply (all_chars_weaken _ _ x component_char_no_separator Hx).
Qed.

Lemma encodeURIComponent_chars v s :
  encodeURIComponent v = Return s -> all_chars component_char s = true.
Proof.
  unfold encodeURIComponent. intros Hs. ostep. simplify_eq. apply encode_chars.
Qed.

(** X20.  The query of every success redirect has exactly six parameters,
    in this order: [auth=success], [tenantName], [tenantId],
    [multipleOrgs] (which is [true] or [false]), [tenants] and [tokens].
    The values are percent-encoded, so a tenant name or a token that
    contains [&] cannot add or change a parameter; and the [tokens]
    parameter is read back as the token bundle
    [{ access_token, refresh_token, expires_at }] of the token response:
    of [tokenData], the JSON the token endpoint answered to the token
    request of this very run (which [reaches_tenants] states). *)
Theorem callback_success_location_fields w ev resp trace :
  run (handler w ev) = (Return resp, trace) ->
  is_success resp ->
  exists name id multiple tenants tokens tokenData connections bundle,
    header "Location" (resp_headers resp)
    = Some ("/?" +:+ join "&" [ "auth=success"; "tenantName=" +:+ name; "tenantId=" +:+ id
                              ; "multipleOrgs=" +:+ multiple; "tenants=" +:+ tenants
                              ; "tokens=" +:+ tokens ])
    /\ split_on "&" (join "&" [ "auth=success"; "tenantName=" +:+ name; "tenantId=" +:+ id
                              ; "multipleOrgs=" +:+ multiple; "tenants=" +:+ tenants
                              ; "tokens=" +:+ tokens ])
       = [ "auth=success"; "tenantName=" +:+ name; "tenantId=" +:+ id
         ; "multipleOrgs=" +:+ multiple; "tenants=" +:+ tenants; "tokens=" +:+ tokens ]
    /\ (multiple = "true" \/ multiple = "false")
    /\ reaches_tenants w ev tokenData connections
    /\ token_bundle w tokenData = Return bundle
    /\ form_decode tokens = Some bundle.
Proof.
  intros Hrun Hsuccess.
  destruct (callback_success_inversion _ _ _ _ Hrun Hsuccess)
    as (tokenData & connections & Hreach & Hredirect).
  apply tenant_redirect_cases in Hredirect
    as (tenantId & tenantName & cookies & orgData & location & _ & _ & _ & _ & Hlocation & ->).
  unfold success_location in Hlocation.
  do 5 ostep. simplify_eq.
  match goal with
  | Hn : encodeURIComponent (js_or tenantName _) = Return ?n,
    Hi : encodeURIComponent (js_or tenantId _) = Return ?i,
    Hb : token_bundle w tokenData = Return ?b |- _ =>
      pose proof (encodeURIComponent_chars _ _ Hn) as Hname;
      pose proof (encodeURIComponent_chars _ _ Hi) as Hid;
      exists n, i
  end.
  match goal with
  | |- context [if ?m then "true" else "false"] =>
      exists (if m then "true" else "false")
  end.
  eexists (URI.encodeURIComponent (JSON.stringify_object_or_array orgData)),
    (URI.encodeURIComponent _), tokenData, connections, _.
  split; [| split; [| split; [| split; [exact Hreach
                                       | split; [eassumption | apply component_decodes]]]]].
  - cbn [header resp_headers String.eqb Ascii.eqb Bool.eqb join concat_strings].
    f_equal.
    repeat (rewrite ?append_assoc, ?append_cons, ?append_empty, ?append_empty_r).
    reflexivity.
  - cbn [join].
    change "&"%string with (String "&" EmptyString).
    rewrite !(append_cons "&"), !append_empty.
    rewrite !split_on_present, split_on_absent; [reflexivity | ..].
    all: try reflexivity.
    all: try (apply field_chars; [first [assumption | apply encode_chars] | reflexivity]).
    all: match goal with |- context [if ?m then _ else _] => destruct m; reflexivity end.
  - match goal with |- context [if ?m then _ else _] => destruct m; auto end.
Qed.

End SuccessRedirect.

(** ** From the authorization redirect to the token request *)

Section RoundTripFlow.
Context `{Runtime}.
Import XeroCallback.

(** X17.  The two handlers fit together.  Take the state and the verifier
    the authorization handler draws, and the cookie pair
    [xero_auth=<value>] it sets.  When the browser comes back with that
    cookie, a code and the same state (and no error), then, provided
    [cookie.parse] and [querystring.parse] read this cookie as it was
    written, the callback handler passes its checks and its first request
    is the token request carrying that code and that very verifier (whose
    challenge the authorization URL announced).  In particular decoding
    the cookie value a second time, as the callback does, is harmless for
    the values this application writes. *)
Theorem correlation_round_trip w ev id secret code :
  let state := Hex.encode (randomBytes w 0 16) in
  let verifier := Hex.encode (randomBytes w 16 32) in
  let value := "state=" +:+ state +:+ "&code_verifier=" +:+ verifier in
  let pair := "xero_auth=" +:+ URI.encodeURIComponent value in
  env w !! "XERO_CLIENT_ID" = Some id -> id <> EmptyString ->
  env w !! "XERO_CLIENT_SECRET" = Some secret -> secret <> EmptyString ->
  queryStringParameters ev !! "error" = None ->
  queryStringParameters ev !! "code" = Some code -> code <> EmptyString ->
  queryStringParameters ev !! "state" = Some state ->
  headers ev !! "cookie" = Some pair ->
  lookup_member "xero_auth" (cookie_parse pair) = VStr value ->
  lookup_member "state" (querystring_parse value) = VStr state ->
  lookup_member "code_verifier" (querystring_parse value) = VStr verifier ->
  run (XeroAuth.handler w) = (Return (authorization_redirect w id state verifier), [])
  /\ header "Set-Cookie" (resp_headers (authorization_redirect w id state verifier))
     = Some (pair +:+ "; Path=/; Expires="
             +:+ Date_toUTCString (num_add (clock w) (num_of_Z 900000))
             +:+ "; SameSite=Lax; HttpOnly; Secure")
  /\ exists rest,
       snd (run (handler w ev))
       = token_request (client_authorization id secret) (VStr code) (callback_uri w)
           (VStr verifier) :: rest.
Proof.
  cbv zeta.
  intros Hid Hid' Hsecret Hsecret' Herror Hcode Hcode' Hstate Hcookie Hparse Hs Hv.
  destruct (hex_encode_shape _ (randomBytes_bytes w 0 16)) as [Hlen1 Hhex1].
  destruct (hex_encode_shape _ (randomBytes_bytes w 16 32)) as [Hlen2 Hhex2].
  rewrite randomBytes_length in Hlen1, Hlen2.
  revert Hstate Hcookie Hparse Hs Hv.
  set (state := Hex.encode (randomBytes w 0 16)) in *.
  set (verifier := Hex.encode (randomBytes w 16 32)) in *.
  intros Hstate Hcookie Hparse Hs Hv.
  split; [apply auth_handler_run; assumption |].
  split.
  { cbn [header authorization_redirect resp_headers String.eqb Ascii.eqb Bool.eqb].
    unfold correlation_cookie.
    rewrite (correlation_value_encoded _ _ Hhex1 Hhex2), !append_assoc. reflexivity. }
  assert (xero_auth_cookie ev
          = VStr ("state=" +:+ state +:+ "&code_verifier=" +:+ verifier)) as Hxero.
  { unfold xero_auth_cookie. rewrite (string_or_present _ _ _ _ Hcookie); [exact Hparse |].
    discriminate. }
  pose proof (callback_sends_token_request w ev id secret
                ("state=" +:+ state +:+ "&code_verifier=" +:+ verifier)) as Hflow.
  cbv zeta in Hflow.
  rewrite (field_string _ _ _ Hcode), (field_string _ _ _ Hstate), Hs, Hv, Hxero in Hflow.
  apply Hflow; clear Hflow; try assumption.
  - unfold field. now rewrite Herror.
  - now apply truthy_string.
  - apply truthy_string. now apply (nonempty_length _ 31).
  - reflexivity.
  - unfold decoded_cookie. cbn [ToString mbind outcome_bind].
    apply decode_plain. rewrite !all_chars_append.
    rewrite (all_chars_weaken _ _ state lower_hex_literal Hhex1).
    rewrite (all_chars_weaken _ _ verifier lower_hex_literal Hhex2). reflexivity.
  - cbn [strict_equal]. apply String.eqb_refl.
Qed.

End RoundTripFlow.

(** ** The error bodies, read back by the reference parser *)

Section JsonRoundTrip.
#[local] Existing Instance Node.numbers.
#[local] Existing Instance Node.runtime.

Lemma string_chars_char c f r :
  Node.string_chars (S f) (JSON.escape_char c +:+ r)
  = match Node.string_chars f r with
    | inr (t, rest) => inr (String c t, rest)
    | inl e => inl e
    end.
Proof. destruct c as [[] [] [] [] [] [] [] []]; reflexivity. Qed.

(** The characters of a quoted string are read back. *)
Lemma string_chars_escape t : forall f rest,
  (String.length t < f)%nat ->
  Node.string_chars f (JSON.escape t +:+ String JSON.dquote rest) = inr (t, rest).
Proof.
  induction t as [| c t IH]; intros f rest Hf.
  - destruct f as [| f]; [lia | reflexivity].
  - destruct f as [| f]; [simpl in Hf; lia |].
    cbn [JSON.escape]. rewrite append_assoc, string_chars_char, IH by (simpl in Hf; lia).
    reflexivity.
Qed.

Lemma escape_char_length c : (1 <= String.length (JSON.escape_char c))%nat.
Proof. destruct c as [[] [] [] [] [] [] [] []]; cbv; lia. Qed.

Lemma escape_length_le t : (String.length t <= String.length (JSON.escape t))%nat.
Proof.
  induction t as [| c t IH]; [reflexivity |]. cbn [JSON.escape].
  rewrite length_append. pose proof (escape_char_length c). simpl. lia.
Qed.

Lemma quote_cons s rest :
  JSON.quote s +:+ rest = String JSON.dquote (JSON.escape s +:+ String JSON.dquote rest).
Proof.
  unfold JSON.quote. rewrite append_cons, append_assoc, append_cons. reflexivity.
Qed.

(** A string literal is read back as the string. *)
Lemma json_value_string f s rest :
  Node.json_value (S f) (JSON.quote s +:+ rest) = inr (VStr s, rest).
Proof.
  rewrite quote_cons.
  cbn [Node.json_value Node.skip_spaces].
  change (Node.is_json_space JSON.dquote) with false. cbv iota.
  change (byte_of_ascii JSON.dquote) with 34%Z.
  cbn [Z.eqb Pos.eqb].
  rewrite string_chars_escape; [reflexivity |].
  rewrite length_append. pose proof (escape_length_le s). simpl. lia.
Qed.

(** A member [key: string] at the head of the members of an object. *)
Lemma json_member f k s acc rest :
  Node.json_members (S (S f)) (JSON.quote k +:+ String ":" (JSON.quote s +:+ rest)) acc
  = match Node.skip_spaces rest with
    | String "," r2 => Node.json_members (S f) r2 (Node.assign k (VStr s) acc)
    | String "}" r2 => inr (VObj (Node.assign k (VStr s) acc), r2)
    | other => inl other
    end.
Proof.
  rewrite (quote_cons k).
  cbn [Node.json_members Node.skip_spaces].
  change (Node.is_json_space JSON.dquote) with false. cbv iota.
  change JSON.dquote with "034"%char at 1. cbv iota.
  rewrite string_chars_escape.
  2: { rewrite length_append. pose proof (escape_length_le k). simpl. lia. }
  cbn [Node.skip_spaces]. change (Node.is_json_space ":") with false. cbv iota.
  rewrite json_value_string. reflexivity.
Qed.

Lemma two_fields_text k1 s1 k2 s2 :
  JSON.stringify_object [ (k1, VStr s1); (k2, VStr s2) ]
  = String "{" (JSON.quote k1 +:+ String ":" (JSON.quote s1 +:+
      String "," (JSON.quote k2 +:+ String ":" (JSON.quote s2 +:+ "}")))).
Proof.
  unfold JSON.stringify_object, JSON.stringify_object_or_array.
  cbn [JSON.stringify join].
  repeat (rewrite ?append_assoc, ?append_cons; change (EmptyString +:+ ?x) with x).
  reflexivity.
Qed.

Lemma object_start f k rest :
  Node.json_value (S f) (String "{" (JSON.quote k +:+ rest))
  = Node.json_members f (JSON.quote k +:+ rest) [].
Proof. rewrite quote_cons. reflexivity. Qed.

(** An object of two string members is read back. *)
Lemma parse_object_two k1 s1 k2 s2 :
  Node.array_index k1 = None -> Node.array_index k2 = None -> String.eqb k2 k1 = false ->
  Node.parse_json (JSON.stringify_object [ (k1, VStr s1); (k2, VStr s2) ])
  = Return (VObj [ (k1, VStr s1); (k2, VStr s2) ]).
Proof.
  intros Hk1 Hk2 Hne. rewrite two_fields_text. unfold Node.parse_json.
  match goal with |- context [Node.json_value (S (String.length ?src)) _] =>
    assert (3 <= String.length src)%nat as Hlen
      by (rewrite !quote_cons; cbn [String.length]; rewrite !length_append;
          cbn [String.length]; lia);
    destruct (String.length src) as [| [| [| n]]]; try lia
  end.
  rewrite object_start, json_member.
  cbn [Node.skip_spaces]. change (Node.is_json_space ",") with false. cbv iota.
  rewrite json_member.
  cbn [Node.skip_spaces]. change (Node.is_json_space "}") with false. cbv iota.
  unfold Node.assign. cbn [has_member]. rewrite Hk1. cbn [app has_member].
  rewrite Hne, Hk2. reflexivity.
Qed.

(** X18.  The error bodies of the refresh handler are JSON text that the
    reference parser reads back: the refusal envelope gives an object
    whose [details] is the upstream text, byte for byte and whatever it
    contains, and the body of the catch-all answer gives the message of
    the error. *)
Theorem refresh_error_bodies_parse_back errorText e :
  JSON_parse (XeroRefresh.failure_envelope errorText)
  = Return (VObj [ ("error", VStr "Failed to refresh token"); ("details", VStr errorText) ])
  /\ (body ← resp_body (server_error e); Some (JSON_parse body))
     = Some (Return (VObj [ ("error", VStr "Server error")
                          ; ("message", VStr (error_message e)) ])).
Proof.
  split.
  - apply parse_object_two; reflexivity.
  - cbn [server_error resp_body mbind option_bind]. f_equal.
    apply parse_object_two; reflexivity.
Qed.

End JsonRoundTrip.

(** ** These properties at work on the sample requests *)

Section MoreSamples.
#[local] Existing Instance Node.numbers.
#[local] Existing Instance Node.runtime.
Import XeroCallback.

(** X2, on the sample run. *)
Lemma callback_token_request_content_witness :
  exists id secret decoded,
    env Sample.two_tenants !! "XERO_CLIENT_ID" = Some id
    /\ env Sample.two_tenants !! "XERO_CLIENT_SECRET" = Some secret
    /\ truthy (field (queryStringParameters Sample.returning) "error") = false
    /\ decoded_cookie (xero_auth_cookie Sample.returning) = Return decoded
    /\ strict_equal (field (queryStringParameters Sample.returning) "state")
         (lookup_member "state" (querystring_parse decoded)) = true
    /\ Sample.exchange
       = token_request (client_authorization id secret)
           (field (queryStringParameters Sample.returning) "code")
           (callback_uri Sample.two_tenants)
           (lookup_member "code_verifier" (querystring_parse decoded)).
Proof.
  apply (callback_token_request_content Sample.two_tenants Sample.returning Sample.exchange).
  - left. reflexivity.
  - reflexivity.
Defined.

(** X3, on an exchange the provider refuses with status 400. *)
Lemma callback_token_exchange_refused_witness :
  fst (run (handler Sample.refusing Sample.returning))
  = Return (redirectWithError "Failed to exchange code for tokens (400)")
  /\ snd (run (handler Sample.refusing Sample.returning)) = [Sample.exchange].
Proof.
  apply (callback_token_exchange_refused Sample.refusing Sample.returning _ _
           Sample.exchange (FetchResponse 400 Sample.refusal)).
  - apply surjective_pairing.
  - left. reflexivity.
  - reflexivity.
  - reflexivity.
  - reflexivity.
Defined.

(** X4, on a provider that answers the connections request with 403. *)
Lemma callback_connections_refused_witness :
  fst (run (handler Sample.connections_refused Sample.returning))
  = Return (redirectWithError "Connected to Xero, but failed to get user details")
  /\ exists q1,
       req_url q1 = token_endpoint
       /\ snd (run (handler Sample.connections_refused Sample.returning))
          = [q1; connections_request "AT"].
Proof.
  apply (callback_connections_refused Sample.connections_refused Sample.returning _ _
           (connections_request "AT") (FetchResponse 403 "Forbidden")).
  - apply surjective_pairing.
  - right. left. reflexivity.
  - reflexivity.
  - reflexivity.
  - reflexivity.
Defined.

(** X5, on a provider that cannot be reached. *)
Lemma callback_network_failure_witness :
  fst (run (handler Sample.offline Sample.returning))
  = Return (redirectWithError ("Server error: " +:+ error_message Sample.unreachable))
  /\ exists before,
       snd (run (handler Sample.offline Sample.returning)) = before ++ [Sample.exchange].
Proof.
  apply (callback_network_failure Sample.offline Sample.returning _ _
           Sample.exchange Sample.unreachable).
  - apply surjective_pairing.
  - left. reflexivity.
  - reflexivity.
Defined.

(** X6, on a deployment without configuration. *)
Lemma auth_missing_client_id_witness :
  exists resp,
    run (XeroAuth.handler Sample.unset) = (Return resp, [])
    /\ statusCode resp = 500%Z
    /\ resp_headers resp = [("Content-Type", "application/json")]
    /\ resp_body resp
       = Some (JSON.stringify_object
                 [ ("error", VStr "Server error")
                 ; ("message", VStr "Missing XERO_CLIENT_ID environment variable") ]).
Proof. apply (auth_missing_client_id Sample.unset). reflexivity. Defined.

(** X7, on the sample deployment. *)
Lemma auth_redirect_binds_cookie_and_url_witness :
  exists state verifier,
    String.length state = 32%nat /\ all_chars lower_hex state = true
    /\ String.length verifier = 64%nat /\ all_chars lower_hex verifier = true
    /\ run (XeroAuth.handler Sample.two_tenants)
       = (Return (authorization_redirect Sample.two_tenants "client" state verifier), []).
Proof.
  apply (auth_redirect_binds_cookie_and_url Sample.two_tenants "client").
  - reflexivity.
  - discriminate.
Defined.

(** X9, on the sample deployment. *)
Lemma authorization_url_text_witness :
  exists resp state challenge,
    fst (run (XeroAuth.handler Sample.two_tenants)) = Return resp
    /\ String.length state = 32%nat
    /\ String.length challenge = 43%nat
    /\ header "Location" (resp_headers resp)
       = Some (concat_strings
                 [ "https://login.xero.com/identity/connect/authorize?client_id="
                 ; URLSearchParams.encode "client"
                 ; "&response_type=code&redirect_uri="
                 ; URLSearchParams.encode (callback_uri Sample.two_tenants)
                 ; "&scope=openid+profile+email+offline_access"
                 ; "+accounting.transactions.read+accounting.settings.read&state="
                 ; state
                 ; "&code_challenge="
                 ; challenge
                 ; "&code_challenge_method=S256" ]).
Proof.
  apply (authorization_url_text Sample.two_tenants "client").
  - reflexivity.
  - discriminate.
Defined.

(** X10, on a refresh the provider grants. *)
Lemma refresh_returns_fresh_tokens_witness :
  run (XeroRefresh.handler Sample.two_tenants (Sample.refresh "POST" (Some Sample.refresh_body)))
  = (Return (refreshed Sample.bundle), [Sample.renewal]).
Proof.
  apply (@refresh_returns_fresh_tokens Node.numbers Node.runtime Sample.two_tenants
           (Sample.refresh "POST" (Some Sample.refresh_body)) (VStr "RT") "client" "secret"
           (FetchResponse 200 Sample.token_body) Sample.token_data
           (VStr "AT") (VStr "RT") (@VNum Node.numbers (Node.Int 1800)) (Node.Int 1800));
    first [reflexivity | discriminate].
Defined.

(** X12, on a provider that cannot be reached. *)
Lemma refresh_network_failure_witness :
  fst (run (XeroRefresh.handler Sample.offline (Sample.refresh "POST" (Some Sample.refresh_body))))
  = Return (server_error Sample.unreachable)
  /\ snd (run (XeroRefresh.handler Sample.offline (Sample.refresh "POST" (Some Sample.refresh_body))))
     = [Sample.renewal].
Proof.
  apply (refresh_network_failure Sample.offline
           (Sample.refresh "POST" (Some Sample.refresh_body))).
  - apply surjective_pairing.
  - left. reflexivity.
  - reflexivity.
Defined.

(** X13, on a token endpoint that answers 200 with a page of HTML. *)
Lemma refresh_unreadable_token_response_witness :
  fst (run (XeroRefresh.handler Sample.garbling (Sample.refresh "POST" (Some Sample.refresh_body))))
  = Return (server_error
              (FetchError ("invalid json response body at " +:+ XeroRefresh.token_endpoint
                           +:+ " reason: "
                           +:+ "Unexpected token < in JSON at position 0")))
  /\ snd (run (XeroRefresh.handler Sample.garbling
                 (Sample.refresh "POST" (Some Sample.refresh_body))))
     = [Sample.renewal].
Proof.
  apply (refresh_unreadable_token_response Sample.garbling
           (Sample.refresh "POST" (Some Sample.refresh_body)) _ _
           Sample.renewal (FetchResponse 200 "<html>")
           (SyntaxError "Unexpected token < in JSON at position 0")).
  - apply surjective_pairing.
  - left. reflexivity.
  - reflexivity.
  - reflexivity.
  - reflexivity.
Defined.

(** X15, on three requests: the flag alone, the flag with a tenant and its
    name, the flag with a tenant without name. *)
Lemma connections_reads_tenant_from_cookies_witness :
  run (XeroConnections.handler (Sample.session "xero_authenticated=true"))
  = (Return (connections_error 404 "Not Found"
               "No Xero organization found. Please reconnect to Xero."), [])
  /\ run (XeroConnections.handler
            (Sample.session "xero_authenticated=true; xero_tenant_id=T1; xero_tenant_name=Acme"))
     = (Return (tenant_response (VStr "T1") (VStr "Acme")), [])
  /\ run (XeroConnections.handler
            (Sample.session "xero_authenticated=true; xero_tenant_id=T1"))
     = (Return (tenant_response (VStr "T1") (VStr "Xero Organization")), []).
Proof.
  pose proof (connections_reads_tenant_from_cookies
                (Sample.session "xero_authenticated=true")) as H1.
  pose proof (connections_reads_tenant_from_cookies
                (Sample.session "xero_authenticated=true; xero_tenant_id=T1; xero_tenant_name=Acme"))
    as H2.
  pose proof (connections_reads_tenant_from_cookies
                (Sample.session "xero_authenticated=true; xero_tenant_id=T1")) as H3.
  cbv zeta in *.
  split; [| split].
  - apply H1; [discriminate | reflexivity | reflexivity].
  - apply H2; [discriminate | reflexivity | reflexivity | reflexivity].
  - apply H3; [discriminate | reflexivity | reflexivity | reflexivity].
Defined.

(** X16, on a message with accented letters. *)
Lemma redirectWithError_message_round_trip_witness :
  exists encoded,
    resp_headers (redirectWithError Sample.denial)
    = [("Location", "/?auth=error&message=" +:+ encoded); ("Cache-Control", "no-cache")]
    /\ all_chars component_char encoded = true
    /\ split_on "&" ("auth=error&message=" +:+ encoded) = ["auth=error"; "message=" +:+ encoded]
    /\ URI.decodeURIComponent encoded = Return Sample.denial.
Proof. apply (redirectWithError_message_round_trip Sample.denial). reflexivity. Defined.

(** X17, on the sample deployment: the browser comes back with the cookie
    of the authorization redirect and the token request carries the
    verifier drawn there. *)
Lemma correlation_round_trip_witness :
  let pair := "xero_auth=state%3D" +:+ Sample.state +:+ "%26code_verifier%3D" +:+ Sample.verifier in
  run (XeroAuth.handler Sample.two_tenants)
  = (Return (authorization_redirect Sample.two_tenants "client" Sample.state Sample.verifier), [])
  /\ header "Set-Cookie"
       (resp_headers (authorization_redirect Sample.two_tenants "client" Sample.state Sample.verifier))
     = Some (pair +:+ "; Path=/; Expires=Tue, 14 Nov 2023 22:28:20 GMT"
             +:+ "; SameSite=Lax; HttpOnly; Secure")
  /\ exists rest,
       snd (run (handler Sample.two_tenants Sample.echoed))
       = token_request (client_authorization "client" "secret") (VStr "c0de")
           (callback_uri Sample.two_tenants) (VStr Sample.verifier) :: rest.
Proof.
  cbv zeta.
  pose proof (correlation_round_trip Sample.two_tenants Sample.echoed "client" "secret" "c0de")
    as Hflow.
  cbv zeta in Hflow.
  specialize (Hflow eq_refl ltac:(discriminate) eq_refl ltac:(discriminate) eq_refl eq_refl
                ltac:(discriminate) eq_refl eq_refl eq_refl eq_refl eq_refl).
  destruct Hflow as (Hauth & Hcookie & rest & Hrequest).
  split; [exact Hauth |]. split; [| exists rest; exact Hrequest].
  etransitivity; [exact Hcookie | reflexivity].
Defined.

(** X20, on the sample run with two tenants. *)
Lemma callback_success_location_fields_witness :
  exists name id multiple tenants tokens tokenData connections bundle,
    header "Location"
      (resp_headers (success_redirect
                       (selected_location [("A", "Acme"); ("B", "Bolt")] Sample.bundle)))
    = Some ("/?" +:+ join "&" [ "auth=success"; "tenantName=" +:+ name; "tenantId=" +:+ id
                              ; "multipleOrgs=" +:+ multiple; "tenants=" +:+ tenants
                              ; "tokens=" +:+ tokens ])
    /\ split_on "&" (join "&" [ "auth=success"; "tenantName=" +:+ name; "tenantId=" +:+ id
                              ; "multipleOrgs=" +:+ multiple; "tenants=" +:+ tenants
                              ; "tokens=" +:+ tokens ])
       = [ "auth=success"; "tenantName=" +:+ name; "tenantId=" +:+ id
         ; "multipleOrgs=" +:+ multiple; "tenants=" +:+ tenants; "tokens=" +:+ tokens ]
    /\ (multiple = "true" \/ multiple = "false")
    /\ reaches_tenants Sample.two_tenants Sample.returning tokenData connections
    /\ token_bundle Sample.two_tenants tokenData = Return bundle
    /\ form_decode tokens = Some bundle.
Proof.
  exact (callback_success_location_fields Sample.two_tenants Sample.returning _ _
           returning_succeeds sample_is_success).
Defined.

(** X21, on the sample run with two tenants. *)
Lemma callback_response_is_redirect_witness :
  is_redirect (success_redirect
                 (selected_location [("A", "Acme"); ("B", "Bolt")] Sample.bundle)).
Proof.
  exact (callback_response_is_redirect Sample.two_tenants Sample.returning _ _
           returning_succeeds).
Defined.

End MoreSamples.
